(** * RDAP lookup: bootstrap resolution, query classification, normalization

    A shallow embedding of the two API routes of the repository
    ([routes/api/rdap.ts], the Verisign-only route, and the bootstrap-registry
    route) and of the lookup island ([islands/RdapLookup.tsx]), together with
    the properties their specification states.

    Modelling conventions.
    - A JavaScript string is a [string] of bytes: an ASCII character is one
      byte, a character outside ASCII is a sequence of bytes above 127, as in
      UTF-8. Concatenation, comparison, [startsWith] and [split] with an ASCII
      argument, and patterns whose classes are ASCII are exact on this
      reading.
    - [toLowerCase], [toUpperCase] and [trim] follow the Unicode tables and
      are platform functions: the development is parametric in them
      ([Platform]) and assumes of them what ECMAScript guarantees
      ([PlatformLaws]), mainly their result on ASCII text.
    - [undefined] and [null] of an optional field are both [None].
    - A thrown exception is a value of [thrown]; code that may throw lives in
      the [js] monad, asynchronous code in [prog], whose nodes are the calls
      to [performance.now()] and [fetch].
    - [performance.now()] readings are doubles, embedded in the rationals;
      their difference, rounded to a double, is the platform's
      [number_minus]; [Math.round], which is exact, is [Math_round].
    - [formatDate] ([new Date(..).toLocaleDateString(..)]) is a platform
      function: the development is parametric in it. *)

From Stdlib Require Import QArith Qround.
From stdpp Require Import gmap strings list fin_maps pretty.
From Stdlib Require Import Ascii.
From Stdlib Require String.

#[local] Set Warnings "-register-all".
Local Open Scope stdpp_scope.
Local Open Scope Z_scope.

(** ** JavaScript primitives *)

Module JS.

(** *** Strings *)

Definition chars : string -> list ascii := String.list_ascii_of_string.
Definition str : list ascii -> string := String.string_of_list_ascii.

Definition in_range (lo hi : N) (c : ascii) : bool :=
  ((lo <=? N_of_ascii c) && (N_of_ascii c <=? hi))%N.

Definition is_upper : ascii -> bool := in_range 65 90.
Definition is_lower : ascii -> bool := in_range 97 122.
Definition is_digit : ascii -> bool := in_range 48 57.

Definition is_ascii (c : ascii) : bool := (N_of_ascii c <? 128)%N.

(** Text made of ASCII characters only. *)
Definition isAscii (s : string) : bool := forallb is_ascii (chars s).

Definition lower_char (c : ascii) : ascii :=
  if is_upper c then ascii_of_N (N_of_ascii c + 32) else c.

Definition upper_char (c : ascii) : ascii :=
  if is_lower c then ascii_of_N (N_of_ascii c - 32) else c.

Fixpoint trimStart_chars (l : list ascii) : list ascii :=
  match l with
  | c :: l' => if Ascii.is_space c then trimStart_chars l' else l
  | [] => []
  end.

(** What [toLowerCase], [toUpperCase] and [trim] do to ASCII text: only the
    letters A-Z and a-z have another case, and the white space and line
    terminators are the tab, the line feed, the vertical tab, the form feed,
    the carriage return and the space. *)
Definition asciiLowerCase (s : string) : string := str (map lower_char (chars s)).
Definition asciiUpperCase (s : string) : string := str (map upper_char (chars s)).
Definition asciiTrim (s : string) : string :=
  str (rev (trimStart_chars (rev (trimStart_chars (chars s))))).

(** The functions of the platform the code calls and this development does
    not define: [s.toLowerCase()], [s.toUpperCase()] and [s.trim()], whose
    result on text outside ASCII depends on the Unicode tables, and the
    subtraction [a - b] of two doubles, whose result is rounded to a
    double. *)
Class Platform : Type := {
  toLowerCase : string -> string;
  toUpperCase : string -> string;
  trim : string -> string;
  number_minus : Q -> Q -> Q
}.

(** What is assumed of them: the result of the three string functions on
    ASCII text; that lowercasing a lowercased string changes nothing; that
    the rounded difference of two doubles has the sign of their
    difference. *)
Class PlatformLaws (P : Platform) : Prop := {
  toLowerCase_ascii : forall s, isAscii s = true -> toLowerCase s = asciiLowerCase s;
  toLowerCase_idem : forall s, toLowerCase (toLowerCase s) = toLowerCase s;
  toUpperCase_ascii : forall s, isAscii s = true -> toUpperCase s = asciiUpperCase s;
  trim_ascii : forall s, isAscii s = true -> trim s = asciiTrim s;
  number_minus_sign : forall a b, (a <= b)%Q -> (0 <= number_minus b a)%Q
}.

(** [s.split(sep)] for a one-character separator: never the empty list. *)
Fixpoint split_chars (sep : ascii) (l : list ascii) : list (list ascii) :=
  match l with
  | [] => [[]]
  | c :: l' =>
      if Ascii.eqb c sep then [] :: split_chars sep l'
      else match split_chars sep l' with
           | part :: parts => (c :: part) :: parts
           | [] => [[c]]
           end
  end.

Definition split (sep : ascii) (s : string) : list string :=
  map str (split_chars sep (chars s)).

(** [s.startsWith(p)] *)
Definition startsWith (p s : string) : bool := String.prefix p s.

(** Truthiness of a [string | undefined]: the empty string is falsy. *)
Definition truthy (v : option string) : bool :=
  match v with
  | Some s => negb (String.eqb s "")
  | None => false
  end.

(** [a || b] on [string | undefined] *)
Definition or_else (a b : option string) : option string :=
  if truthy a then a else b.

(** [a || []] on an optional array: an array is always truthy. *)
Definition or_nil {A} (a : option (list A)) : list A := default [] a.

(** [arr.includes(x)] on an array of strings *)
Definition includes (x : string) (arr : list string) : bool :=
  existsb (String.eqb x) arr.

(** The double quote, for the messages that quote a value. *)
Definition dquote : string := String "034"%char "".

(** [Math.round]: the nearest integer, halves towards plus infinity. *)
Definition Math_round (x : Q) : Z := Qfloor (x + (1 # 2))%Q.
Arguments Math_round : simpl never.

(** *** Exceptions *)

(** What a [catch] clause receives: an [Error] with its message, or any
    other thrown value. *)
Inductive thrown : Type :=
  | JsError (message : string)
  | JsOther.

Inductive js (A : Type) : Type :=
  | Returns (a : A)
  | Throws (e : thrown).
Arguments Returns {A} a.
Arguments Throws {A} e.

Definition js_bind {A B} (m : js A) (k : A -> js B) : js B :=
  match m with
  | Returns a => k a
  | Throws e => Throws e
  end.

(** [o.f] and [o[i]] where [o] may be [undefined]: a TypeError. *)
Definition deref {A} (o : option A) : js A :=
  match o with
  | Some a => Returns a
  | None => Throws (JsError "Cannot read properties of undefined")
  end.

(** *** Regular expressions, as far as the validation pattern needs them *)

Inductive regexp : Type :=
  | ReClass (p : ascii -> bool)          (* [a-z0-9], [a-z0-9-], \. *)
  | ReEps                                (* the empty pattern *)
  | ReVoid                               (* matches nothing *)
  | ReCat (r1 r2 : regexp)               (* r1r2 *)
  | ReAlt (r1 r2 : regexp)               (* r1|r2 *)
  | ReStar (r : regexp).                 (* r* *)

Definition ReOpt (r : regexp) : regexp := ReAlt r ReEps.          (* r? *)
Definition RePlus (r : regexp) : regexp := ReCat r (ReStar r).    (* r+ *)
Definition ReChar (c : ascii) : regexp := ReClass (Ascii.eqb c).

Fixpoint nullable (r : regexp) : bool :=
  match r with
  | ReClass _ => false
  | ReEps => true
  | ReVoid => false
  | ReCat r1 r2 => nullable r1 && nullable r2
  | ReAlt r1 r2 => nullable r1 || nullable r2
  | ReStar _ => true
  end.

Fixpoint deriv (c : ascii) (r : regexp) : regexp :=
  match r with
  | ReClass p => if p c then ReEps else ReVoid
  | ReEps => ReVoid
  | ReVoid => ReVoid
  | ReCat r1 r2 =>
      if nullable r1 then ReAlt (ReCat (deriv c r1) r2) (deriv c r2)
      else ReCat (deriv c r1) r2
  | ReAlt r1 r2 => ReAlt (deriv c r1) (deriv c r2)
  | ReStar r1 => ReCat (deriv c r1) (ReStar r1)
  end.

Fixpoint match_chars (r : regexp) (l : list ascii) : bool :=
  match l with
  | [] => nullable r
  | c :: l' => match_chars (deriv c r) l'
  end.

(** [/^r$/.test(s)] *)
Definition test (r : regexp) (s : string) : bool := match_chars r (chars s).

End JS.

(** ** The decoded RDAP object *)

Module Rdap.

(** A JSON value, for the members the interfaces leave as [unknown]. *)
Inductive json : Type :=
  | JNull
  | JBool (b : bool)
  | JNum (n : Z)
  | JStr (s : string)
  | JArr (items : list json)
  | JObj (members : list (string * json)).

(** [string | string[]], the value slot of a vCard property *)
Inductive vcardValue : Type :=
  | VText (s : string)
  | VTexts (l : list string).

(** [[string, Record<string, unknown>, string, string | string[]]] *)
Record vcardEntry : Type := {
  vc_name : string;                       (* entry[0] *)
  vc_params : list (string * json);       (* entry[1] *)
  vc_type : string;                       (* entry[2] *)
  vc_value : vcardValue                   (* entry[3] *)
}.

Record publicId : Type := {
  type : string;
  identifier : string
}.

(** [vcardArray] is the pair [["vcard", properties]]; the code reads its
    second element with [?.], so that element may be missing here. *)
Record RdapEntity : Type := {
  roles : option (list string);
  publicIds : option (list publicId);
  vcardArray : option (string * option (list vcardEntry))
}.

Record RdapEvent : Type := {
  eventAction : string;
  eventDate : string
}.

Record ipAddressSet : Type := {
  v4 : option (list string);
  v6 : option (list string)
}.

(** The bootstrap route's interface; the Verisign route's declares no
    [ipAddresses] and never reads that member. *)
Record RdapNameserver : Type := {
  ns_ldhName : string;
  objectClassName : string;
  ipAddresses : option ipAddressSet
}.

Record dsRecord : Type := {
  keyTag : Z;
  algorithm : Z;
  digestType : Z;
  digest : string
}.

Record secureDNSData : Type := {
  sd_delegationSigned : option bool;
  sd_dsData : option (list dsRecord)
}.

Record link : Type := {
  rel : string;
  href : string;
  link_type : option string
}.

Record RdapResponse : Type := {
  ldhName : string;
  handle : option string;
  status : option (list string);
  events : option (list RdapEvent);
  nameservers : option (list RdapNameserver);
  entities : option (list RdapEntity);
  secureDNS : option secureDNSData;
  links : option (list link)
}.

End Rdap.

(** ** The platform: clock, network, asynchronous programs *)

Module Runtime.
Import JS.

(** What [fetch] resolves to: the status line and what [response.json()]
    will yield, the decoded object or the exception of a body that does not
    parse. *)
Record HttpResponse : Type := {
  resp_status : Z;
  resp_json : js Rdap.RdapResponse
}.

(** [response.ok] *)
Definition ok (r : HttpResponse) : bool :=
  (200 <=? resp_status r) && (resp_status r <=? 299).

(** An asynchronous computation: its result, or a call to the platform and
    the continuation that awaits the answer. *)
Inductive prog (A : Type) : Type :=
  | Ret (a : A)
  | PerformanceNow (k : Q -> prog A)
  | Fetch (url : string) (accept : string) (k : js HttpResponse -> prog A).
Arguments Ret {A} a.
Arguments PerformanceNow {A} k.
Arguments Fetch {A} url accept k.

Fixpoint bind {A B} (m : prog A) (f : A -> prog B) : prog B :=
  match m with
  | Ret a => f a
  | PerformanceNow k => PerformanceNow (fun t => bind (k t) f)
  | Fetch url accept k => Fetch url accept (fun r => bind (k r) f)
  end.

Definition performance_now : prog Q := PerformanceNow Ret.
Definition fetch (url accept : string) : prog (js HttpResponse) :=
  Fetch url accept Ret.

(** The body of a [try] block: a computation that ends in a value or in an
    exception; [try_bind] sequences two of them, [try_catch] closes the
    block with its handler. *)
Definition try_bind {A B} (m : prog (js A)) (f : A -> prog (js B)) : prog (js B) :=
  bind m (fun r => match r with Returns a => f a | Throws e => Ret (Throws e) end).

Definition try_catch {A} (body : prog (js A)) (handler : thrown -> prog A) : prog A :=
  bind body (fun r => match r with Returns a => Ret a | Throws e => handler e end).

Definition lift {A} (m : prog A) : prog (js A) := bind m (fun a => Ret (Returns a)).

(** A run of the platform: the successive clock readings and what the
    network answers for each URL. *)
Record World : Type := {
  now : nat -> Q;
  net : string -> js HttpResponse
}.

(** [run w n log p]: the result of [p] in [w] from the [n]-th clock
    reading on, and [log] extended with the URLs fetched, in order. *)
Fixpoint run {A} (w : World) (n : nat) (log : list string) (p : prog A)
  : A * list string :=
  match p with
  | Ret a => (a, log)
  | PerformanceNow k => run w (S n) log (k (now w n))
  | Fetch url _ k => run w n (log ++ [url]) (k (net w url))
  end.

Definition exec {A} (w : World) (p : prog A) : A * list string := run w 0%nat [] p.

(** The JSON body of a handler's response, over the route's success
    record. *)
Inductive body (R : Type) : Type :=
  | Failure (error : string) (queryTime : option Z)
      (* { success: false, error, queryTime? } *)
  | Success (result : R).
Arguments Failure {R} error queryTime.
Arguments Success {R} result.

Record Response (R : Type) : Type := {
  http_status : Z;
  resp_body : body R
}.
Arguments http_status {R} _.
Arguments resp_body {R} _.

(** [Response.json(b)] and [Response.json(b, { status })] *)
Definition Response_json {R} (b : body R) (status : option Z) : Response R :=
  {| http_status := default 200 status; resp_body := b |}.

End Runtime.

(** Sequencing inside a [try] block. *)
Notation "x <~ m ;; k" := (Runtime.try_bind m (fun x => k))
  (at level 100, m at next level, right associativity, only parsing).

#[global] Instance js_mbind : MBind JS.js := fun _ _ k m => JS.js_bind m k.
#[global] Instance js_mret : MRet JS.js := @JS.Returns.
#[global] Instance prog_mbind : MBind Runtime.prog := fun _ _ k m => Runtime.bind m k.
#[global] Instance prog_mret : MRet Runtime.prog := @Runtime.Ret.

(** ** The Verisign route: [routes/api/rdap.ts] *)

Module Verisign.
Import JS Rdap Runtime.

Section Route.

Context {platform : Platform}.

Definition getTld (domain : string) : option string :=
  let parts := split "." (toLowerCase domain) in
  if (length parts <? 2)%nat then None
  else parts !! (length parts - 1)%nat.

Definition getRdapUrl (domain : string) : option string :=
  match getTld domain with
  | Some tld =>
      if String.eqb tld "com" || String.eqb tld "net"
      then Some ("https://rdap.verisign.com/" +:+ tld +:+ "/v1/domain/" +:+ domain)
      else None
  | None => None
  end.

Definition extractRegistrar (entities : option (list RdapEntity)) : js (option string) :=
  match entities with
  | None => Returns None
  | Some entities =>
      let registrarEntity :=
        find (fun e => default false (includes "registrar" <$> roles e)) entities in
      match registrarEntity ≫= vcardArray with
      | None => Returns None
      | Some _ =>
          e ← deref registrarEntity;
          va ← deref (vcardArray e);
          let vcard := snd va in
          let fnEntry :=
            vcard ≫= find (fun entry => String.eqb (vc_name entry) "fn") in
          match vc_value <$> fnEntry with
          | Some (VText s) => Returns (Some s)
          | _ => Returns None
          end
      end
  end.

Definition extractIanaId (entities : option (list RdapEntity)) : js (option string) :=
  match entities with
  | None => Returns None
  | Some entities =>
      let registrarEntity :=
        find (fun e => default false (includes "registrar" <$> roles e)) entities in
      match registrarEntity ≫= publicIds with
      | None => Returns None
      | Some _ =>
          e ← deref registrarEntity;
          ids ← deref (publicIds e);
          let ianaId :=
            find (fun id => String.eqb (type id) "IANA Registrar ID") ids in
          Returns (or_else (identifier <$> ianaId) None)
      end
  end.

(** [result.events] *)
Record eventDates : Type := {
  registration : option string;
  expiration : option string;
  lastChanged : option string;
  lastUpdateOfRdapDatabase : option string
}.

(** [result.dnssec] *)
Record dnssecInfo : Type := {
  delegationSigned : bool;
  dsData : list dsRecord
}.

(** The object [result] of [GET]. *)
Record result : Type := {
  success : bool;
  domain : string;
  handle : option string;
  status : list string;
  queryTime : Z;
  events : eventDates;
  nameservers : list string;
  registrar : option string;
  ianaId : option string;
  dnssec : dnssecInfo;
  rawResponse : RdapResponse
}.

(** /^[a-z0-9]([a-z0-9-]*[a-z0-9])?(\.[a-z0-9]([a-z0-9-]*[a-z0-9])?)+$/ *)
Definition domainRegex : regexp :=
  let alnum := ReClass (fun c => is_lower c || is_digit c) in
  let ldh := ReClass (fun c => is_lower c || is_digit c || Ascii.eqb c "-") in
  let label := ReCat alnum (ReOpt (ReCat (ReStar ldh) alnum)) in
  ReCat label (RePlus (ReCat (ReChar ".") label)).

Section Handler.

Variable formatDate : string -> string.

(** One turn of the loop over [data.events]: the [switch] on
    [event.eventAction]. *)
Definition setEvent (ev : eventDates) (event : RdapEvent) : eventDates :=
  let date := Some (formatDate (eventDate event)) in
  if String.eqb (eventAction event) "registration" then
    {| registration := date; expiration := expiration ev;
       lastChanged := lastChanged ev;
       lastUpdateOfRdapDatabase := lastUpdateOfRdapDatabase ev |}
  else if String.eqb (eventAction event) "expiration" then
    {| registration := registration ev; expiration := date;
       lastChanged := lastChanged ev;
       lastUpdateOfRdapDatabase := lastUpdateOfRdapDatabase ev |}
  else if String.eqb (eventAction event) "last changed" then
    {| registration := registration ev; expiration := expiration ev;
       lastChanged := date;
       lastUpdateOfRdapDatabase := lastUpdateOfRdapDatabase ev |}
  else if String.eqb (eventAction event) "last update of RDAP database" then
    {| registration := registration ev; expiration := expiration ev;
       lastChanged := lastChanged ev;
       lastUpdateOfRdapDatabase := date |}
  else ev.

Definition noEvents : eventDates :=
  {| registration := None; expiration := None; lastChanged := None;
     lastUpdateOfRdapDatabase := None |}.

(** "Extract events": the guarded loop that fills [result.events]. *)
Definition extractEvents (evs : option (list RdapEvent)) : eventDates :=
  match evs with
  | Some evs => foldl setEvent noEvents evs
  | None => noEvents
  end.

(** "Parse and structure the response": the object literal and the event
    loop of [GET], from the decoded [data] to the [result] it returns. *)
Definition normalize (data : RdapResponse) (queryTime : Z) : js result :=
  registrar ← extractRegistrar (entities data);
  ianaId ← extractIanaId (entities data);
  mret {|
    success := true;
    domain := ldhName data;
    handle := or_else (Rdap.handle data) None;
    status := or_nil (Rdap.status data);
    queryTime := queryTime;
    events := extractEvents (Rdap.events data);
    nameservers := or_nil (map ns_ldhName <$> Rdap.nameservers data);
    registrar := registrar;
    ianaId := ianaId;
    dnssec := {|
      delegationSigned := default false (secureDNS data ≫= sd_delegationSigned);
      dsData := or_nil (secureDNS data ≫= sd_dsData) |};
    rawResponse := data
  |}.

(** The template literal's rendering of [string | null]. *)
Definition show (v : option string) : string := default "null" v.

Definition catchMessage (error : thrown) : string :=
  match error with
  | JsError message => message
  | JsOther => "RDAP lookup failed"
  end.

(** The handler, from the [domain] query parameter ([None] when the URL
    has none). *)
Definition GET (param : option string) : prog (Response result) :=
  let domain := (fun s => toLowerCase (trim s)) <$> param in
  if negb (truthy domain) then
    Ret (Response_json (Failure "Domain parameter is required" None) (Some 400))
  else
  let domain := default "" domain in
  if negb (test domainRegex domain) then
    Ret (Response_json (Failure "Invalid domain format" None) (Some 400))
  else
  let rdapUrl := getRdapUrl domain in
  if negb (truthy rdapUrl) then
    let tld := getTld domain in
    Ret (Response_json
           (Failure ("TLD " +:+ dquote +:+ "." +:+ show tld +:+ dquote +:+
                     " is not supported. Only .com and .net domains are supported via Verisign RDAP.")
                    None)
           (Some 400))
  else
  let rdapUrl := default "" rdapUrl in
  startTime ← performance_now;
  try_catch
    (response <~ fetch rdapUrl "application/rdap+json";;
     t <~ lift performance_now;;
     let queryTime := Math_round (number_minus t startTime) in
     if resp_status response =? 404 then
       Ret (Returns (Response_json
         (Failure ("Domain " +:+ dquote +:+ domain +:+ dquote +:+
                   " not found in RDAP registry") (Some queryTime)) None))
     else if negb (ok response) then
       Ret (Returns (Response_json
         (Failure ("RDAP lookup failed with status " +:+ pretty (resp_status response))
                  (Some queryTime)) None))
     else
       data <~ Ret (resp_json response);;
       result <~ Ret (normalize data queryTime);;
       Ret (Returns (Response_json (Success result) None)))
    (fun error =>
       t ← performance_now;
       let queryTime := Math_round (number_minus t startTime) in
       Ret (Response_json (Failure (catchMessage error) (Some queryTime)) None)).

End Handler.

End Route.

End Verisign.

(** ** The bootstrap-registry route *)

Module Bootstrap.
Import JS Rdap Runtime.

Section Route.

Context {platform : Platform}.

(** The bundled IANA snapshot [dns.json]: [services] is a list of pairs
    [[tlds, endpoints]]. *)
Record BootstrapData : Type := {
  services : list (list string * list string)
}.

(** [Map<string, string>]; a key is bound to [undefined] ([None]) when its
    entry had no endpoint at all. *)
Abbreviation endpointMap := (gmap string (option string)).

(** "Use first endpoint (prefer HTTPS)":
    [endpoints.find((e) => e.startsWith("https://")) || endpoints[0]] *)
Definition preferHttps (endpoints : list string) : option string :=
  or_else (find (startsWith "https://") endpoints) (endpoints !! 0%nat).

(** One turn of the loop over [data.services]. *)
Definition registerService (m : endpointMap) (service : list string * list string)
  : endpointMap :=
  let '(tlds, endpoints) := service in
  let endpoint := preferHttps endpoints in
  foldl (fun m tld => <[toLowerCase tld := endpoint]> m) m tlds.

Definition getTld (domain : string) : option string :=
  let parts := split "." (toLowerCase domain) in
  if (length parts <? 2)%nat then None
  else parts !! (length parts - 1)%nat.

Definition extractRegistrar (entities : option (list RdapEntity)) : js (option string) :=
  match entities with
  | None => Returns None
  | Some entities =>
      let registrarEntity :=
        find (fun e => default false (includes "registrar" <$> roles e)) entities in
      match registrarEntity ≫= vcardArray with
      | None => Returns None
      | Some _ =>
          e ← deref registrarEntity;
          va ← deref (vcardArray e);
          let vcard := snd va in
          let fnEntry :=
            vcard ≫= find (fun entry => String.eqb (vc_name entry) "fn") in
          match vc_value <$> fnEntry with
          | Some (VText s) => Returns (Some s)
          | _ => Returns None
          end
      end
  end.

Definition extractIanaId (entities : option (list RdapEntity)) : js (option string) :=
  match entities with
  | None => Returns None
  | Some entities =>
      let registrarEntity :=
        find (fun e => default false (includes "registrar" <$> roles e)) entities in
      match registrarEntity ≫= publicIds with
      | None => Returns None
      | Some _ =>
          e ← deref registrarEntity;
          ids ← deref (publicIds e);
          let ianaId :=
            find (fun id => String.eqb (type id) "IANA Registrar ID") ids in
          Returns (or_else (identifier <$> ianaId) None)
      end
  end.

(** [result.events] *)
Record eventDates : Type := {
  registration : option string;
  expiration : option string;
  lastChanged : option string;
  lastUpdateOfRdapDatabase : option string
}.

(** An element of [result.nameservers] *)
Record nameserver : Type := {
  name : string;
  ipv4 : list string;
  ipv6 : list string
}.

(** [result.dnssec] *)
Record dnssecInfo : Type := {
  delegationSigned : bool;
  dsData : list dsRecord
}.

(** The object [result] of [GET]. *)
Record result : Type := {
  success : bool;
  domain : string;
  handle : option string;
  status : list string;
  queryTime : Z;
  rdapServer : string;
  events : eventDates;
  nameservers : list nameserver;
  registrar : option string;
  ianaId : option string;
  dnssec : dnssecInfo;
  rawResponse : RdapResponse
}.

(** /^[a-z0-9]([a-z0-9-]*[a-z0-9])?(\.[a-z0-9]([a-z0-9-]*[a-z0-9])?)+$/ *)
Definition domainRegex : regexp :=
  let alnum := ReClass (fun c => is_lower c || is_digit c) in
  let ldh := ReClass (fun c => is_lower c || is_digit c || Ascii.eqb c "-") in
  let label := ReCat alnum (ReOpt (ReCat (ReStar ldh) alnum)) in
  ReCat label (RePlus (ReCat (ReChar ".") label)).

(** The template literal's rendering of [string | null]. *)
Definition show (v : option string) : string := default "null" v.

Definition catchMessage (error : thrown) : string :=
  match error with
  | JsError message => message
  | JsOther => "RDAP lookup failed"
  end.

Section Handler.

(** The imported snapshot and the platform's date formatting. *)
Variable dnsBootstrap : BootstrapData.
Variable formatDate : string -> string.

(** [loadBootstrap()], over the module variable [tldToEndpoint]: the map
    it returns and the variable's new value. *)
Definition loadBootstrap (tldToEndpoint : option endpointMap)
  : endpointMap * option endpointMap :=
  match tldToEndpoint with
  | Some m => (m, tldToEndpoint)
  | None =>
      let m := foldl registerService ∅ (services dnsBootstrap) in
      (m, Some m)
  end.

Definition getRdapUrl (tldToEndpoint : option endpointMap) (domain : string)
  : option (string * string) * option endpointMap :=
  let tld := getTld domain in
  if negb (truthy tld) then (None, tldToEndpoint)
  else
  let tld := default "" tld in
  let '(endpoints, tldToEndpoint) := loadBootstrap tldToEndpoint in
  let endpoint := mjoin (endpoints !! tld) in
  if negb (truthy endpoint) then (None, tldToEndpoint)
  else
  let endpoint := default "" endpoint in
  (Some (endpoint +:+ "domain/" +:+ domain, endpoint), tldToEndpoint).

(** One turn of the loop over [data.events]: the [switch] on
    [event.eventAction]. *)
Definition setEvent (ev : eventDates) (event : RdapEvent) : eventDates :=
  let date := Some (formatDate (eventDate event)) in
  if String.eqb (eventAction event) "registration" then
    {| registration := date; expiration := expiration ev;
       lastChanged := lastChanged ev;
       lastUpdateOfRdapDatabase := lastUpdateOfRdapDatabase ev |}
  else if String.eqb (eventAction event) "expiration" then
    {| registration := registration ev; expiration := date;
       lastChanged := lastChanged ev;
       lastUpdateOfRdapDatabase := lastUpdateOfRdapDatabase ev |}
  else if String.eqb (eventAction event) "last changed" then
    {| registration := registration ev; expiration := expiration ev;
       lastChanged := date;
       lastUpdateOfRdapDatabase := lastUpdateOfRdapDatabase ev |}
  else if String.eqb (eventAction event) "last update of RDAP database" then
    {| registration := registration ev; expiration := expiration ev;
       lastChanged := lastChanged ev;
       lastUpdateOfRdapDatabase := date |}
  else ev.

Definition noEvents : eventDates :=
  {| registration := None; expiration := None; lastChanged := None;
     lastUpdateOfRdapDatabase := None |}.

(** "Extract events": the guarded loop that fills [result.events]. *)
Definition extractEvents (evs : option (list RdapEvent)) : eventDates :=
  match evs with
  | Some evs => foldl setEvent noEvents evs
  | None => noEvents
  end.

(** The callback of [data.nameservers?.map(..)]. *)
Definition toNameserver (ns : RdapNameserver) : nameserver :=
  {| name := ns_ldhName ns;
     ipv4 := or_nil (ipAddresses ns ≫= v4);
     ipv6 := or_nil (ipAddresses ns ≫= v6) |}.

(** "Parse and structure the response": the object literal and the event
    loop of [GET], from the decoded [data] to the [result] it returns. *)
Definition normalize (data : RdapResponse) (queryTime : Z) (rdapEndpoint : string)
  : js result :=
  registrar ← extractRegistrar (entities data);
  ianaId ← extractIanaId (entities data);
  mret {|
    success := true;
    domain := ldhName data;
    handle := or_else (Rdap.handle data) None;
    status := or_nil (Rdap.status data);
    queryTime := queryTime;
    rdapServer := rdapEndpoint;
    events := extractEvents (Rdap.events data);
    nameservers := or_nil (map toNameserver <$> Rdap.nameservers data);
    registrar := registrar;
    ianaId := ianaId;
    dnssec := {|
      delegationSigned := default false (secureDNS data ≫= sd_delegationSigned);
      dsData := or_nil (secureDNS data ≫= sd_dsData) |};
    rawResponse := data
  |}.

(** The handler, from the module variable [tldToEndpoint] and the [domain]
    query parameter ([None] when the URL has none), to the response and the
    module variable's new value. *)
Definition GET (tldToEndpoint : option endpointMap) (param : option string)
  : prog (Response result * option endpointMap) :=
  let domain := (fun s => toLowerCase (trim s)) <$> param in
  if negb (truthy domain) then
    Ret (Response_json (Failure "Domain parameter is required" None) (Some 400),
         tldToEndpoint)
  else
  let domain := default "" domain in
  if negb (test domainRegex domain) then
    Ret (Response_json (Failure "Invalid domain format" None) (Some 400),
         tldToEndpoint)
  else
  let '(rdapResult, tldToEndpoint) := getRdapUrl tldToEndpoint domain in
  match rdapResult with
  | None =>
      let tld := getTld domain in
      Ret (Response_json
             (Failure ("TLD " +:+ dquote +:+ "." +:+ show tld +:+ dquote +:+
                       " is not supported. No RDAP endpoint found in IANA bootstrap registry.")
                      None)
             (Some 400),
           tldToEndpoint)
  | Some (rdapUrl, rdapEndpoint) =>
      startTime ← performance_now;
      response ← try_catch
        (response <~ fetch rdapUrl "application/rdap+json";;
         t <~ lift performance_now;;
         let queryTime := Math_round (number_minus t startTime) in
         if resp_status response =? 404 then
           Ret (Returns (Response_json
             (Failure ("Domain " +:+ dquote +:+ domain +:+ dquote +:+
                       " not found in RDAP registry") (Some queryTime)) None))
         else if negb (ok response) then
           Ret (Returns (Response_json
             (Failure ("RDAP lookup failed with status " +:+ pretty (resp_status response))
                      (Some queryTime)) None))
         else
           data <~ Ret (resp_json response);;
           result <~ Ret (normalize data queryTime rdapEndpoint);;
           Ret (Returns (Response_json (Success result) None)))
        (fun error =>
           t ← performance_now;
           let queryTime := Math_round (number_minus t startTime) in
           Ret (Response_json (Failure (catchMessage error) (Some queryTime)) None));
      Ret (response, tldToEndpoint)
  end.

End Handler.

End Route.

End Bootstrap.

(** ** The contract, in the specification's words *)

Module Contract.
Import JS Rdap.

(** The entity's role set contains [role]. *)
Definition hasRole (role : string) (e : RdapEntity) : bool :=
  match roles e with
  | Some rs => includes role rs
  | None => false
  end.

(** The vCard entry is tagged [tag]. *)
Definition tagged (tag : string) (entry : vcardEntry) : bool :=
  String.eqb (vc_name entry) tag.

(** The public identifier's type label is exactly [label]. *)
Definition labelled (label : string) (id : publicId) : bool :=
  String.eqb (type id) label.

(** The first entity whose role set contains ["registrar"]. *)
Definition registrarEntity (entities : option (list RdapEntity)) : option RdapEntity :=
  entities ≫= find (hasRole "registrar").

(** The value of the entity's first vCard entry tagged ["fn"], when it is
    a single string. *)
Definition fnOf (e : RdapEntity) : option string :=
  va ← vcardArray e;
  props ← va.2;
  entry ← find (tagged "fn") props;
  match vc_value entry with
  | VText s => Some s
  | VTexts _ => None
  end.

(** The value of the entity's first public identifier labelled
    ["IANA Registrar ID"], when it is not the empty string. *)
Definition ianaIdOf (e : RdapEntity) : option string :=
  ids ← publicIds e;
  id ← find (labelled "IANA Registrar ID") ids;
  if String.eqb (identifier id) "" then None else Some (identifier id).

(** The formatted date of the last event of the list whose action is
    exactly [action]. *)
Definition lastEventDate (formatDate : string -> string) (action : string)
    (evs : list RdapEvent) : option string :=
  (fun e => formatDate (eventDate e))
    <$> last (filter (fun e => eventAction e = action) evs).

(** The strict label syntax of a domain: a label is not empty, made of
    lowercase letters, digits and hyphens, and neither starts nor ends with
    a hyphen; a domain has at least two labels, separated by dots. *)
Definition alnum (c : ascii) : bool := is_lower c || is_digit c.
Definition ldh (c : ascii) : bool := alnum c || Ascii.eqb c "-".

Definition labelOk (l : list ascii) : Prop :=
  l <> [] /\ Forall (fun c => ldh c = true) l /\
  (forall c, head l = Some c -> alnum c = true) /\
  (forall c, last l = Some c -> alnum c = true).

Definition strictLabelSyntax (s : string) : Prop :=
  let labels := split_chars "." (chars s) in
  (2 <= length labels)%nat /\ Forall labelOk labels.

(** The TLD of a domain: its last label. *)
Definition lastLabel (s : string) : option string :=
  last (split "." s).

(** The failure kinds of the specification's [LookupFailure]. *)
Inductive failureKind : Type :=
  | InvalidInput
  | UnsupportedTld
  | NotFound
  | UpstreamError
  | TransportError.

(** The elapsed time a handler reports when it read the clock [i] times
    after its first reading. *)
Definition elapsed `{Platform} (w : Runtime.World) (i : nat) : Z :=
  Math_round (number_minus (Runtime.now w i) (Runtime.now w 0)).

(** The words a pattern matches. *)
Fixpoint lang (r : regexp) (s : list ascii) : Prop :=
  match r with
  | ReClass p => exists c, s = [c] /\ p c = true
  | ReEps => s = []
  | ReVoid => False
  | ReCat r1 r2 => exists s1 s2, s = s1 ++ s2 /\ lang r1 s1 /\ lang r2 s2
  | ReAlt r1 r2 => lang r1 s \/ lang r2 s
  | ReStar r1 => exists ss, s = concat ss /\ Forall (lang r1) ss
  end.

(** The labels joined by dots: the inverse of [split_chars "."]. *)
Definition join (labels : list (list ascii)) : list ascii :=
  match labels with
  | [] => []
  | l0 :: ls => l0 ++ concat (map (cons "."%char) ls)
  end.

(** [[a-z0-9]([a-z0-9-]*[a-z0-9])?] *)
Definition labelRe : regexp :=
  ReCat (ReClass alnum) (ReOpt (ReCat (ReStar (ReClass ldh)) (ReClass alnum))).

(** [\.[a-z0-9]([a-z0-9-]*[a-z0-9])?] *)
Definition dottedRe : regexp := ReCat (ReChar ".") labelRe.

(** The index of the snapshot, and the two states of the module variable
    [tldToEndpoint]: not loaded yet, or holding that index. *)
Definition index `{Platform} (dnsBootstrap : Bootstrap.BootstrapData)
  : gmap string (option string) :=
  (Bootstrap.loadBootstrap dnsBootstrap None).1.

Definition cacheOk `{Platform} (dnsBootstrap : Bootstrap.BootstrapData)
    (tldToEndpoint : option (gmap string (option string))) : Prop :=
  tldToEndpoint = None \/ tldToEndpoint = Some (index dnsBootstrap).

(** The texts of the handlers' error messages. *)
Definition notFoundMessage (d : string) : string :=
  "Domain " +:+ dquote +:+ d +:+ dquote +:+ " not found in RDAP registry".

Definition statusMessage (code : Z) : string :=
  "RDAP lookup failed with status " +:+ pretty code.

Definition unsupportedMessage (tld : option string) : string :=
  "TLD " +:+ dquote +:+ "." +:+ Bootstrap.show tld +:+ dquote +:+
  " is not supported. No RDAP endpoint found in IANA bootstrap registry.".

Definition verisignUnsupportedMessage (tld : option string) : string :=
  "TLD " +:+ dquote +:+ "." +:+ Verisign.show tld +:+ dquote +:+
  " is not supported. Only .com and .net domains are supported via Verisign RDAP.".

(** Why a request is turned down before the network is used: the [domain]
    parameter is missing or blank, it is not a domain, or its TLD is not
    served. *)
Inductive rejection : Type :=
  | MissingDomain
  | InvalidFormat
  | UnservedTld (tld : string).

(** The request with the query parameter [param] is turned down for [why]
    on a route that serves the TLDs [supported]. *)
Definition rejected `{Platform} (supported : string -> Prop) (param : option string)
    (why : rejection) : Prop :=
  match param with
  | None => why = MissingDomain
  | Some input =>
      let d := toLowerCase (trim input) in
      match why with
      | MissingDomain => d = ""
      | InvalidFormat => d <> "" /\ ~ strictLabelSyntax d
      | UnservedTld tld =>
          strictLabelSyntax d /\ lastLabel d = Some tld /\ ~ supported tld
      end
  end.

(** The request passes validation and resolution: its parameter, trimmed
    and lowercased, is a domain whose TLD is served. *)
Definition accepted `{Platform} (supported : string -> Prop) (param : option string)
    : Prop :=
  exists input tld,
    param = Some input
    /\ strictLabelSyntax (toLowerCase (trim input))
    /\ lastLabel (toLowerCase (trim input)) = Some tld
    /\ supported tld.

(** The TLDs each route serves: those the index binds to an endpoint that
    is not the empty string; [com] and [net]. *)
Definition bootstrapSupported `{Platform} (dnsBootstrap : Bootstrap.BootstrapData)
    (tld : string) : Prop :=
  exists endpoint, index dnsBootstrap !! tld = Some (Some endpoint) /\ endpoint <> "".

Definition verisignSupported (tld : string) : Prop := tld = "com" \/ tld = "net".

Definition rejectionMessage (unsupported : option string -> string) (why : rejection)
    : string :=
  match why with
  | MissingDomain => "Domain parameter is required"
  | InvalidFormat => "Invalid domain format"
  | UnservedTld tld => unsupported (Some tld)
  end.

(** What came back from upstream, in the specification's five outcomes:
    the exchange failed, a 404, another status outside 200..299, a 2xx with
    a body that does not parse, a 2xx with a decoded object. *)
Inductive upstream : Type :=
  | Unreachable (e : thrown)
  | Answered404
  | AnsweredStatus (code : Z)
  | Unparsable (e : thrown)
  | Parsed (data : RdapResponse).

Definition upstreamOf (answer : js Runtime.HttpResponse) : upstream :=
  match answer with
  | Throws e => Unreachable e
  | Returns r =>
      if Runtime.resp_status r =? 404 then Answered404
      else if negb (Runtime.ok r) then AnsweredStatus (Runtime.resp_status r)
      else match Runtime.resp_json r with
           | Throws e => Unparsable e
           | Returns data => Parsed data
           end
  end.

End Contract.

(** ** The scenarios of the specification *)

Module Scenario.
Import JS Rdap Runtime.

(** The snapshot of the specification's scenarios: "com" is served by one
    https endpoint; "zz" has no entry. *)
Definition exampleSnapshot : Bootstrap.BootstrapData :=
  {| Bootstrap.services := [ (["com"], ["https://rdap.example-registry.test/"]) ] |}.

(** A platform for the scenarios, whose texts are ASCII and whose clock
    readings subtract without rounding: the string functions as they act on
    ASCII text, and the exact difference. *)
Definition examplePlatform : Platform :=
  {| toLowerCase := asciiLowerCase; toUpperCase := asciiUpperCase;
     trim := asciiTrim; number_minus := Qminus |}.

(** A clock that advances by 3.5 ms per reading. *)
Definition exampleClock (n : nat) : Q := (inject_Z (Z.of_nat n) * (7 # 2))%Q.

(** Upstream answers 404. *)
Definition world404 : World :=
  {| now := exampleClock;
     net := fun _ => Returns {| resp_status := 404; resp_json := Throws JsOther |} |}.

(** The network fails: [fetch] rejects. *)
Definition worldTransport : World :=
  {| now := exampleClock;
     net := fun _ => Throws (JsError "unexpected end of file") |}.

(** Upstream answers 200 with a body that does not parse: [response.json()]
    rejects, here with the same message; the clock is read once more than
    in [worldTransport], and the elapsed time is the same. *)
Definition worldParse : World :=
  {| now := fun n => exampleClock (Nat.min n 1);
     net := fun _ => Returns {| resp_status := 200;
                                resp_json := Throws (JsError "unexpected end of file") |} |}.

End Scenario.

(** ** The [nameservers] member of the JSON body each route sends *)

Module Wire.
Import Rdap.

Definition strings (l : list string) : json := JArr (JStr <$> l).

Definition verisignNameservers (r : Verisign.result) : json :=
  strings (Verisign.nameservers r).

Definition bootstrapNameservers (r : Bootstrap.result) : json :=
  JArr ((fun ns => JObj [ ("name", JStr (Bootstrap.name ns));
                          ("ipv4", strings (Bootstrap.ipv4 ns));
                          ("ipv6", strings (Bootstrap.ipv6 ns)) ])
          <$> Bootstrap.nameservers r).

End Wire.

(** ** Further runs of the platform *)

Module Cases.
Import JS Rdap Runtime.

(** A snapshot whose entry for "zz" lists no endpoint. *)
Definition sparseSnapshot : Bootstrap.BootstrapData :=
  {| Bootstrap.services :=
       [ (["zz"], []); (["com"], ["https://rdap.example-registry.test/"]) ] |}.

(** A registered domain, as upstream describes it. *)
Definition exampleObject : RdapResponse :=
  {| ldhName := "EXAMPLE.COM"; handle := Some "2336799_DOMAIN_COM-VRSN";
     status := Some ["client transfer prohibited"];
     events := Some [ {| eventAction := "registration";
                         eventDate := "1995-08-14T04:00:00Z" |} ];
     nameservers := Some [ {| ns_ldhName := "A.IANA-SERVERS.NET";
                              objectClassName := "nameserver";
                              ipAddresses := None |} ];
     entities := None; secureDNS := None; links := None |}.

(** Upstream answers 200 with that object. *)
Definition worldFound : World :=
  {| now := Scenario.exampleClock;
     net := fun _ => Returns {| resp_status := 200;
                                resp_json := Returns exampleObject |} |}.

End Cases.

(** ** The lookup island: [islands/RdapLookup.tsx] *)

Module Island.
Import JS.

(** Two classes of the island's patterns reach beyond ASCII: [.] refuses
    the line terminators and [\s] accepts the white space and the line
    terminators, some of which (U+00A0, U+2028, U+2029, U+FEFF and the space
    separators) lie outside ASCII. They are modelled here as they act on
    ASCII text, and what is proved of [parseHash] and [formatStatus] is
    stated for ASCII text. *)

(** What [.] of a pattern refuses: the line terminators. *)
Definition lineTerminator (c : ascii) : bool :=
  Ascii.eqb c "010" || Ascii.eqb c "013".

(** [\/?\s*], the part of the pattern of [parseHash] after its group. *)
Definition hashTail : regexp :=
  ReCat (ReOpt (ReChar "/")) (ReStar (ReClass Ascii.is_space)).

(** [(.+?)] followed by [\/?\s*$]: the lazy group holds [taken] and grows
    by one character, which [.] must accept, each time what follows it is
    not an optional slash and white space up to the end. *)
Fixpoint lazyGroup (taken rest : list ascii) : option (list ascii) :=
  if match_chars hashTail rest then Some taken
  else match rest with
       | c :: rest' =>
           if lineTerminator c then None else lazyGroup (taken ++ [c]) rest'
       | [] => None
       end.

(** [hash.match(/^#(.+?)\/?\s*$/)], then the group or [null]. *)
Definition parseHash (hash : string) : option string :=
  match chars hash with
  | "#"%char :: c :: rest =>
      if lineTerminator c then None else str <$> lazyGroup [c] rest
  | _ => None
  end.

(** [updateHash(domain)]: the URL it hands to [history.replaceState], from
    [location.pathname] and the domain. *)
Definition updateHash (pathname domain : string) : string :=
  if truthy (Some domain) then "#" +:+ domain else pathname.

(** [.replace(/([A-Z])/g, " $1")] *)
Definition spaceCapitals (l : list ascii) : list ascii :=
  flat_map (fun c => if is_upper c then [" "%char; c] else [c]) l.

Section Component.

Context {platform : Platform}.

(** [.replace(/^./, (s) => s.toUpperCase())]: the callback receives the
    one character [.] matched. *)
Definition capitalizeFirst (l : list ascii) : list ascii :=
  match l with
  | c :: rest =>
      if lineTerminator c then l else chars (toUpperCase (str [c])) ++ rest
  | [] => []
  end.

Definition formatStatus (status : string) : string :=
  trim (str (capitalizeFirst (spaceCapitals (chars status)))).

Section Lookup.

(** The success object the API sends, kept as it is in [result]. *)
Variable R : Type.

(** The signals of the component that [handleLookup] reads and writes. *)
Record state : Type := {
  domain : string;
  isLoading : bool;
  result : option R;
  error : option string
}.

(** The decoded body of the API's answer, as [handleLookup] looks at it:
    [data.success] falsy with [data.error], or the success object. *)
Inductive apiData : Type :=
  | ApiFailure (error : option string)
  | ApiSuccess (data : R).

(** A run of [handleLookup]: finished, or awaiting the API with the signals
    as they stand meanwhile; the continuation takes what [fetch] and then
    [response.json()] gave, each a value or an exception. *)
Inductive task : Type :=
  | Done (final : state)
  | Request (query : string) (meanwhile : state) (k : js (js apiData) -> state).

Definition handleLookup (st : state) : task :=
  let domainValue := toLowerCase (trim (domain st)) in
  if negb (truthy (Some domainValue)) then
    Done {| domain := domain st; isLoading := isLoading st; result := None;
            error := Some "Please enter a domain name" |}
  else
    Request domainValue
      {| domain := domain st; isLoading := true; result := None; error := None |}
      (fun outcome =>
         match outcome with
         | Returns (Returns (ApiSuccess data)) =>
             {| domain := domain st; isLoading := false; result := Some data;
                error := None |}
         | Returns (Returns (ApiFailure e)) =>
             {| domain := domain st; isLoading := false; result := None;
                error := or_else e (Some "RDAP lookup failed") |}
         | _ =>
             {| domain := domain st; isLoading := false; result := None;
                error := Some "Failed to perform RDAP lookup" |}
         end).

End Lookup.

End Component.

End Island.

(** ** What a status label is made of *)

Module Label.
Import JS.

(** The characters of a text that are not white space, in order and
    lowercased. *)
Definition letters (l : list ascii) : list ascii :=
  filter (fun c => Ascii.is_space c = false) (map lower_char l).

(** ASCII text with its first character uppercased, unless that character
    is a line terminator. *)
Definition upperFirst (l : list ascii) : list ascii :=
  match l with
  | c :: rest => if Island.lineTerminator c then l else upper_char c :: rest
  | [] => []
  end.

End Label.

(** * Properties *)

(** ** The platform *)

Section PlatformFacts.
Import JS Scenario.

Lemma str_chars (s : string) : str (chars s) = s.
Proof. apply String.string_of_list_ascii_of_string. Qed.

Lemma chars_str (l : list ascii) : chars (str l) = l.
Proof. apply String.list_ascii_of_string_of_list_ascii. Qed.

Lemma lower_char_idem (c : ascii) : lower_char (lower_char c) = lower_char c.
Proof. destruct c as [[] [] [] [] [] [] [] []]; reflexivity. Qed.

Lemma trimStart_id (l : list ascii) :
  (forall c, head l = Some c -> Ascii.is_space c = false) -> trimStart_chars l = l.
Proof.
  destruct l as [|c l]; [done|]. intros H. cbn. by rewrite (H c eq_refl).
Qed.

Lemma head_rev (l : list ascii) : head (rev l) = last l.
Proof.
  induction l as [|c l IH] using rev_ind; [done|].
  by rewrite rev_app_distr, last_snoc.
Qed.

(** Text that neither starts nor ends with white space is already
    trimmed. *)
Lemma asciiTrim_id (l : list ascii) :
  (forall c, head l = Some c -> Ascii.is_space c = false) ->
  (forall c, last l = Some c -> Ascii.is_space c = false) ->
  asciiTrim (str l) = str l.
Proof.
  intros Hhead Hlast. unfold asciiTrim. rewrite chars_str, (trimStart_id l Hhead).
  rewrite trimStart_id; [by rewrite rev_involutive|].
  intros c. rewrite head_rev. apply Hlast.
Qed.

(** The platform of the scenarios is one the development covers. *)
Lemma examplePlatform_laws : PlatformLaws examplePlatform.
Proof.
  split; try done.
  - intros s. cbn. unfold asciiLowerCase. rewrite chars_str, map_map. f_equal.
    apply map_ext. intros c. apply lower_char_idem.
  - intros a b Hab. cbn. unfold Qminus. rewrite <- (Qplus_opp_r a).
    by apply Qplus_le_l.
Qed.

End PlatformFacts.

(** ** Bootstrap registry: the tie-break and the index *)

Section RegistryFacts.
Import JS Bootstrap.

Context {platform : Platform}.

Lemma find_first {A} (f : A -> bool) (l : list A) (i : nat) (x : A) :
  l !! i = Some x -> f x = true ->
  (forall j y, (j < i)%nat -> l !! j = Some y -> f y = false) ->
  find f l = Some x.
Proof.
  revert i. induction l as [|a l IH]; intros i Hi Hx Hbefore; [done|].
  destruct i as [|i]; simpl in *.
  - injection Hi as ->. by rewrite Hx.
  - rewrite (Hbefore 0%nat a); [|lia|done].
    apply (IH i); [done..|].
    intros j y Hj Hy. apply (Hbefore (S j) y); [lia|done].
Qed.

Lemma find_is_first {A} (f : A -> bool) (l : list A) (x : A) :
  find f l = Some x ->
  exists i, l !! i = Some x /\ f x = true /\
            forall j y, (j < i)%nat -> l !! j = Some y -> f y = false.
Proof.
  induction l as [|a l IH]; [done|]. simpl.
  destruct (f a) eqn:Ha.
  - intros [= ->]. exists 0%nat. split_and!; [done..|]. intros; lia.
  - intros Hfind. destruct (IH Hfind) as (i & Hi & Hx & Hbefore).
    exists (S i). split_and!; [done..|].
    intros [|j] y Hj Hy; simpl in Hy; [by simplify_eq|].
    apply (Hbefore j); [lia|done].
Qed.

Lemma find_none_iff {A} (f : A -> bool) (l : list A) :
  find f l = None <-> forall x, x ∈ l -> f x = false.
Proof.
  split.
  - intros H x Hx. apply (find_none f l H). by apply list_elem_of_In.
  - intros H. induction l as [|a l IH]; [done|]. simpl.
    rewrite (H a); [|left]. apply IH. intros x Hx. apply H. by right.
Qed.

Lemma https_truthy (e : string) :
  startsWith "https://" e = true -> truthy (Some e) = true.
Proof. by destruct e. Qed.

Lemma preferHttps_https (endpoints : list string) (e : string) :
  find (startsWith "https://") endpoints = Some e -> preferHttps endpoints = Some e.
Proof.
  intros Hfind. unfold preferHttps, or_else. rewrite Hfind.
  apply find_some in Hfind as [_ He]. by rewrite (https_truthy e He).
Qed.

Lemma preferHttps_no_https (endpoints : list string) :
  find (startsWith "https://") endpoints = None ->
  preferHttps endpoints = endpoints !! 0%nat.
Proof. intros Hfind. unfold preferHttps. by rewrite Hfind. Qed.

(** The inner loop of [registerService]. *)
Lemma register_tlds_lookup (endpoint : option string) (tlds : list string)
    (m : gmap string (option string)) (k : string) :
  foldl (fun m tld => <[toLowerCase tld := endpoint]> m) m tlds !! k =
  if decide (k ∈ map toLowerCase tlds) then Some endpoint else m !! k.
Proof.
  revert m. induction tlds as [|t tlds IH]; intros m; [done|].
  cbn [foldl map].
  - rewrite IH.
    destruct (decide (k ∈ map toLowerCase tlds)) as [Hin|Hnin].
    + rewrite decide_True; [done|]. by right.
    + destruct (decide (k = toLowerCase t)) as [->|Hne].
      * rewrite lookup_insert_eq, decide_True; [done|]. by left.
      * rewrite lookup_insert_ne by done. rewrite decide_False; [done|].
        intros [?|?]%elem_of_cons; done.
Qed.

Lemma registerService_lookup (m : gmap string (option string))
    (tlds endpoints : list string) (k : string) :
  registerService m (tlds, endpoints) !! k =
  if decide (k ∈ map toLowerCase tlds) then Some (preferHttps endpoints) else m !! k.
Proof. apply register_tlds_lookup. Qed.

Lemma foldl_registerService_miss (post : list (list string * list string))
    (m : gmap string (option string)) (k : string) :
  (forall entry, entry ∈ post -> k ∉ map toLowerCase entry.1) ->
  foldl registerService m post !! k = m !! k.
Proof.
  revert m. induction post as [|[tlds eps] post IH]; intros m Hpost; [done|].
  cbn [foldl]. rewrite IH.
  - rewrite registerService_lookup. destruct (decide _) as [Hin|]; [|done].
    exfalso. by apply (Hpost (tlds, eps)); [left|].
  - intros entry Hentry. apply Hpost. by right.
Qed.

Lemma foldl_registerService_last (pre post : list (list string * list string))
    (tlds endpoints : list string) (m : gmap string (option string)) (k : string) :
  k ∈ map toLowerCase tlds ->
  (forall entry, entry ∈ post -> k ∉ map toLowerCase entry.1) ->
  foldl registerService m (pre ++ (tlds, endpoints) :: post) !! k
  = Some (preferHttps endpoints).
Proof.
  intros Hk Hpost. rewrite foldl_app. cbn [foldl].
  rewrite foldl_registerService_miss; [|done].
  rewrite registerService_lookup. by rewrite decide_True.
Qed.

End RegistryFacts.

Section TieBreakFacts.
Import JS Bootstrap.

(** The tie-break on a candidate list: the first candidate, in list order,
    that starts with [https://]; when no candidate does, the first
    candidate of the list. *)
Lemma preferHttps_rule (endpoints : list string) :
  (forall i e,
      endpoints !! i = Some e -> startsWith "https://" e = true ->
      (forall j e', (j < i)%nat -> endpoints !! j = Some e' ->
                    startsWith "https://" e' = false) ->
      preferHttps endpoints = Some e)
  /\ ((forall e, e ∈ endpoints -> startsWith "https://" e = false) ->
      preferHttps endpoints = endpoints !! 0%nat)
  /\ ((exists e, e ∈ endpoints /\ startsWith "https://" e = true) ->
      exists u, preferHttps endpoints = Some u /\ u ∈ endpoints /\
                startsWith "https://" u = true)
  /\ (endpoints <> [] ->
      exists u, preferHttps endpoints = Some u /\ u ∈ endpoints).
Proof.
  split_and!.
  - intros i e Hi He Hbefore. apply preferHttps_https.
    by apply (find_first _ _ i).
  - intros Hnone. apply preferHttps_no_https. by apply find_none_iff.
  - intros (e & Hin & He).
    destruct (find (startsWith "https://") endpoints) as [u|] eqn:Hfind.
    + exists u. split; [by apply preferHttps_https|].
      apply find_some in Hfind as [Hu ?]. by apply list_elem_of_In in Hu.
    + rewrite find_none_iff in Hfind. by rewrite (Hfind e Hin) in He.
  - intros Hne.
    destruct (find (startsWith "https://") endpoints) as [u|] eqn:Hfind.
    + exists u. split; [by apply preferHttps_https|].
      apply find_some in Hfind as [Hu ?]. by apply list_elem_of_In in Hu.
    + destruct endpoints as [|e0 rest]; [done|].
      exists e0. split; [by rewrite preferHttps_no_https|left].
Qed.

End TieBreakFacts.

Section RegistryClaims.
Import JS Bootstrap.

Context {platform : Platform}.

(** C8. Index construction. Entries are processed in document order; the
    URL of an entry is computed once, by the tie-break, and every label of
    the entry, lowercased, is bound to it; a label that later entries repeat
    is bound to the URL of the last entry that lists it; a label no entry
    lists is not bound. *)
Theorem loadBootstrap_last_write_wins (snapshot : BootstrapData) :
  (forall pre tlds endpoints post tld,
      services snapshot = pre ++ (tlds, endpoints) :: post ->
      tld ∈ tlds ->
      (forall entry, entry ∈ post ->
                     toLowerCase tld ∉ map toLowerCase entry.1) ->
      (loadBootstrap snapshot None).1 !! toLowerCase tld
        = Some (preferHttps endpoints))
  /\ (forall k,
      (forall entry, entry ∈ services snapshot -> k ∉ map toLowerCase entry.1) ->
      (loadBootstrap snapshot None).1 !! k = None).
Proof.
  split.
  - intros pre tlds endpoints post tld Hsnap Htld Hpost.
    unfold loadBootstrap. cbn [fst]. rewrite Hsnap.
    apply foldl_registerService_last; [|done].
    apply list_elem_of_In, in_map. by apply list_elem_of_In.
  - intros k Hk. unfold loadBootstrap. cbn [fst].
    by rewrite foldl_registerService_miss.
Qed.

End RegistryClaims.

Section RegistryScenarios.
Import JS Bootstrap Scenario.

#[local] Existing Instance examplePlatform.

Lemma loadBootstrap_last_write_wins_witness :
  let snapshot :=
    {| services := [ (["COM"; "net"], ["http://a.test/"; "https://b.test/"]);
                     (["net"], ["http://n.test/"]) ] |} in
  (loadBootstrap snapshot None).1 !! "com" = Some (Some "https://b.test/")
  /\ (loadBootstrap snapshot None).1 !! "net" = Some (Some "http://n.test/")
  /\ (loadBootstrap snapshot None).1 !! "org" = None.
Proof.
  intros snapshot. split_and!.
  - refine (proj1 (loadBootstrap_last_write_wins snapshot)
              [] ["COM"; "net"] ["http://a.test/"; "https://b.test/"]
              [(["net"], ["http://n.test/"])] "COM" eq_refl _ _); [left|].
    intros entry Hentry. apply list_elem_of_singleton in Hentry as ->.
    cbn. intros H. by apply list_elem_of_singleton in H.
  - refine (proj1 (loadBootstrap_last_write_wins snapshot)
              [(["COM"; "net"], ["http://a.test/"; "https://b.test/"])]
              ["net"] ["http://n.test/"] [] "net" eq_refl _ _); [left|].
    intros entry Hentry. by apply elem_of_nil in Hentry.
  - apply (proj2 (loadBootstrap_last_write_wins snapshot)).
    intros entry Hentry.
    repeat (apply elem_of_cons in Hentry as [->|Hentry];
            [cbn; intros H;
             repeat (apply elem_of_cons in H as [H|H]; [discriminate H|]);
             by apply elem_of_nil in H|]).
    by apply elem_of_nil in Hentry.
Defined.

End RegistryScenarios.

(** ** Response normalizer *)

Section NormalizerFacts.
Import JS Rdap Contract.

Lemma find_hasRole (es : list RdapEntity) :
  find (fun e => default false (includes "registrar" <$> roles e)) es
  = find (hasRole "registrar") es.
Proof.
  induction es as [|e es IH]; [done|]. simpl. rewrite IH.
  unfold hasRole. by destruct (roles e).
Qed.

Lemma or_else_None (v : option string) :
  or_else v None = match v with
                   | Some s => if String.eqb s "" then None else Some s
                   | None => None
                   end.
Proof. destruct v as [s|]; [|done]. unfold or_else. simpl. by destruct (String.eqb s ""). Qed.

(** The code's extraction, with its guarded member accesses, never throws
    and computes the contract's value. *)
Lemma bootstrap_extractRegistrar_spec (entities : option (list RdapEntity)) :
  Bootstrap.extractRegistrar entities = Returns (registrarEntity entities ≫= fnOf).
Proof.
  destruct entities as [es|]; [|done].
  unfold Bootstrap.extractRegistrar, registrarEntity. rewrite find_hasRole. simpl.
  destruct (find (hasRole "registrar") es) as [e|]; [|done]. simpl.
  unfold fnOf. destruct (vcardArray e) as [[tag [props|]]|]; simpl; [|done..].
  change (fun entry => String.eqb (vc_name entry) "fn") with (tagged "fn").
  destruct (find (tagged "fn") props) as [entry|]; [|done]. simpl.
  by destruct (vc_value entry).
Qed.

Lemma bootstrap_extractIanaId_spec (entities : option (list RdapEntity)) :
  Bootstrap.extractIanaId entities = Returns (registrarEntity entities ≫= ianaIdOf).
Proof.
  destruct entities as [es|]; [|done].
  unfold Bootstrap.extractIanaId, registrarEntity. rewrite find_hasRole. simpl.
  destruct (find (hasRole "registrar") es) as [e|]; [|done]. simpl.
  unfold ianaIdOf. destruct (publicIds e) as [ids|]; simpl; [|done].
  change (fun id => String.eqb (type id) "IANA Registrar ID")
    with (labelled "IANA Registrar ID").
  rewrite or_else_None.
  by destruct (find (labelled "IANA Registrar ID") ids) as [id|].
Qed.

Lemma verisign_extractRegistrar_spec (entities : option (list RdapEntity)) :
  Verisign.extractRegistrar entities = Returns (registrarEntity entities ≫= fnOf).
Proof.
  destruct entities as [es|]; [|done].
  unfold Verisign.extractRegistrar, registrarEntity. rewrite find_hasRole. simpl.
  destruct (find (hasRole "registrar") es) as [e|]; [|done]. simpl.
  unfold fnOf. destruct (vcardArray e) as [[tag [props|]]|]; simpl; [|done..].
  change (fun entry => String.eqb (vc_name entry) "fn") with (tagged "fn").
  destruct (find (tagged "fn") props) as [entry|]; [|done]. simpl.
  by destruct (vc_value entry).
Qed.

Lemma verisign_extractIanaId_spec (entities : option (list RdapEntity)) :
  Verisign.extractIanaId entities = Returns (registrarEntity entities ≫= ianaIdOf).
Proof.
  destruct entities as [es|]; [|done].
  unfold Verisign.extractIanaId, registrarEntity. rewrite find_hasRole. simpl.
  destruct (find (hasRole "registrar") es) as [e|]; [|done]. simpl.
  unfold ianaIdOf. destruct (publicIds e) as [ids|]; simpl; [|done].
  change (fun id => String.eqb (type id) "IANA Registrar ID")
    with (labelled "IANA Registrar ID").
  rewrite or_else_None.
  by destruct (find (labelled "IANA Registrar ID") ids) as [id|].
Qed.

(** [find] stops at the first hit: what follows it is not read. *)
Lemma find_app_first {A} (f : A -> bool) (pre post : list A) (x : A) :
  (forall y, y ∈ pre -> f y = false) -> f x = true ->
  find f (pre ++ x :: post) = Some x.
Proof.
  intros Hpre Hx. induction pre as [|a pre IH]; simpl.
  - by rewrite Hx.
  - rewrite (Hpre a); [|left]. apply IH. intros y Hy. apply Hpre. by right.
Qed.

End NormalizerFacts.

Section EventFacts.
Import JS Rdap Contract.

Variable formatDate : string -> string.

Lemma lastEventDate_cons (action : string) (e : RdapEvent) (evs : list RdapEvent) :
  lastEventDate formatDate action (e :: evs)
  = match lastEventDate formatDate action evs with
    | Some d => Some d
    | None => if String.eqb (eventAction e) action
              then Some (formatDate (eventDate e)) else None
    end.
Proof.
  unfold lastEventDate. rewrite filter_cons.
  destruct (String.eqb_spec (eventAction e) action) as [He|He].
  - rewrite decide_True by done.
    destruct (filter _ evs) as [|x l]; [done|].
    change (last (e :: x :: l)) with (last (x :: l)).
    destruct (last (x :: l)) as [y|] eqn:Hlast; [done|].
    by apply last_None in Hlast.
  - rewrite decide_False by done. by destruct (last _).
Qed.

(** A loop whose step overwrites a slot exactly on the events of one
    action leaves in it the date of the last such event. *)
Lemma foldl_slot_last {E} (step : E -> RdapEvent -> E) (slot : E -> option string)
    (action : string) :
  (forall ev e, slot (step ev e)
                = if String.eqb (eventAction e) action
                  then Some (formatDate (eventDate e)) else slot ev) ->
  forall evs ev,
    slot (foldl step ev evs)
    = match lastEventDate formatDate action evs with
      | Some d => Some d
      | None => slot ev
      end.
Proof.
  intros Hstep evs. induction evs as [|e evs IH]; intros ev; [done|].
  cbn [foldl]. rewrite IH, lastEventDate_cons, Hstep.
  destruct (lastEventDate formatDate action evs); [done|].
  by destruct (String.eqb (eventAction e) action).
Qed.

Ltac by_action e :=
  intros; unfold Bootstrap.setEvent, Verisign.setEvent;
  repeat match goal with
         | |- context [String.eqb (eventAction e) ?s] =>
             destruct (String.eqb_spec (eventAction e) s); cbn
         end; congruence.

Lemma bootstrap_setEvent_registration ev e :
  Bootstrap.registration (Bootstrap.setEvent formatDate ev e)
  = if String.eqb (eventAction e) "registration"
    then Some (formatDate (eventDate e)) else Bootstrap.registration ev.
Proof. by_action e. Qed.

Lemma bootstrap_setEvent_expiration ev e :
  Bootstrap.expiration (Bootstrap.setEvent formatDate ev e)
  = if String.eqb (eventAction e) "expiration"
    then Some (formatDate (eventDate e)) else Bootstrap.expiration ev.
Proof. by_action e. Qed.

Lemma bootstrap_setEvent_lastChanged ev e :
  Bootstrap.lastChanged (Bootstrap.setEvent formatDate ev e)
  = if String.eqb (eventAction e) "last changed"
    then Some (formatDate (eventDate e)) else Bootstrap.lastChanged ev.
Proof. by_action e. Qed.

Lemma bootstrap_setEvent_lastUpdate ev e :
  Bootstrap.lastUpdateOfRdapDatabase (Bootstrap.setEvent formatDate ev e)
  = if String.eqb (eventAction e) "last update of RDAP database"
    then Some (formatDate (eventDate e)) else Bootstrap.lastUpdateOfRdapDatabase ev.
Proof. by_action e. Qed.

Lemma verisign_setEvent_registration ev e :
  Verisign.registration (Verisign.setEvent formatDate ev e)
  = if String.eqb (eventAction e) "registration"
    then Some (formatDate (eventDate e)) else Verisign.registration ev.
Proof. by_action e. Qed.

Lemma verisign_setEvent_expiration ev e :
  Verisign.expiration (Verisign.setEvent formatDate ev e)
  = if String.eqb (eventAction e) "expiration"
    then Some (formatDate (eventDate e)) else Verisign.expiration ev.
Proof. by_action e. Qed.

Lemma verisign_setEvent_lastChanged ev e :
  Verisign.lastChanged (Verisign.setEvent formatDate ev e)
  = if String.eqb (eventAction e) "last changed"
    then Some (formatDate (eventDate e)) else Verisign.lastChanged ev.
Proof. by_action e. Qed.

Lemma verisign_setEvent_lastUpdate ev e :
  Verisign.lastUpdateOfRdapDatabase (Verisign.setEvent formatDate ev e)
  = if String.eqb (eventAction e) "last update of RDAP database"
    then Some (formatDate (eventDate e)) else Verisign.lastUpdateOfRdapDatabase ev.
Proof. by_action e. Qed.

(** The slots after the loop, one by one. *)
Lemma bootstrap_extractEvents_slots (evs : list RdapEvent) :
  Bootstrap.extractEvents formatDate (Some evs)
  = {| Bootstrap.registration := lastEventDate formatDate "registration" evs;
       Bootstrap.expiration := lastEventDate formatDate "expiration" evs;
       Bootstrap.lastChanged := lastEventDate formatDate "last changed" evs;
       Bootstrap.lastUpdateOfRdapDatabase :=
         lastEventDate formatDate "last update of RDAP database" evs |}.
Proof.
  unfold Bootstrap.extractEvents.
  pose proof (foldl_slot_last _ _ _ bootstrap_setEvent_registration evs Bootstrap.noEvents) as H1.
  pose proof (foldl_slot_last _ _ _ bootstrap_setEvent_expiration evs Bootstrap.noEvents) as H2.
  pose proof (foldl_slot_last _ _ _ bootstrap_setEvent_lastChanged evs Bootstrap.noEvents) as H3.
  pose proof (foldl_slot_last _ _ _ bootstrap_setEvent_lastUpdate evs Bootstrap.noEvents) as H4.
  destruct (foldl _ _ evs) as [r x c u]. cbn in H1, H2, H3, H4. subst.
  f_equal; by destruct (lastEventDate _ _ _).
Qed.

Lemma verisign_extractEvents_slots (evs : list RdapEvent) :
  Verisign.extractEvents formatDate (Some evs)
  = {| Verisign.registration := lastEventDate formatDate "registration" evs;
       Verisign.expiration := lastEventDate formatDate "expiration" evs;
       Verisign.lastChanged := lastEventDate formatDate "last changed" evs;
       Verisign.lastUpdateOfRdapDatabase :=
         lastEventDate formatDate "last update of RDAP database" evs |}.
Proof.
  unfold Verisign.extractEvents.
  pose proof (foldl_slot_last _ _ _ verisign_setEvent_registration evs Verisign.noEvents) as H1.
  pose proof (foldl_slot_last _ _ _ verisign_setEvent_expiration evs Verisign.noEvents) as H2.
  pose proof (foldl_slot_last _ _ _ verisign_setEvent_lastChanged evs Verisign.noEvents) as H3.
  pose proof (foldl_slot_last _ _ _ verisign_setEvent_lastUpdate evs Verisign.noEvents) as H4.
  destruct (foldl _ _ evs) as [r x c u]. cbn in H1, H2, H3, H4. subst.
  f_equal; by destruct (lastEventDate _ _ _).
Qed.

(** Normalization returns, with every field in closed form. *)
Lemma bootstrap_normalize_returns (data : RdapResponse) (qt : Z) (ep : string) :
  Bootstrap.normalize formatDate data qt ep
  = Returns {|
      Bootstrap.success := true;
      Bootstrap.domain := ldhName data;
      Bootstrap.handle := or_else (handle data) None;
      Bootstrap.status := default [] (status data);
      Bootstrap.queryTime := qt;
      Bootstrap.rdapServer := ep;
      Bootstrap.events := Bootstrap.extractEvents formatDate (events data);
      Bootstrap.nameservers :=
        default [] (map (Bootstrap.toNameserver) <$> nameservers data);
      Bootstrap.registrar := registrarEntity (entities data) ≫= fnOf;
      Bootstrap.ianaId := registrarEntity (entities data) ≫= ianaIdOf;
      Bootstrap.dnssec := {|
        Bootstrap.delegationSigned :=
          default false (secureDNS data ≫= sd_delegationSigned);
        Bootstrap.dsData := default [] (secureDNS data ≫= sd_dsData) |};
      Bootstrap.rawResponse := data
    |}.
Proof.
  unfold Bootstrap.normalize.
  by rewrite bootstrap_extractRegistrar_spec, bootstrap_extractIanaId_spec.
Qed.

Lemma verisign_normalize_returns (data : RdapResponse) (qt : Z) :
  Verisign.normalize formatDate data qt
  = Returns {|
      Verisign.success := true;
      Verisign.domain := ldhName data;
      Verisign.handle := or_else (handle data) None;
      Verisign.status := default [] (status data);
      Verisign.queryTime := qt;
      Verisign.events := Verisign.extractEvents formatDate (events data);
      Verisign.nameservers := default [] (map ns_ldhName <$> nameservers data);
      Verisign.registrar := registrarEntity (entities data) ≫= fnOf;
      Verisign.ianaId := registrarEntity (entities data) ≫= ianaIdOf;
      Verisign.dnssec := {|
        Verisign.delegationSigned :=
          default false (secureDNS data ≫= sd_delegationSigned);
        Verisign.dsData := default [] (secureDNS data ≫= sd_dsData) |};
      Verisign.rawResponse := data
    |}.
Proof.
  unfold Verisign.normalize.
  by rewrite verisign_extractRegistrar_spec, verisign_extractIanaId_spec.
Qed.

End EventFacts.

Section ExtractionClaims.
Import JS Rdap Contract.

Variable formatDate : string -> string.

Lemma lastEventDate_skip (action : string) (pre post : list RdapEvent) (e : RdapEvent) :
  eventAction e <> action ->
  lastEventDate formatDate action (pre ++ e :: post)
  = lastEventDate formatDate action (pre ++ post).
Proof.
  intros He. unfold lastEventDate.
  by rewrite !filter_app, filter_cons, decide_False.
Qed.

(** C3. Lifecycle events. Each slot of the result holds the formatted date
    of the last event, in list order, whose [eventAction] is exactly the
    slot's action ("registration", "expiration", "last changed",
    "last update of RDAP database"), and is absent when there is none; an
    event with any other action changes nothing; two events both tagged
    "expiration" yield the second one's formatted date. *)
Theorem events_last_in_list_order_wins (data : RdapResponse) (qt : Z) (ep : string) :
  exists r,
    Bootstrap.normalize formatDate data qt ep = Returns r
    /\ (forall evs, events data = Some evs ->
          Bootstrap.registration (Bootstrap.events r)
            = lastEventDate formatDate "registration" evs
          /\ Bootstrap.expiration (Bootstrap.events r)
            = lastEventDate formatDate "expiration" evs
          /\ Bootstrap.lastChanged (Bootstrap.events r)
            = lastEventDate formatDate "last changed" evs
          /\ Bootstrap.lastUpdateOfRdapDatabase (Bootstrap.events r)
            = lastEventDate formatDate "last update of RDAP database" evs)
    /\ (forall pre e post,
          events data = Some (pre ++ e :: post) ->
          eventAction e <> "registration" -> eventAction e <> "expiration" ->
          eventAction e <> "last changed" ->
          eventAction e <> "last update of RDAP database" ->
          Bootstrap.events r = Bootstrap.extractEvents formatDate (Some (pre ++ post)))
    /\ (forall e1 e2,
          events data = Some [e1; e2] ->
          eventAction e1 = "expiration" -> eventAction e2 = "expiration" ->
          Bootstrap.expiration (Bootstrap.events r) = Some (formatDate (eventDate e2))).
Proof.
  eexists. split; [apply bootstrap_normalize_returns|]. cbn. split_and!.
  - intros evs ->. by rewrite bootstrap_extractEvents_slots.
  - intros pre e post -> H1 H2 H3 H4.
    change (foldl _ _ (pre ++ post))
      with (Bootstrap.extractEvents formatDate (Some (pre ++ post))).
    rewrite !bootstrap_extractEvents_slots.
    by rewrite !lastEventDate_skip by done.
  - intros e1 e2 -> H1 H2. rewrite bootstrap_extractEvents_slots. cbn.
    unfold lastEventDate. rewrite !filter_cons, !decide_True by done. done.
Qed.

(** C4, as the code has it. Both registrar fields come from the first
    entity whose role set contains "registrar", whatever precedes or follows
    it: the name is the value of its first vCard entry tagged "fn" when that
    value is a single string; the IANA ID is the value of its first public
    identifier labelled exactly "IANA Registrar ID" when that value is not
    the empty string; otherwise, and when no entity has the role, the field
    is absent. *)
Theorem registrar_fields_from_first_registrar_entity (entities : list RdapEntity) :
  (forall pre e post,
      entities = pre ++ e :: post ->
      (forall x, x ∈ pre -> hasRole "registrar" x = false) ->
      hasRole "registrar" e = true ->
      Bootstrap.extractRegistrar (Some entities) = Returns (fnOf e)
      /\ Bootstrap.extractIanaId (Some entities) = Returns (ianaIdOf e))
  /\ ((forall x, x ∈ entities -> hasRole "registrar" x = false) ->
      Bootstrap.extractRegistrar (Some entities) = Returns None
      /\ Bootstrap.extractIanaId (Some entities) = Returns None).
Proof.
  rewrite bootstrap_extractRegistrar_spec, bootstrap_extractIanaId_spec.
  unfold registrarEntity. cbn. split.
  - intros pre e post -> Hpre He. by rewrite (find_app_first _ pre post e).
  - intros Hnone. apply find_none_iff in Hnone. by rewrite Hnone.
Qed.

Lemma registrar_fields_from_first_registrar_entity_witness :
  let fn s := {| vc_name := "fn"; vc_params := []; vc_type := "text";
                 vc_value := VText s |} in
  let tech := {| roles := Some ["technical"]; publicIds := None;
                 vcardArray := Some ("vcard", Some [fn "Support Desk"]) |} in
  let first := {| roles := Some ["abuse"; "registrar"];
                  publicIds := Some [ {| type := "IANA Registrar ID";
                                         identifier := "292" |} ];
                  vcardArray := Some ("vcard", Some [fn "First Registrar"]) |} in
  let second := {| roles := Some ["registrar"];
                   publicIds := Some [ {| type := "IANA Registrar ID";
                                          identifier := "1" |} ];
                   vcardArray := Some ("vcard", Some [fn "Second Registrar"]) |} in
  Bootstrap.extractRegistrar (Some [tech; first; second])
    = Returns (Some "First Registrar")
  /\ Bootstrap.extractIanaId (Some [tech; first; second]) = Returns (Some "292").
Proof.
  intros fn tech first second.
  apply (proj1 (registrar_fields_from_first_registrar_entity [tech; first; second])
           [tech] first [second]); [reflexivity| |reflexivity].
  intros x Hx. by apply list_elem_of_singleton in Hx as ->.
Defined.

(** The claim's reading of the IANA ID, "the value of the first public
    identifier labelled IANA Registrar ID", fails on an identifier that is
    the empty string: the code reports it as absent. *)
Lemma ianaId_empty_identifier_is_absent :
  ~ (forall (e : RdapEntity) (ids : list publicId) (id : publicId),
        hasRole "registrar" e = true ->
        publicIds e = Some ids ->
        find (labelled "IANA Registrar ID") ids = Some id ->
        Bootstrap.extractIanaId (Some [e]) = Returns (Some (identifier id))).
Proof.
  intros H.
  pose (id := {| type := "IANA Registrar ID"; identifier := "" |}).
  specialize (H {| roles := Some ["registrar"]; publicIds := Some [id];
                   vcardArray := None |} [id] id eq_refl eq_refl eq_refl).
  discriminate H.
Qed.

End ExtractionClaims.

Section NormalizeClaims.
Import JS Rdap Contract.

Variable formatDate : string -> string.

Lemma registrarEntity_no_roles (es : list RdapEntity) :
  (forall e, e ∈ es -> roles e = None) -> registrarEntity (Some es) = None.
Proof.
  intros H. unfold registrarEntity. cbn. apply find_none_iff.
  intros e He. unfold hasRole. by rewrite (H e He).
Qed.

Lemma registrarEntity_elem (es : list RdapEntity) (e : RdapEntity) :
  registrarEntity (Some es) = Some e -> e ∈ es.
Proof.
  unfold registrarEntity. cbn. intros [H _]%find_some. by apply list_elem_of_In.
Qed.

(** C5. Normalization is total: for every decoded object, whatever optional
    members are missing, it returns a result and does not throw. A missing
    [handle], or a missing date event, is [null]; a missing [status],
    [nameservers] or [dsData] is the empty list; a missing
    [delegationSigned] is [false]; without [entities] (or without [roles],
    [vcardArray], [publicIds] on them) the registrar name and the IANA ID
    are [null]; a name server without [ipAddresses] has empty address
    lists. *)
Theorem normalize_total (data : RdapResponse) (qt : Z) (ep : string) :
  exists r,
    Bootstrap.normalize formatDate data qt ep = Returns r
    /\ (handle data = None -> Bootstrap.handle r = None)
    /\ (status data = None -> Bootstrap.status r = [])
    /\ (events data = None ->
        Bootstrap.events r
        = {| Bootstrap.registration := None; Bootstrap.expiration := None;
             Bootstrap.lastChanged := None;
             Bootstrap.lastUpdateOfRdapDatabase := None |})
    /\ (nameservers data = None -> Bootstrap.nameservers r = [])
    /\ (entities data = None ->
        Bootstrap.registrar r = None /\ Bootstrap.ianaId r = None)
    /\ (secureDNS data = None ->
        Bootstrap.delegationSigned (Bootstrap.dnssec r) = false
        /\ Bootstrap.dsData (Bootstrap.dnssec r) = [])
    /\ (forall sd, secureDNS data = Some sd ->
          (sd_delegationSigned sd = None ->
           Bootstrap.delegationSigned (Bootstrap.dnssec r) = false)
          /\ (sd_dsData sd = None -> Bootstrap.dsData (Bootstrap.dnssec r) = []))
    /\ (forall es, entities data = Some es ->
          ((forall e, e ∈ es -> roles e = None) ->
           Bootstrap.registrar r = None /\ Bootstrap.ianaId r = None)
          /\ ((forall e, e ∈ es -> vcardArray e = None) -> Bootstrap.registrar r = None)
          /\ ((forall e, e ∈ es -> publicIds e = None) -> Bootstrap.ianaId r = None))
    /\ (forall nss i ns,
          nameservers data = Some nss -> nss !! i = Some ns ->
          ipAddresses ns = None ->
          Bootstrap.nameservers r !! i
          = Some {| Bootstrap.name := ns_ldhName ns;
                    Bootstrap.ipv4 := []; Bootstrap.ipv6 := [] |}).
Proof.
  eexists. split; [apply bootstrap_normalize_returns|]. cbn. split_and!.
  - by intros ->.
  - by intros ->.
  - by intros ->.
  - by intros ->.
  - by intros ->.
  - by intros ->.
  - intros sd ->. cbn. split; by intros ->.
  - intros es ->. split_and!.
    + intros H. by rewrite registrarEntity_no_roles.
    + intros H. destruct (registrarEntity (Some es)) as [e|] eqn:He; [|done].
      cbn. unfold fnOf. by rewrite (H e (registrarEntity_elem es e He)).
    + intros H. destruct (registrarEntity (Some es)) as [e|] eqn:He; [|done].
      cbn. unfold ianaIdOf. by rewrite (H e (registrarEntity_elem es e He)).
  - intros nss i ns -> Hi Hip. cbn.
    change (map Bootstrap.toNameserver nss) with (Bootstrap.toNameserver <$> nss).
    rewrite list_lookup_fmap, Hi. cbn. unfold Bootstrap.toNameserver.
    by rewrite Hip.
Qed.

(** C7. Pass-through. The result's status list is the raw one, verbatim
    and in order, or empty when absent; its DS records are the raw
    [dsData], verbatim, or empty when absent; its name servers are the raw
    ones, one for one and in order; and the raw object itself is kept
    unchanged as [rawResponse]. This holds on both routes. *)
Theorem normalize_passes_lists_through (data : RdapResponse) (qt : Z) (ep : string) :
  exists rb rv,
    Bootstrap.normalize formatDate data qt ep = Returns rb
    /\ Verisign.normalize formatDate data qt = Returns rv
    /\ Bootstrap.status rb = default [] (status data)
    /\ Verisign.status rv = default [] (status data)
    /\ Bootstrap.dsData (Bootstrap.dnssec rb) = default [] (secureDNS data ≫= sd_dsData)
    /\ Verisign.dsData (Verisign.dnssec rv) = default [] (secureDNS data ≫= sd_dsData)
    /\ map Bootstrap.name (Bootstrap.nameservers rb)
       = map ns_ldhName (default [] (nameservers data))
    /\ length (Bootstrap.nameservers rb) = length (default [] (nameservers data))
    /\ Verisign.nameservers rv = map ns_ldhName (default [] (nameservers data))
    /\ Bootstrap.rawResponse rb = data
    /\ Verisign.rawResponse rv = data.
Proof.
  eexists. eexists.
  split; [apply bootstrap_normalize_returns|].
  split; [apply verisign_normalize_returns|].
  cbn. split_and!; try done.
  - destruct (nameservers data) as [nss|]; [|done]. cbn.
    rewrite map_map. done.
  - destruct (nameservers data) as [nss|]; [|done]. cbn. by rewrite length_map.
  - by destruct (nameservers data).
Qed.

(** The two routes do not send the same [nameservers] member: the Verisign
    route sends the bare names, the bootstrap route one object per name
    server. *)
Lemma routes_nameservers_differ :
  ~ (forall (fd : string -> string) (data : RdapResponse) (qt : Z) (ep : string) rv rb,
        Verisign.normalize fd data qt = Returns rv ->
        Bootstrap.normalize fd data qt ep = Returns rb ->
        Wire.verisignNameservers rv = Wire.bootstrapNameservers rb).
Proof.
  intros H.
  pose (data := {| ldhName := "example.com"; handle := None; status := None;
                   events := None;
                   nameservers := Some [ {| ns_ldhName := "ns1.example.com";
                                            objectClassName := "nameserver";
                                            ipAddresses := None |} ];
                   entities := None; secureDNS := None; links := None |}).
  specialize (H id data 0 "https://rdap.example.test/" _ _ eq_refl eq_refl).
  discriminate H.
Qed.

(** C9, as the code has it. On every decoded object the two routes return
    the same domain name, handle, status list, event dates, registrar name,
    IANA ID and DNSSEC data, and keep the same raw object; their name
    servers are the same names in the same order, which the Verisign route
    sends as bare names and the bootstrap route as objects with the name and
    its address lists. *)
Theorem routes_normalize_alike (data : RdapResponse) (qt : Z) (ep : string) :
  exists rv rb,
    Verisign.normalize formatDate data qt = Returns rv
    /\ Bootstrap.normalize formatDate data qt ep = Returns rb
    /\ Verisign.domain rv = Bootstrap.domain rb
    /\ Verisign.handle rv = Bootstrap.handle rb
    /\ Verisign.status rv = Bootstrap.status rb
    /\ Verisign.registration (Verisign.events rv)
       = Bootstrap.registration (Bootstrap.events rb)
    /\ Verisign.expiration (Verisign.events rv)
       = Bootstrap.expiration (Bootstrap.events rb)
    /\ Verisign.lastChanged (Verisign.events rv)
       = Bootstrap.lastChanged (Bootstrap.events rb)
    /\ Verisign.lastUpdateOfRdapDatabase (Verisign.events rv)
       = Bootstrap.lastUpdateOfRdapDatabase (Bootstrap.events rb)
    /\ Verisign.nameservers rv = map Bootstrap.name (Bootstrap.nameservers rb)
    /\ Verisign.registrar rv = Bootstrap.registrar rb
    /\ Verisign.ianaId rv = Bootstrap.ianaId rb
    /\ Verisign.delegationSigned (Verisign.dnssec rv)
       = Bootstrap.delegationSigned (Bootstrap.dnssec rb)
    /\ Verisign.dsData (Verisign.dnssec rv) = Bootstrap.dsData (Bootstrap.dnssec rb)
    /\ Verisign.rawResponse rv = Bootstrap.rawResponse rb.
Proof.
  eexists. eexists.
  split; [apply verisign_normalize_returns|].
  split; [apply bootstrap_normalize_returns|].
  cbn [Verisign.domain Bootstrap.domain Verisign.handle Bootstrap.handle
       Verisign.status Bootstrap.status Verisign.events Bootstrap.events
       Verisign.nameservers Bootstrap.nameservers Verisign.registrar
       Bootstrap.registrar Verisign.ianaId Bootstrap.ianaId Verisign.dnssec
       Bootstrap.dnssec Verisign.delegationSigned Bootstrap.delegationSigned
       Verisign.dsData Bootstrap.dsData Verisign.rawResponse Bootstrap.rawResponse].
  assert (forall evs,
            Verisign.registration (Verisign.extractEvents formatDate evs)
            = Bootstrap.registration (Bootstrap.extractEvents formatDate evs)
            /\ Verisign.expiration (Verisign.extractEvents formatDate evs)
               = Bootstrap.expiration (Bootstrap.extractEvents formatDate evs)
            /\ Verisign.lastChanged (Verisign.extractEvents formatDate evs)
               = Bootstrap.lastChanged (Bootstrap.extractEvents formatDate evs)
            /\ Verisign.lastUpdateOfRdapDatabase (Verisign.extractEvents formatDate evs)
               = Bootstrap.lastUpdateOfRdapDatabase (Bootstrap.extractEvents formatDate evs))
    as Hev.
  { intros [evs|]; [|done].
    by rewrite verisign_extractEvents_slots, bootstrap_extractEvents_slots. }
  destruct (Hev (events data)) as (? & ? & ? & ?).
  split_and!; try done.
  destruct (nameservers data) as [nss|]; [|done]. cbn. by rewrite map_map.
Qed.

End NormalizeClaims.

Section NormalizerScenarios.
Import JS Rdap Contract.

Lemma events_last_in_list_order_wins_witness :
  let e1 := {| eventAction := "expiration"; eventDate := "2024-01-05T00:00:00Z" |} in
  let e2 := {| eventAction := "expiration"; eventDate := "2025-01-05T00:00:00Z" |} in
  let data := {| ldhName := "example.com"; handle := None; status := None;
                 events := Some [e1; e2]; nameservers := None; entities := None;
                 secureDNS := None; links := None |} in
  exists r,
    Bootstrap.normalize id data 0 "https://rdap.example.test/" = Returns r
    /\ Bootstrap.expiration (Bootstrap.events r)
       = Some "2025-01-05T00:00:00Z".
Proof.
  intros e1 e2 data.
  destruct (events_last_in_list_order_wins id data 0 "https://rdap.example.test/")
    as (r & Hr & _ & _ & Hlast).
  exists r. split; [exact Hr|].
  exact (Hlast e1 e2 eq_refl eq_refl eq_refl).
Defined.

Lemma normalize_total_witness :
  let data := {| ldhName := "example.com"; handle := None; status := None;
                 events := None; nameservers := None; entities := None;
                 secureDNS := None; links := None |} in
  exists r,
    Bootstrap.normalize id data 12 "https://rdap.example.test/" = Returns r
    /\ Bootstrap.registrar r = None /\ Bootstrap.ianaId r = None.
Proof.
  intros data.
  destruct (normalize_total id data 12 "https://rdap.example.test/")
    as (r & Hr & _ & _ & _ & _ & Hent & _).
  exists r. split; [exact Hr|]. exact (Hent eq_refl).
Defined.

End NormalizerScenarios.

(** ** Input validation: the pattern and the strict label syntax *)

Section RegexFacts.
Import JS Contract.

Lemma nullable_lang (r : regexp) : nullable r = true <-> lang r [].
Proof.
  induction r as [p| | |r1 IH1 r2 IH2|r1 IH1 r2 IH2|r1 IH1]; cbn.
  - split; [done|]. by intros (c & ? & _).
  - done.
  - done.
  - rewrite andb_true_iff, IH1, IH2. split.
    + intros [H1 H2]. by exists [], [].
    + intros (s1 & s2 & Happ & H1 & H2).
      symmetry in Happ. apply app_eq_nil in Happ as [-> ->]. done.
  - by rewrite orb_true_iff, IH1, IH2.
  - split; [|done]. intros _. by exists [].
Qed.

(** A non-empty word of [r*] starts with a non-empty word of [r]. *)
Lemma lang_star_cons (r : regexp) (c : ascii) (s : list ascii) :
  lang (ReStar r) (c :: s) <->
  exists s1 s2, s = s1 ++ s2 /\ lang r (c :: s1) /\ lang (ReStar r) s2.
Proof.
  split.
  - intros (ss & Hs & Hss). revert Hs.
    induction Hss as [|w ss Hw Hss IH]; [done|]. cbn.
    destruct w as [|c' w]; [exact IH|].
    intros [= <- ->]. exists w, (concat ss). split_and!; [done..|]. by exists ss.
  - intros (s1 & s2 & -> & H1 & ss & -> & Hss).
    exists ((c :: s1) :: ss). split; [done|]. by constructor.
Qed.

Lemma deriv_lang (r : regexp) (c : ascii) (s : list ascii) :
  lang (deriv c r) s <-> lang r (c :: s).
Proof.
  revert s. induction r as [p| | |r1 IH1 r2 IH2|r1 IH1 r2 IH2|r1 IH1]; intros s.
  - cbn. destruct (p c) eqn:Hp; cbn.
    + split; [intros ->; by exists c|]. by intros (c' & [= <- ->] & _).
    + split; [done|]. intros (c' & [= <- ->] & Hc). congruence.
  - done.
  - done.
  - assert (lang (ReCat (deriv c r1) r2) s <->
            exists s1 s2, s = s1 ++ s2 /\ lang r1 (c :: s1) /\ lang r2 s2) as Hcat.
    { cbn. split; intros (s1 & s2 & -> & H1 & H2); exists s1, s2;
        (split_and!; [done| |done]); by apply IH1. }
    assert (lang (ReCat r1 r2) (c :: s) <->
            (lang r1 [] /\ lang r2 (c :: s)) \/
            exists s1 s2, s = s1 ++ s2 /\ lang r1 (c :: s1) /\ lang r2 s2) as Hsplit.
    { cbn. split.
      - intros (s1 & s2 & Happ & H1 & H2). destruct s1 as [|c' s1].
        + left. cbn in Happ. by subst.
        + right. injection Happ as <- ->. by exists s1, s2.
      - intros [[H1 H2]|(s1 & s2 & -> & H1 & H2)].
        + by exists [], (c :: s).
        + by exists (c :: s1), s2. }
    rewrite Hsplit. cbn [deriv]. destruct (nullable r1) eqn:Hn.
    + change (lang (ReAlt ?a ?b) s) with (lang a s \/ lang b s).
      rewrite Hcat, IH2. apply nullable_lang in Hn. tauto.
    + rewrite Hcat. split; [by right|]. intros [[H1 _]|H]; [|done].
      apply nullable_lang in H1. congruence.
  - cbn. by rewrite IH1, IH2.
  - rewrite lang_star_cons. cbn [deriv].
    change (lang (ReCat ?a ?b) s)
      with (exists s1 s2, s = s1 ++ s2 /\ lang a s1 /\ lang b s2).
    split; intros (s1 & s2 & -> & H1 & H2); exists s1, s2;
      (split_and!; [done| |done]); by apply IH1.
Qed.

(** The matcher decides the language. *)
Lemma match_chars_lang (r : regexp) (s : list ascii) :
  match_chars r s = true <-> lang r s.
Proof.
  revert r. induction s as [|c s IH]; intros r; cbn.
  - apply nullable_lang.
  - by rewrite IH, deriv_lang.
Qed.

Lemma lang_star_class (p : ascii -> bool) (s : list ascii) :
  lang (ReStar (ReClass p)) s <-> Forall (fun c => p c = true) s.
Proof.
  split.
  - intros (ss & -> & Hss). induction Hss as [|w ss (c & -> & Hc) _ IH]; cbn.
    + constructor.
    + by constructor.
  - intros Hs. exists ((fun c => [c]) <$> s). split.
    + induction s as [|c s IH]; [done|]. cbn. f_equal. apply IH.
      by apply Forall_inv_tail in Hs.
    + induction Hs as [|c s Hc _ IH]; cbn; constructor; [|done]. by exists c.
Qed.

End RegexFacts.

Section LabelFacts.
Import JS Contract.

Lemma split_chars_nonempty (sep : ascii) (s : list ascii) : split_chars sep s <> [].
Proof.
  destruct s as [|c s]; [done|]. cbn.
  destruct (Ascii.eqb c sep); [done|]. by destruct (split_chars sep s).
Qed.

Lemma join_split (s : list ascii) : join (split_chars "." s) = s.
Proof.
  induction s as [|c s IH]; [done|]. cbn [split_chars].
  pose proof (split_chars_nonempty "." s) as Hne.
  destruct (split_chars "." s) as [|h t]; [done|].
  destruct (Ascii.eqb_spec c ".") as [->|Hc]; cbn in *; by rewrite IH.
Qed.

Lemma split_chars_no_dot (l : list ascii) :
  "."%char ∉ l -> split_chars "." l = [l].
Proof.
  induction l as [|c l IH]; intros Hl; [done|]. cbn [split_chars].
  destruct (Ascii.eqb_spec c ".") as [->|Hc]; [exfalso; apply Hl; left|].
  rewrite IH; [done|]. intros Hin. apply Hl. by right.
Qed.

Lemma split_chars_first_dot (l rest : list ascii) :
  "."%char ∉ l ->
  split_chars "." (l ++ "."%char :: rest) = l :: split_chars "." rest.
Proof.
  induction l as [|c l IH]; intros Hl; [done|].
  cbn [split_chars app].
  destruct (Ascii.eqb_spec c ".") as [->|Hc]; [exfalso; apply Hl; left|].
  rewrite IH; [done|]. intros Hin. apply Hl. by right.
Qed.

Lemma split_join (l0 : list ascii) (ls : list (list ascii)) :
  "."%char ∉ l0 -> Forall (fun l => "."%char ∉ l) ls ->
  split_chars "." (join (l0 :: ls)) = l0 :: ls.
Proof.
  intros H0 Hls. revert l0 H0.
  induction Hls as [|l1 ls H1 Hls IH]; intros l0 H0.
  - cbn. rewrite app_nil_r. by apply split_chars_no_dot.
  - change (join (l0 :: l1 :: ls)) with (l0 ++ "."%char :: join (l1 :: ls)).
    rewrite split_chars_first_dot by done. f_equal. by apply IH.
Qed.

Lemma ldh_not_dot (c : ascii) : ldh c = true -> c <> "."%char.
Proof. by intros Hc ->. Qed.

Lemma labelOk_no_dot (l : list ascii) : labelOk l -> "."%char ∉ l.
Proof.
  intros (_ & Hldh & _) Hin. rewrite Forall_forall in Hldh.
  by apply (ldh_not_dot "." (Hldh _ Hin)).
Qed.

Lemma alnum_ldh (c : ascii) : alnum c = true -> ldh c = true.
Proof. unfold ldh. by intros ->. Qed.

Lemma labelRe_lang (l : list ascii) : lang labelRe l <-> labelOk l.
Proof.
  unfold labelRe, ReOpt.
  change (lang (ReCat ?a ?b) l)
    with (exists s1 s2, l = s1 ++ s2 /\ lang a s1 /\ lang b s2).
  split.
  - intros (s1 & s2 & -> & (c & -> & Hc) & [Hlong|Hshort]).
    + destruct Hlong as (mid & s3 & -> & Hmid & d & -> & Hd).
      apply lang_star_class in Hmid. split_and!.
      * done.
      * constructor; [by apply alnum_ldh|]. apply Forall_app. split; [done|].
        constructor; [by apply alnum_ldh|constructor].
      * by intros c' [= <-].
      * intros d'. cbn. change (c :: mid ++ [d]) with ((c :: mid) ++ [d]).
        rewrite last_snoc. by intros [= <-].
    + cbn in Hshort. subst s2. split_and!; [done| |by intros c' [= <-]..].
      constructor; [by apply alnum_ldh|constructor].
  - intros (Hne & Hldh & Hhead & Hlast).
    destruct l as [|c l]; [done|]. exists [c], l. split_and!; [done| |].
    + exists c. split; [done|]. by apply Hhead.
    + destruct l as [|c' l] using rev_ind; [by right|]. left.
      exists l, [c']. split_and!; [done| |].
      * apply lang_star_class. apply Forall_inv_tail in Hldh.
        by apply Forall_app in Hldh as [? _].
      * exists c'. split; [done|]. apply Hlast.
        change (c :: l ++ [c']) with ((c :: l) ++ [c']). by rewrite last_snoc.
Qed.

End LabelFacts.

Section DomainSyntaxFacts.
Import JS Contract.

Context {platform : Platform} {laws : PlatformLaws platform}.

Lemma domainRegex_shape : Bootstrap.domainRegex = ReCat labelRe (RePlus dottedRe).
Proof. reflexivity. Qed.

Lemma verisign_domainRegex_same : Verisign.domainRegex = Bootstrap.domainRegex.
Proof. reflexivity. Qed.

Lemma dottedRe_lang (w : list ascii) :
  lang dottedRe w <-> exists l, w = "."%char :: l /\ labelOk l.
Proof.
  unfold dottedRe.
  change (lang (ReCat ?a ?b) w)
    with (exists s1 s2, w = s1 ++ s2 /\ lang a s1 /\ lang b s2).
  split.
  - intros (s1 & s2 & -> & (c & -> & Hc) & Hl).
    apply Ascii.eqb_eq in Hc as <-. exists s2. split; [done|].
    by apply labelRe_lang.
  - intros (l & -> & Hl). exists ["."%char], l. split_and!; [done| |].
    + exists "."%char. by split.
    + by apply labelRe_lang.
Qed.

Lemma dottedRe_words (ss : list (list ascii)) :
  Forall (lang dottedRe) ss <->
  exists ls, ss = map (cons "."%char) ls /\ Forall labelOk ls.
Proof.
  split.
  - induction 1 as [|w ss Hw _ (ls & -> & Hls)]; [by exists []|].
    apply dottedRe_lang in Hw as (l & -> & Hl).
    exists (l :: ls). split; [done|]. by constructor.
  - intros (ls & -> & Hls). induction Hls as [|l ls Hl _ IH]; cbn; constructor.
    + apply dottedRe_lang. by exists l.
    + done.
Qed.

Lemma domainRegex_lang (s : list ascii) :
  lang Bootstrap.domainRegex s <->
  exists labels, s = join labels /\ (2 <= length labels)%nat /\ Forall labelOk labels.
Proof.
  rewrite domainRegex_shape. unfold RePlus.
  change (lang (ReCat labelRe ?b) s)
    with (exists s1 s2, s = s1 ++ s2 /\ lang labelRe s1 /\ lang b s2).
  split.
  - intros (l0 & s2 & -> & H0 & w & s3 & -> & Hw & ss & -> & Hss).
    apply labelRe_lang in H0. apply dottedRe_lang in Hw as (l1 & -> & H1).
    apply dottedRe_words in Hss as (ls & -> & Hls).
    exists (l0 :: l1 :: ls). split_and!.
    + done.
    + cbn. lia.
    + constructor; [done|]. by constructor.
  - intros (labels & -> & Hlen & Hok).
    destruct labels as [|l0 [|l1 ls]]; [cbn in Hlen; lia..|].
    apply Forall_cons in Hok as [H0 Hok]. apply Forall_cons in Hok as [H1 Hls].
    exists l0, (("."%char :: l1) ++ concat (map (cons "."%char) ls)).
    split_and!; [done|by apply labelRe_lang|].
    exists ("."%char :: l1), (concat (map (cons "."%char) ls)).
    split_and!; [done| |].
    + apply dottedRe_lang. by exists l1.
    + exists (map (cons "."%char) ls). split; [done|].
      apply dottedRe_words. by exists ls.
Qed.

(** The pattern of the handlers accepts exactly the strict label syntax. *)
Lemma domainRegex_strict (s : string) :
  test Bootstrap.domainRegex s = true <-> strictLabelSyntax s.
Proof.
  unfold test, strictLabelSyntax. rewrite match_chars_lang, domainRegex_lang.
  split.
  - intros (labels & Hs & Hlen & Hok). rewrite Hs.
    destruct labels as [|l0 ls]; [cbn in Hlen; lia|].
    rewrite split_join; [done|..].
    + apply labelOk_no_dot. by apply Forall_inv in Hok.
    + apply Forall_inv_tail in Hok.
      eapply Forall_impl; [exact Hok|]. apply labelOk_no_dot.
  - intros [Hlen Hok]. exists (split_chars "." (chars s)).
    by rewrite join_split.
Qed.

Lemma lower_char_ldh (c : ascii) :
  ldh c = true \/ c = "."%char -> lower_char c = c.
Proof.
  destruct c as [[] [] [] [] [] [] [] []]; vm_compute; intuition congruence.
Qed.

Lemma join_chars (labels : list (list ascii)) (c : ascii) :
  c ∈ join labels -> c = "."%char \/ exists l, l ∈ labels /\ c ∈ l.
Proof.
  destruct labels as [|l0 ls]; [by intros ?%elem_of_nil|]. cbn.
  intros [H0|Hrest]%elem_of_app.
  - right. exists l0. split; [left|done].
  - induction ls as [|l1 ls IH]; [by apply elem_of_nil in Hrest|].
    cbn in Hrest. apply elem_of_cons in Hrest as [->|Hrest]; [by left|].
    apply elem_of_app in Hrest as [H1|Hrest].
    + right. exists l1. split; [right; left|done].
    + destruct (IH Hrest) as [->|(l & Hl & Hc)]; [by left|].
      right. exists l. split; [|done].
      apply elem_of_cons in Hl as [->|Hl]; [left|right; by right].
Qed.

Lemma ldh_ascii (c : ascii) :
  ldh c = true \/ c = "."%char -> is_ascii c = true.
Proof.
  destruct c as [[] [] [] [] [] [] [] []]; vm_compute; intuition congruence.
Qed.

(** The characters of a valid domain: letters, digits, hyphens and dots. *)
Lemma strict_chars (s : string) :
  strictLabelSyntax s -> Forall (fun c => ldh c = true \/ c = "."%char) (chars s).
Proof.
  intros [_ Hok]. apply Forall_forall. intros c Hc.
  rewrite <- (join_split (chars s)) in Hc.
  apply join_chars in Hc as [->|(l & Hl & Hc)]; [by right|]. left.
  rewrite Forall_forall in Hok. destruct (Hok l Hl) as (_ & Hldh & _).
  rewrite Forall_forall in Hldh. by apply Hldh.
Qed.

Lemma isAscii_forall (s : string) :
  isAscii s = true <-> Forall (fun c => is_ascii c = true) (chars s).
Proof. unfold isAscii. by rewrite forallb_forall, Forall_forall; setoid_rewrite list_elem_of_In. Qed.

(** A valid domain is ASCII text. *)
Lemma strict_ascii (s : string) : strictLabelSyntax s -> isAscii s = true.
Proof.
  intros Hs%strict_chars. apply isAscii_forall.
  eapply Forall_impl; [exact Hs|]. apply ldh_ascii.
Qed.

(** A valid domain is already lowercase. *)
Lemma strict_lowercase (s : string) :
  strictLabelSyntax s -> toLowerCase s = s.
Proof.
  intros Hs. rewrite (toLowerCase_ascii s (strict_ascii s Hs)).
  unfold asciiLowerCase.
  rewrite <- (str_chars s) at 2. f_equal.
  rewrite <- (map_id (chars s)) at 2. apply map_ext_in.
  intros c Hc%list_elem_of_In. apply lower_char_ldh.
  apply strict_chars in Hs. rewrite Forall_forall in Hs. by apply Hs.
Qed.

Lemma ldh_not_space (c : ascii) :
  ldh c = true \/ c = "."%char -> Ascii.is_space c = false.
Proof.
  destruct c as [[] [] [] [] [] [] [] []]; vm_compute; intuition congruence.
Qed.

(** Trimming and lowercasing leave a valid domain as it is. *)
Lemma strict_requested (d : string) :
  strictLabelSyntax d -> toLowerCase (trim d) = d.
Proof.
  intros Hd. rewrite (trim_ascii d (strict_ascii d Hd)).
  assert (asciiTrim d = d) as ->; [|by apply strict_lowercase].
  pose proof (strict_chars d Hd) as Hchars. rewrite Forall_forall in Hchars.
  rewrite <- (str_chars d) at 1. rewrite asciiTrim_id; [apply str_chars|..].
  - intros c Hc. apply ldh_not_space, Hchars.
    destruct (chars d); [done|]. injection Hc as ->. left.
  - intros c Hc. apply ldh_not_space, Hchars. by apply last_Some_elem_of.
Qed.

End DomainSyntaxFacts.

(** ** Lookup service: validation, resolution, classification *)

Section TldFacts.
Import JS Contract.

Context {platform : Platform} {laws : PlatformLaws platform}.

Lemma getTld_same (d : string) : Verisign.getTld d = Bootstrap.getTld d.
Proof. reflexivity. Qed.

Lemma str_nonempty (l : list ascii) : l <> [] -> String.eqb (str l) "" = false.
Proof. by destruct l. Qed.

(** On a valid domain [getTld] returns the last label, which is not
    empty. *)
Lemma getTld_strict (d : string) :
  strictLabelSyntax d ->
  exists tld, Bootstrap.getTld d = Some tld /\ lastLabel d = Some tld
              /\ truthy (Some tld) = true.
Proof.
  intros Hd. pose proof Hd as [Hlen Hok].
  unfold Bootstrap.getTld, lastLabel. rewrite (strict_lowercase d Hd).
  unfold split. rewrite length_map.
  destruct (Nat.ltb_spec (length (split_chars "." (chars d))) 2) as [?|_]; [lia|].
  replace (length (split_chars "." (chars d)) - 1)%nat
    with (Nat.pred (length (map str (split_chars "." (chars d)))))
    by (rewrite length_map; lia).
  rewrite <- last_lookup.
  change (map str ?l) with (str <$> l). rewrite fmap_last.
  destruct (last (split_chars "." (chars d))) as [l|] eqn:Hlast.
  - exists (str l). split_and!; [done..|]. cbn.
    apply last_Some_elem_of in Hlast. rewrite Forall_forall in Hok.
    destruct (Hok l Hlast) as [Hne _]. by rewrite str_nonempty.
  - apply last_None in Hlast. by apply split_chars_nonempty in Hlast.
Qed.

End TldFacts.

Section BootstrapHandlerFacts.
Import JS Rdap Runtime Contract Bootstrap.

Context {platform : Platform} {laws : PlatformLaws platform}.

Variable dnsBootstrap : BootstrapData.
Variable formatDate : string -> string.

Lemma loadBootstrap_cacheOk c :
  cacheOk dnsBootstrap c ->
  loadBootstrap dnsBootstrap c = (index dnsBootstrap, Some (index dnsBootstrap)).
Proof. by intros [-> | ->]. Qed.

(** Resolution on a valid domain: the endpoint bound to its last label. *)
Lemma getRdapUrl_strict c (d tld : string) :
  cacheOk dnsBootstrap c -> strictLabelSyntax d -> lastLabel d = Some tld ->
  getRdapUrl dnsBootstrap c d
  = (match mjoin (index dnsBootstrap !! tld) with
     | Some endpoint =>
         if String.eqb endpoint "" then None
         else Some (endpoint +:+ "domain/" +:+ d, endpoint)
     | None => None
     end, Some (index dnsBootstrap)).
Proof.
  intros Hc Hd Htld. destruct (getTld_strict d Hd) as (tld' & Hget & Hlast & Htruthy).
  assert (tld' = tld) as -> by congruence.
  unfold getRdapUrl. rewrite Hget, Htruthy. cbn [negb from_option]. unfold id.
  rewrite (loadBootstrap_cacheOk c Hc). cbv beta iota zeta.
  destruct (mjoin (index dnsBootstrap !! tld)) as [endpoint|]; cbn [truthy negb from_option];
    [|done]. unfold id.
  by destruct (String.eqb endpoint "").
Qed.

(** Resolution hands out the URL that the tie-break chose for the last
    snapshot entry listing the domain's last label. *)
Lemma getRdapUrl_tie_break c (d tld u : string) pre tlds endpoints post :
  cacheOk dnsBootstrap c -> strictLabelSyntax d -> lastLabel d = Some tld ->
  services dnsBootstrap = pre ++ (tlds, endpoints) :: post ->
  tld ∈ map toLowerCase tlds ->
  (forall entry, entry ∈ post -> tld ∉ map toLowerCase entry.1) ->
  preferHttps endpoints = Some u -> u <> "" ->
  getRdapUrl dnsBootstrap c d
  = (Some (u +:+ "domain/" +:+ d, u), Some (index dnsBootstrap)).
Proof.
  intros Hc Hd Htld Hsnap Hin Hpost Hu Hne.
  rewrite (getRdapUrl_strict c d tld Hc Hd Htld).
  assert (index dnsBootstrap !! tld = Some (Some u)) as ->.
  { unfold index, loadBootstrap. cbn [fst]. rewrite Hsnap, <- Hu.
    by apply foldl_registerService_last. }
  cbn [mjoin option_join]. apply String.eqb_neq in Hne. by rewrite Hne.
Qed.

End BootstrapHandlerFacts.

Section ResolutionClaims.
Import JS Rdap Runtime Contract Bootstrap.

Context {platform : Platform} {laws : PlatformLaws platform}.

Variable dnsBootstrap : BootstrapData.

(** C2. The tie-break of resolution. Let the last snapshot entry that lists
    the TLD of a valid domain carry the candidate list [endpoints]. The
    index binds the TLD to the tie-break's choice among them, and
    resolution hands out that one URL (with the request URL built on it):
    the first candidate, in list order, that starts with [https://]; when
    no candidate does, the first candidate of the list. So a list with an
    https candidate anywhere resolves to an https URL, whatever resolution
    returns is a member of the list, and an empty list resolves to
    nothing. (A first candidate that is the empty string, chosen for want of
    an https one, is falsy and resolves to nothing too.) *)
Theorem resolution_follows_tie_break c (d tld : string) pre tlds endpoints post :
  cacheOk dnsBootstrap c -> strictLabelSyntax d -> lastLabel d = Some tld ->
  services dnsBootstrap = pre ++ (tlds, endpoints) :: post ->
  tld ∈ map toLowerCase tlds ->
  (forall entry, entry ∈ post -> tld ∉ map toLowerCase entry.1) ->
  let resolved := (getRdapUrl dnsBootstrap c d).1 in
  index dnsBootstrap !! tld = Some (preferHttps endpoints)
  /\ (forall i e,
        endpoints !! i = Some e -> startsWith "https://" e = true ->
        (forall j e', (j < i)%nat -> endpoints !! j = Some e' ->
                      startsWith "https://" e' = false) ->
        resolved = Some (e +:+ "domain/" +:+ d, e))
  /\ ((forall e, e ∈ endpoints -> startsWith "https://" e = false) ->
      forall e0, endpoints !! 0%nat = Some e0 -> e0 <> "" ->
      resolved = Some (e0 +:+ "domain/" +:+ d, e0))
  /\ ((exists e, e ∈ endpoints /\ startsWith "https://" e = true) ->
      exists u, resolved = Some (u +:+ "domain/" +:+ d, u)
                /\ u ∈ endpoints /\ startsWith "https://" u = true)
  /\ (forall url u,
        resolved = Some (url, u) ->
        u ∈ endpoints /\ preferHttps endpoints = Some u
        /\ url = u +:+ "domain/" +:+ d)
  /\ (endpoints = [] -> resolved = None).
Proof.
  intros Hc Hd Htld Hsnap Hin Hpost resolved.
  assert (index dnsBootstrap !! tld = Some (preferHttps endpoints)) as Hidx.
  { unfold index, loadBootstrap. cbn [fst]. rewrite Hsnap.
    by apply foldl_registerService_last. }
  assert (resolved
          = match preferHttps endpoints with
            | Some endpoint =>
                if String.eqb endpoint "" then None
                else Some (endpoint +:+ "domain/" +:+ d, endpoint)
            | None => None
            end) as Hres.
  { subst resolved. by rewrite (getRdapUrl_strict dnsBootstrap c d tld Hc Hd Htld), Hidx. }
  destruct (preferHttps_rule endpoints) as (Hfirst & Hnone & Hany & Hmember).
  assert (forall e, startsWith "https://" e = true -> String.eqb e "" = false)
    as Hhttps by (intros e He; by destruct e).
  split_and!.
  - done.
  - intros i e Hi He Hbefore. rewrite Hres, (Hfirst i e Hi He Hbefore).
    by rewrite (Hhttps e He).
  - intros Hno e0 He0 Hne. rewrite Hres, (Hnone Hno), He0.
    apply String.eqb_neq in Hne. by rewrite Hne.
  - intros Hsome. destruct (Hany Hsome) as (u & Hu & Huin & Huhttps).
    exists u. split_and!; [|done..]. by rewrite Hres, Hu, (Hhttps u Huhttps).
  - intros url u. rewrite Hres.
    destruct (preferHttps endpoints) as [u'|] eqn:Hu'; [|done].
    destruct (String.eqb u' ""); [done|]. intros [= <- <-].
    split_and!; [|done..].
    destruct endpoints as [|e0 rest]; [done|].
    destruct (Hmember ltac:(done)) as (u'' & Hu'' & Huin). congruence.
  - intros ->. by rewrite Hres.
Qed.

End ResolutionClaims.

(** Closes one case of a handler's classification. *)
Ltac outcome :=
  intros; simplify_eq;
  try match goal with
      | H1 : Runtime.resp_json ?r = _, H2 : Runtime.resp_json ?r = _ |- _ =>
          rewrite H1 in H2; simplify_eq
      end;
  try done; try congruence;
  try match goal with
      | H : Runtime.ok ?r = true, E : Runtime.resp_status ?r = 404 |- _ =>
          unfold Runtime.ok in H; rewrite E in H; done
      end.

Section BootstrapQueryFacts.
Import JS Rdap Runtime Contract Bootstrap.

Context {platform : Platform}.

Variable dnsBootstrap : BootstrapData.
Variable formatDate : string -> string.

#[local] Arguments pretty.pretty : simpl never.

(** The handler past validation and resolution: one fetch, then the
    classification of what came back. *)
Lemma bootstrap_GET_query c c' (input d url ep : string) (w : World) :
  toLowerCase (trim input) = d -> truthy (Some d) = true ->
  test domainRegex d = true ->
  getRdapUrl dnsBootstrap c d = (Some (url, ep), c') ->
  exists resp,
    exec w (GET dnsBootstrap formatDate c (Some input)) = ((resp, c'), [url])
    /\ http_status resp = 200
    /\ (forall e, net w url = Throws e ->
          resp_body resp = Failure (catchMessage e) (Some (elapsed w 1)))
    /\ (forall r, net w url = Returns r -> resp_status r = 404 ->
          resp_body resp = Failure (notFoundMessage d) (Some (elapsed w 1)))
    /\ (forall r, net w url = Returns r -> resp_status r <> 404 -> ok r = false ->
          resp_body resp = Failure (statusMessage (resp_status r)) (Some (elapsed w 1)))
    /\ (forall r e, net w url = Returns r -> ok r = true -> resp_json r = Throws e ->
          resp_body resp = Failure (catchMessage e) (Some (elapsed w 2)))
    /\ (forall r data, net w url = Returns r -> ok r = true ->
          resp_json r = Returns data ->
          exists result,
            normalize formatDate data (elapsed w 1) ep = Returns result
            /\ resp_body resp = Success result).
Proof.
  intros Hd Ht Hre Hurl.
  unfold GET. cbn [fmap option_fmap option_map]. rewrite Hd, Ht.
  cbn [negb from_option]. unfold id. rewrite Hre. cbn [negb].
  rewrite Hurl. cbv beta iota zeta. unfold exec. cbn.
  destruct (net w url) as [r|e] eqn:Hnet; cbn;
    [destruct (Z.eqb_spec (resp_status r) 404) as [H404|H404]; cbn;
     [|destruct (ok r) eqn:Hok; cbn;
       [destruct (resp_json r) as [data|e] eqn:Hjson; cbn;
        [rewrite bootstrap_normalize_returns; cbn|]|]]|];
    (eexists; split; [reflexivity|]); cbn; split_and!; outcome.
  eexists. split; [apply bootstrap_normalize_returns|reflexivity].
Qed.

End BootstrapQueryFacts.

Section VerisignQueryFacts.
Import JS Rdap Runtime Contract Verisign.

Context {platform : Platform}.

Variable formatDate : string -> string.

#[local] Arguments pretty.pretty : simpl never.

Lemma verisign_GET_query (input d url : string) (w : World) :
  toLowerCase (trim input) = d -> truthy (Some d) = true ->
  test domainRegex d = true ->
  getRdapUrl d = Some url -> truthy (Some url) = true ->
  exists resp,
    exec w (GET formatDate (Some input)) = (resp, [url])
    /\ http_status resp = 200
    /\ (forall e, net w url = Throws e ->
          resp_body resp = Failure (catchMessage e) (Some (elapsed w 1)))
    /\ (forall r, net w url = Returns r -> resp_status r = 404 ->
          resp_body resp = Failure (notFoundMessage d) (Some (elapsed w 1)))
    /\ (forall r, net w url = Returns r -> resp_status r <> 404 -> ok r = false ->
          resp_body resp = Failure (statusMessage (resp_status r)) (Some (elapsed w 1)))
    /\ (forall r e, net w url = Returns r -> ok r = true -> resp_json r = Throws e ->
          resp_body resp = Failure (catchMessage e) (Some (elapsed w 2)))
    /\ (forall r data, net w url = Returns r -> ok r = true ->
          resp_json r = Returns data ->
          exists result,
            normalize formatDate data (elapsed w 1) = Returns result
            /\ resp_body resp = Success result).
Proof.
  intros Hd Ht Hre Hurl Hut.
  unfold GET. cbn [fmap option_fmap option_map]. rewrite Hd, Ht.
  cbn [negb from_option]. unfold id. rewrite Hre. cbn [negb].
  rewrite Hurl, Hut. cbn [negb from_option]. unfold id. unfold exec. cbn.
  destruct (net w url) as [r|e] eqn:Hnet; cbn;
    [destruct (Z.eqb_spec (resp_status r) 404) as [H404|H404]; cbn;
     [|destruct (ok r) eqn:Hok; cbn;
       [destruct (resp_json r) as [data|e] eqn:Hjson; cbn;
        [rewrite verisign_normalize_returns; cbn|]|]]|];
    (eexists; split; [reflexivity|]); cbn; split_and!; outcome.
  eexists. split; [apply verisign_normalize_returns|reflexivity].
Qed.

Lemma verisign_url_truthy (d url : string) :
  getRdapUrl d = Some url -> truthy (Some url) = true.
Proof.
  unfold getRdapUrl. destruct (getTld d) as [tld|]; [|done].
  destruct (_ || _); [|done]. by intros [= <-].
Qed.

End VerisignQueryFacts.

Section LookupClaims.
Import JS Rdap Runtime Contract.

Context {platform : Platform} {laws : PlatformLaws platform}.

Variable dnsBootstrap : Bootstrap.BootstrapData.
Variable formatDate : string -> string.

Lemma strict_truthy (d : string) : strictLabelSyntax d -> truthy (Some d) = true.
Proof.
  intros [Hlen _]. destruct d; [|done]. cbn in Hlen. lia.
Qed.

(** C1, as the code has it. Once the request passed validation and
    resolution, the handler fetches [endpoint + "domain/" + domain] once and
    answers with HTTP 200 and a body that carries the measured elapsed time:
    a 404 gives the "not found" message and no data; another status outside
    200..299 gives the message with the status code; an exception of
    [fetch] (network, DNS, TLS) and an exception of [response.json()] (a
    body that does not parse) both reach the one [catch] clause and give the
    exception's message; a 2xx response with a parseable body gives the
    normalized result. The body has no failure kind. *)
Theorem query_outcomes c (input d tld endpoint : string) (w : World) :
  cacheOk dnsBootstrap c ->
  toLowerCase (trim input) = d ->
  strictLabelSyntax d -> lastLabel d = Some tld ->
  index dnsBootstrap !! tld = Some (Some endpoint) -> endpoint <> "" ->
  let url := endpoint +:+ "domain/" +:+ d in
  exists resp,
    exec w (Bootstrap.GET dnsBootstrap formatDate c (Some input))
      = ((resp, Some (index dnsBootstrap)), [url])
    /\ http_status resp = 200
    /\ (forall e, net w url = Throws e ->
          resp_body resp = Failure (Bootstrap.catchMessage e) (Some (elapsed w 1)))
    /\ (forall r, net w url = Returns r -> resp_status r = 404 ->
          resp_body resp = Failure (notFoundMessage d) (Some (elapsed w 1)))
    /\ (forall r, net w url = Returns r -> resp_status r <> 404 -> ok r = false ->
          resp_body resp = Failure (statusMessage (resp_status r)) (Some (elapsed w 1)))
    /\ (forall r e, net w url = Returns r -> ok r = true -> resp_json r = Throws e ->
          resp_body resp = Failure (Bootstrap.catchMessage e) (Some (elapsed w 2)))
    /\ (forall r data, net w url = Returns r -> ok r = true ->
          resp_json r = Returns data ->
          exists result,
            Bootstrap.normalize formatDate data (elapsed w 1) endpoint = Returns result
            /\ resp_body resp = Success result
            /\ Bootstrap.queryTime result = elapsed w 1).
Proof.
  intros Hc Hd Hstrict Htld Hidx Hne url.
  pose proof (getRdapUrl_strict dnsBootstrap c d tld Hc Hstrict Htld) as Hurl.
  rewrite Hidx in Hurl. cbn [mjoin option_join] in Hurl.
  apply String.eqb_neq in Hne. rewrite Hne in Hurl.
  destruct (bootstrap_GET_query dnsBootstrap formatDate c _ input d _ endpoint w
              Hd (strict_truthy d Hstrict)
              (proj2 (domainRegex_strict d) Hstrict) Hurl)
    as (resp & Hexec & Hstatus & H1 & H2 & H3 & H4 & H5).
  exists resp. split_and!; try done.
  intros r data Hnet Hok Hjson.
  destruct (H5 r data Hnet Hok Hjson) as (result & Hnorm & Hbody).
  exists result. split_and!; [done..|].
  rewrite bootstrap_normalize_returns in Hnorm. by injection Hnorm as <-.
Qed.

(** C6. Rejections before the network. When the trimmed, lowercased input
    is empty or violates the strict label syntax, the handler answers 400
    with an input-rejection message and fetches nothing; when the input is a
    valid domain whose last label has no entry in the bootstrap index, it
    answers 400 with a message that names that label and fetches nothing. *)
Theorem rejected_without_network c (input : string) (w : World) :
  cacheOk dnsBootstrap c ->
  let d := toLowerCase (trim input) in
  let reply := exec w (Bootstrap.GET dnsBootstrap formatDate c (Some input)) in
  (d = "" ->
     reply = ((Response_json (Failure "Domain parameter is required" None) (Some 400),
               c), []))
  /\ (d <> "" -> ~ strictLabelSyntax d ->
      reply = ((Response_json (Failure "Invalid domain format" None) (Some 400),
                c), []))
  /\ (forall tld,
        strictLabelSyntax d -> lastLabel d = Some tld ->
        index dnsBootstrap !! tld = None ->
        reply = ((Response_json (Failure (unsupportedMessage (Some tld)) None) (Some 400),
                  Some (index dnsBootstrap)), [])).
Proof.
  intros Hc d reply. subst reply. unfold Bootstrap.GET.
  cbn [fmap option_fmap option_map]. fold d. split_and!.
  - intros ->. done.
  - intros Hne Hbad. apply String.eqb_neq in Hne.
    cbn [truthy]. rewrite Hne. cbn [negb from_option]. unfold id.
    destruct (test Bootstrap.domainRegex d) eqn:Hre; [|done].
    by apply domainRegex_strict in Hre.
  - intros tld Hstrict Htld Hidx.
    rewrite (strict_truthy d Hstrict). cbn [negb from_option]. unfold id.
    rewrite (proj2 (domainRegex_strict d) Hstrict). cbn [negb].
    rewrite (getRdapUrl_strict dnsBootstrap c d tld Hc Hstrict Htld), Hidx.
    cbn [mjoin option_join].
    destruct (getTld_strict d Hstrict) as (tld' & -> & Hlast & _).
    by assert (tld' = tld) as -> by congruence.
Qed.

End LookupClaims.

(** ** The HTTP status of a response *)

Section RequestFacts.
Import JS Rdap Runtime Contract.

Context {platform : Platform} {laws : PlatformLaws platform}.

Variable dnsBootstrap : Bootstrap.BootstrapData.
Variable formatDate : string -> string.

Lemma lastLabel_some (d : string) : exists tld, lastLabel d = Some tld.
Proof.
  unfold lastLabel, split. change (map str ?l) with (str <$> l).
  rewrite fmap_last.
  destruct (last (split_chars "." (chars d))) as [l|] eqn:Hlast; [by eexists|].
  apply last_None in Hlast. by apply split_chars_nonempty in Hlast.
Qed.

Lemma strict_dec (d : string) : strictLabelSyntax d \/ ~ strictLabelSyntax d.
Proof.
  destruct (test Bootstrap.domainRegex d) eqn:Hre.
  - left. by apply domainRegex_strict.
  - right. intros Hd%domainRegex_strict. congruence.
Qed.

Lemma bootstrapSupported_dec (tld : string) :
  bootstrapSupported dnsBootstrap tld \/ ~ bootstrapSupported dnsBootstrap tld.
Proof.
  unfold bootstrapSupported.
  destruct (index dnsBootstrap !! tld) as [[ep|]|]; cycle 1.
  - right. by intros (e & He & _).
  - right. by intros (e & He & _).
  - destruct (decide (ep = "")) as [->|Hne].
    + right. by intros (e & [= <-] & He).
    + left. by exists ep.
Qed.

Lemma verisignSupported_dec (tld : string) :
  verisignSupported tld \/ ~ verisignSupported tld.
Proof.
  unfold verisignSupported.
  destruct (decide (tld = "com")); [by left; left|].
  destruct (decide (tld = "net")); [by left; right|].
  right. by intros [?|?].
Qed.

(** A request is turned down or it passes, never both. *)
Lemma request_cases (supported : string -> Prop) (param : option string) :
  (forall tld, supported tld \/ ~ supported tld) ->
  (exists why, rejected supported param why) \/ accepted supported param.
Proof.
  intros Hdec. destruct param as [input|]; [|left; by exists MissingDomain].
  destruct (decide (toLowerCase (trim input) = "")) as [Hd|Hd];
    [left; by exists MissingDomain|].
  destruct (strict_dec (toLowerCase (trim input))) as [Hs|Hs];
    [|left; by exists InvalidFormat].
  destruct (lastLabel_some (toLowerCase (trim input))) as [tld Htld].
  destruct (Hdec tld); [right; by exists input, tld|left; by exists (UnservedTld tld)].
Qed.

Lemma rejected_not_accepted (supported : string -> Prop) (param : option string)
    (why : rejection) :
  rejected supported param why -> ~ accepted supported param.
Proof.
  intros Hr (input & tld & -> & Hs & Htld & Hsup). cbn in Hr.
  destruct why as [| |tld'].
  - rewrite Hr in Hs. destruct Hs as [Hlen _]. cbn in Hlen. lia.
  - by destruct Hr.
  - destruct Hr as (_ & Htld' & Hno). apply Hno. congruence.
Qed.

(** The bootstrap route on a request it turns down, and on one it lets
    pass. *)
Lemma bootstrap_rejected c (param : option string) (w : World) (why : rejection) :
  cacheOk dnsBootstrap c ->
  rejected (bootstrapSupported dnsBootstrap) param why ->
  exists c',
    exec w (Bootstrap.GET dnsBootstrap formatDate c param)
    = ((Response_json (Failure (rejectionMessage unsupportedMessage why) None)
          (Some 400), c'), []).
Proof.
  intros Hc Hr. destruct param as [input|]; [|cbn in Hr; subst why; by eexists].
  cbn in Hr. unfold Bootstrap.GET. cbn [fmap option_fmap option_map].
  destruct why as [| |tld].
  - rewrite Hr. by eexists.
  - destruct Hr as [Hne Hbad]. apply String.eqb_neq in Hne.
    cbn [truthy]. rewrite Hne. cbn [negb from_option]. unfold id.
    destruct (test Bootstrap.domainRegex _) eqn:Hre; [|by eexists].
    by apply domainRegex_strict in Hre.
  - destruct Hr as (Hstrict & Htld & Hno).
    rewrite (strict_truthy _ Hstrict). cbn [negb from_option]. unfold id.
    rewrite (proj2 (domainRegex_strict _) Hstrict). cbn [negb].
    rewrite (getRdapUrl_strict dnsBootstrap c _ tld Hc Hstrict Htld).
    destruct (getTld_strict _ Hstrict) as (tld' & Hget & Hlast & _).
    assert (tld' = tld) as -> by congruence.
    destruct (index dnsBootstrap !! tld) as [[ep|]|] eqn:Hidx; cbn [mjoin option_join];
      [|rewrite Hget; by eexists..].
    destruct (String.eqb_spec ep "") as [->|Hep]; [rewrite Hget; by eexists|].
    exfalso. apply Hno. by exists ep.
Qed.

Lemma bootstrap_accepted c (param : option string) (w : World) :
  cacheOk dnsBootstrap c ->
  accepted (bootstrapSupported dnsBootstrap) param ->
  exists resp url,
    exec w (Bootstrap.GET dnsBootstrap formatDate c param)
    = ((resp, Some (index dnsBootstrap)), [url])
    /\ http_status resp = 200
    /\ match upstreamOf (net w url) with
       | Parsed _ => exists result, resp_body resp = Success result
       | _ => exists msg qt, resp_body resp = Failure msg (Some qt)
       end.
Proof.
  intros Hc (input & tld & -> & Hstrict & Htld & ep & Hidx & Hne).
  pose proof (getRdapUrl_strict dnsBootstrap c _ tld Hc Hstrict Htld) as Hurl.
  rewrite Hidx in Hurl. cbn [mjoin option_join] in Hurl.
  apply String.eqb_neq in Hne. rewrite Hne in Hurl.
  destruct (bootstrap_GET_query dnsBootstrap formatDate c _ input _ _ ep w
              eq_refl (strict_truthy _ Hstrict)
              (proj2 (domainRegex_strict _) Hstrict) Hurl)
    as (resp & Hexec & Hstatus & H1 & H2 & H3 & H4 & H5).
  exists resp, (ep +:+ "domain/" +:+ toLowerCase (trim input)).
  split_and!; [done..|]. unfold upstreamOf.
  destruct (net w _) as [r|e]; [|eauto].
  destruct (Z.eqb_spec (resp_status r) 404); [eauto|].
  destruct (ok r) eqn:Hok; cbn [negb]; [|eauto].
  destruct (resp_json r) as [data|e] eqn:Hjson; [|eauto].
  destruct (H5 r data eq_refl Hok Hjson) as (result & _ & Hbody). eauto.
Qed.

(** The same for the Verisign route. *)
Lemma verisign_rejected (param : option string) (w : World) (why : rejection) :
  rejected verisignSupported param why ->
  exec w (Verisign.GET formatDate param)
  = (Response_json (Failure (rejectionMessage verisignUnsupportedMessage why) None)
       (Some 400), []).
Proof.
  intros Hr. destruct param as [input|]; [|cbn in Hr; by subst why].
  cbn in Hr. unfold Verisign.GET. cbn [fmap option_fmap option_map].
  destruct why as [| |tld].
  - by rewrite Hr.
  - destruct Hr as [Hne Hbad]. apply String.eqb_neq in Hne.
    cbn [truthy]. rewrite Hne. cbn [negb from_option]. unfold id.
    destruct (test Verisign.domainRegex _) eqn:Hre; [|done].
    rewrite verisign_domainRegex_same in Hre. by apply domainRegex_strict in Hre.
  - destruct Hr as (Hstrict & Htld & Hno).
    rewrite (strict_truthy _ Hstrict). cbn [negb from_option]. unfold id.
    rewrite verisign_domainRegex_same, (proj2 (domainRegex_strict _) Hstrict).
    cbn [negb].
    destruct (getTld_strict _ Hstrict) as (tld' & Hget & Hlast & _).
    assert (tld' = tld) as -> by congruence.
    unfold Verisign.getRdapUrl. rewrite !getTld_same, Hget.
    destruct (String.eqb_spec tld "com") as [Hcom|_]; [exfalso; apply Hno; by left|].
    destruct (String.eqb_spec tld "net") as [Hnet|_]; [exfalso; apply Hno; by right|].
    done.
Qed.

Lemma verisign_accepted (param : option string) (w : World) :
  accepted verisignSupported param ->
  exists resp url,
    exec w (Verisign.GET formatDate param) = (resp, [url])
    /\ http_status resp = 200
    /\ match upstreamOf (net w url) with
       | Parsed _ => exists result, resp_body resp = Success result
       | _ => exists msg qt, resp_body resp = Failure msg (Some qt)
       end.
Proof.
  intros (input & tld & -> & Hstrict & Htld & Hsup).
  destruct (getTld_strict _ Hstrict) as (tld' & Hget & Hlast & _).
  assert (tld' = tld) as -> by congruence.
  assert (exists url, Verisign.getRdapUrl (toLowerCase (trim input)) = Some url)
    as [url Hurl].
  { unfold Verisign.getRdapUrl. rewrite getTld_same, Hget.
    destruct Hsup as [-> | ->]; by eexists. }
  destruct (verisign_GET_query formatDate input _ url w eq_refl
              (strict_truthy _ Hstrict)) as (resp & Hexec & Hstatus & H1 & H2 & H3 & H4 & H5).
  { rewrite verisign_domainRegex_same. by apply domainRegex_strict. }
  { done. }
  { by apply (verisign_url_truthy (toLowerCase (trim input))). }
  exists resp, url. split_and!; [done..|]. unfold upstreamOf.
  destruct (net w _) as [r|e]; [|eauto].
  destruct (Z.eqb_spec (resp_status r) 404); [eauto|].
  destruct (ok r) eqn:Hok; cbn [negb]; [|eauto].
  destruct (resp_json r) as [data|e] eqn:Hjson; [|eauto].
  destruct (H5 r data eq_refl Hok Hjson) as (result & _ & Hbody). eauto.
Qed.

End RequestFacts.

Section StatusClaims.
Import JS Rdap Runtime Contract.

Context {platform : Platform} {laws : PlatformLaws platform}.

Variable dnsBootstrap : Bootstrap.BootstrapData.
Variable formatDate : string -> string.

(** C10. The HTTP status. On both routes the request alone settles the
    status. The response is a 400 exactly when the request is turned down
    before the network is used: the [domain] parameter is missing or blank,
    its trimmed, lowercased value violates the domain syntax, or the TLD of
    a valid domain is not served (no usable endpoint in the index; neither
    [com] nor [net] on the Verisign route); nothing is fetched then and the
    body is the failure message of that reason, without elapsed time. The
    response is a 200 exactly when the request passes: one URL is fetched
    and, whatever came back (the exchange failed, a 404, another status
    outside 200..299, a body that does not parse, a decoded object), the
    status stays 200, with a failure body carrying the elapsed time in the
    first four cases and the result in the last. *)
Theorem status_400_exactly_before_fetch c (param : option string) (w : World) :
  cacheOk dnsBootstrap c ->
  exists resp c' log vresp vlog,
    exec w (Bootstrap.GET dnsBootstrap formatDate c param) = ((resp, c'), log)
    /\ exec w (Verisign.GET formatDate param) = (vresp, vlog)
    /\ (http_status resp = 400
        <-> exists why, rejected (bootstrapSupported dnsBootstrap) param why)
    /\ (http_status resp = 200 <-> accepted (bootstrapSupported dnsBootstrap) param)
    /\ (forall why,
          rejected (bootstrapSupported dnsBootstrap) param why ->
          log = []
          /\ resp_body resp = Failure (rejectionMessage unsupportedMessage why) None)
    /\ (accepted (bootstrapSupported dnsBootstrap) param ->
        exists url,
          log = [url]
          /\ match upstreamOf (net w url) with
             | Parsed _ => exists result, resp_body resp = Success result
             | _ => exists msg qt, resp_body resp = Failure msg (Some qt)
             end)
    /\ (http_status resp = 400 <-> log = [])
    /\ (http_status vresp = 400 <-> exists why, rejected verisignSupported param why)
    /\ (http_status vresp = 200 <-> accepted verisignSupported param)
    /\ (forall why,
          rejected verisignSupported param why ->
          vlog = []
          /\ resp_body vresp
             = Failure (rejectionMessage verisignUnsupportedMessage why) None)
    /\ (accepted verisignSupported param ->
        exists url,
          vlog = [url]
          /\ match upstreamOf (net w url) with
             | Parsed _ => exists result, resp_body vresp = Success result
             | _ => exists msg qt, resp_body vresp = Failure msg (Some qt)
             end)
    /\ (http_status vresp = 400 <-> vlog = []).
Proof.
  intros Hc.
  assert (exists resp c' log,
            exec w (Bootstrap.GET dnsBootstrap formatDate c param) = ((resp, c'), log)
            /\ (http_status resp = 400
                <-> exists why, rejected (bootstrapSupported dnsBootstrap) param why)
            /\ (http_status resp = 200
                <-> accepted (bootstrapSupported dnsBootstrap) param)
            /\ (forall why,
                  rejected (bootstrapSupported dnsBootstrap) param why ->
                  log = []
                  /\ resp_body resp
                     = Failure (rejectionMessage unsupportedMessage why) None)
            /\ (accepted (bootstrapSupported dnsBootstrap) param ->
                exists url,
                  log = [url]
                  /\ match upstreamOf (net w url) with
                     | Parsed _ => exists result, resp_body resp = Success result
                     | _ => exists msg qt, resp_body resp = Failure msg (Some qt)
                     end)
            /\ (http_status resp = 400 <-> log = []))
    as (resp & c' & log & Hb & Hbs).
  { destruct (request_cases (bootstrapSupported dnsBootstrap) param
                (bootstrapSupported_dec dnsBootstrap)) as [[why Hr]|Ha].
    - destruct (bootstrap_rejected dnsBootstrap formatDate c param w why Hc Hr)
        as [c' Hexec].
      pose proof (rejected_not_accepted _ _ _ Hr) as Hna.
      do 3 eexists. split; [exact Hexec|]. cbn. split_and!.
      + split; [by exists why|done].
      + split; [done|by intros ?%Hna].
      + intros why' Hr'.
        destruct (bootstrap_rejected dnsBootstrap formatDate c param w why' Hc Hr')
          as [c'' Hexec'].
        rewrite Hexec in Hexec'. unfold Response_json in Hexec'.
        split; [done|]. congruence.
      + by intros ?%Hna.
      + done.
    - destruct (bootstrap_accepted dnsBootstrap formatDate c param w Hc Ha)
        as (resp & url & Hexec & Hstatus & Hbody).
      do 3 eexists. split; [exact Hexec|]. rewrite Hstatus. split_and!.
      + split; [done|]. intros [why Hr]. by apply rejected_not_accepted in Hr.
      + done.
      + intros why Hr. by apply rejected_not_accepted in Hr.
      + intros _. by exists url.
      + done. }
  assert (exists vresp vlog,
            exec w (Verisign.GET formatDate param) = (vresp, vlog)
            /\ (http_status vresp = 400
                <-> exists why, rejected verisignSupported param why)
            /\ (http_status vresp = 200 <-> accepted verisignSupported param)
            /\ (forall why,
                  rejected verisignSupported param why ->
                  vlog = []
                  /\ resp_body vresp
                     = Failure (rejectionMessage verisignUnsupportedMessage why) None)
            /\ (accepted verisignSupported param ->
                exists url,
                  vlog = [url]
                  /\ match upstreamOf (net w url) with
                     | Parsed _ => exists result, resp_body vresp = Success result
                     | _ => exists msg qt, resp_body vresp = Failure msg (Some qt)
                     end)
            /\ (http_status vresp = 400 <-> vlog = []))
    as (vresp & vlog & Hv & Hvs).
  { destruct (request_cases verisignSupported param verisignSupported_dec)
      as [[why Hr]|Ha].
    - pose proof (verisign_rejected formatDate param w why Hr) as Hexec.
      pose proof (rejected_not_accepted _ _ _ Hr) as Hna.
      do 2 eexists. split; [exact Hexec|]. cbn. split_and!.
      + split; [by exists why|done].
      + split; [done|by intros ?%Hna].
      + intros why' Hr'.
        pose proof (verisign_rejected formatDate param w why' Hr') as Hexec'.
        rewrite Hexec in Hexec'. unfold Response_json in Hexec'.
        split; [done|]. congruence.
      + by intros ?%Hna.
      + done.
    - destruct (verisign_accepted formatDate param w Ha)
        as (vresp & url & Hexec & Hstatus & Hbody).
      do 2 eexists. split; [exact Hexec|]. rewrite Hstatus. split_and!.
      + split; [done|]. intros [why Hr]. by apply rejected_not_accepted in Hr.
      + done.
      + intros why Hr. by apply rejected_not_accepted in Hr.
      + intros _. by exists url.
      + done. }
  exists resp, c', log, vresp, vlog.
  destruct Hbs as (? & ? & ? & ? & ?), Hvs as (? & ? & ? & ? & ?).
  by split_and!.
Qed.

End StatusClaims.


Section LookupScenarios.
Import JS Rdap Runtime Contract Scenario.

#[local] Existing Instance examplePlatform.
#[local] Existing Instance examplePlatform_laws.

Lemma query_outcomes_witness :
  exists resp,
    exec world404 (Bootstrap.GET exampleSnapshot id None (Some " Example.COM "))
      = ((resp, Some (index exampleSnapshot)),
         ["https://rdap.example-registry.test/domain/example.com"])
    /\ http_status resp = 200
    /\ resp_body resp = Failure (notFoundMessage "example.com") (Some 4).
Proof.
  destruct (query_outcomes exampleSnapshot id None " Example.COM " "example.com"
              "com" "https://rdap.example-registry.test/" world404)
    as (resp & Hexec & Hstatus & _ & H404 & _).
  - by left.
  - reflexivity.
  - apply domainRegex_strict. vm_compute. reflexivity.
  - vm_compute. reflexivity.
  - vm_compute. reflexivity.
  - discriminate.
  - exists resp. split_and!; [exact Hexec|exact Hstatus|].
    exact (H404 _ eq_refl eq_refl).
Defined.

Lemma rejected_without_network_witness :
  exec world404 (Bootstrap.GET exampleSnapshot id None (Some "not a domain"))
    = ((Response_json (Failure "Invalid domain format" None) (Some 400), None), [])
  /\ exec world404 (Bootstrap.GET exampleSnapshot id None (Some "example.zz"))
    = ((Response_json (Failure (unsupportedMessage (Some "zz")) None) (Some 400),
        Some (index exampleSnapshot)), []).
Proof.
  split.
  - apply (proj1 (proj2 (rejected_without_network exampleSnapshot id None
                           "not a domain" world404 (or_introl eq_refl)))).
    + discriminate.
    + intros Hstrict%domainRegex_strict. vm_compute in Hstrict. discriminate.
  - apply (proj2 (proj2 (rejected_without_network exampleSnapshot id None
                           "example.zz" world404 (or_introl eq_refl)))).
    + apply domainRegex_strict. vm_compute. reflexivity.
    + vm_compute. reflexivity.
    + vm_compute. reflexivity.
Defined.

Lemma resolution_follows_tie_break_witness :
  let snapshot :=
    {| Bootstrap.services :=
         [ (["COM"; "net"],
            ["http://a.test/"; "https://b.test/"; "https://c.test/"]) ] |} in
  (Bootstrap.getRdapUrl snapshot None "example.com").1
  = Some ("https://b.test/domain/example.com", "https://b.test/").
Proof.
  intros snapshot.
  destruct (resolution_follows_tie_break snapshot None "example.com" "com"
              [] ["COM"; "net"]
              ["http://a.test/"; "https://b.test/"; "https://c.test/"] [])
    as (_ & Hhttps & _).
  - by left.
  - apply domainRegex_strict. vm_compute. reflexivity.
  - vm_compute. reflexivity.
  - reflexivity.
  - change ("com" ∈ ["com"; "net"]). left.
  - intros entry Hentry. by apply elem_of_nil in Hentry.
  - apply (Hhttps 1%nat "https://b.test/"); [reflexivity..|].
    intros [|j] e' Hj He'; [|lia]. by injection He' as <-.
Defined.

Lemma status_400_exactly_before_fetch_witness :
  http_status (exec world404
                 (Bootstrap.GET exampleSnapshot id None (Some "example.com"))).1.1
  = 200
  /\ http_status (exec world404
                    (Bootstrap.GET exampleSnapshot id None (Some "example.zz"))).1.1
     = 400.
Proof.
  split.
  - destruct (status_400_exactly_before_fetch exampleSnapshot id None
                (Some "example.com") world404 (or_introl eq_refl))
      as (resp & c' & log & vresp & vlog & Hexec & _ & _ & H200 & _).
    rewrite Hexec. apply H200. exists "example.com", "com". split_and!.
    + reflexivity.
    + apply domainRegex_strict. vm_compute. reflexivity.
    + vm_compute. reflexivity.
    + exists "https://rdap.example-registry.test/". split; [|discriminate].
      vm_compute. reflexivity.
  - destruct (status_400_exactly_before_fetch exampleSnapshot id None
                (Some "example.zz") world404 (or_introl eq_refl))
      as (resp & c' & log & vresp & vlog & Hexec & _ & H400 & _).
    rewrite Hexec. apply H400. exists (UnservedTld "zz"). split_and!.
    + apply domainRegex_strict. vm_compute. reflexivity.
    + vm_compute. reflexivity.
    + intros (endpoint & Hidx & _). vm_compute in Hidx. discriminate.
Defined.

End LookupScenarios.

Section FailureKinds.
Import JS Rdap Runtime Contract Scenario.

(** The claim's failure kinds do not exist in the responses: on every
    platform, a transport failure and a body that does not parse can produce
    the very same response, so no classification of responses tells them
    apart. *)
Lemma parse_failure_answers_like_transport_failure :
  ~ exists platform : Platform,
      PlatformLaws platform
      /\ exists kind : Response Bootstrap.result -> failureKind,
           forall snapshot fd c param w resp c' url,
             exec w (Bootstrap.GET snapshot fd c param) = ((resp, c'), [url]) ->
             (forall e, net w url = Throws e -> kind resp = TransportError)
             /\ (forall r e, net w url = Returns r -> ok r = true ->
                             resp_json r = Throws e -> kind resp = UpstreamError).
Proof.
  intros (platform & laws & kind & H).
  assert (strictLabelSyntax "example.com") as Hstrict
    by (apply domainRegex_strict; vm_compute; reflexivity).
  pose proof (strict_requested "example.com" Hstrict) as Hd.
  assert (toLowerCase "com" = "com") as Hcom
    by (by rewrite (toLowerCase_ascii "com" eq_refl)).
  pose proof (getRdapUrl_tie_break exampleSnapshot None "example.com" "com"
                "https://rdap.example-registry.test/" [] ["com"]
                ["https://rdap.example-registry.test/"] []
                (or_introl eq_refl) Hstrict eq_refl eq_refl) as Hurl.
  cbn [map] in Hurl. rewrite Hcom in Hurl.
  specialize (Hurl ltac:(left) ltac:(by intros entry ?%elem_of_nil) eq_refl
                ltac:(discriminate)).
  destruct (bootstrap_GET_query exampleSnapshot id None _ "example.com" _ _ _
              worldTransport Hd eq_refl eq_refl Hurl)
    as (resp1 & Hexec1 & Hstatus1 & Hthrows & _).
  destruct (bootstrap_GET_query exampleSnapshot id None _ "example.com" _ _ _
              worldParse Hd eq_refl eq_refl Hurl)
    as (resp2 & Hexec2 & Hstatus2 & _ & _ & _ & Hparse & _).
  specialize (Hthrows _ eq_refl). specialize (Hparse _ _ eq_refl eq_refl eq_refl).
  assert (resp1 = resp2) as Hsame.
  { destruct resp1, resp2. cbn in *. by subst. }
  destruct (H _ _ _ _ _ _ _ _ Hexec1) as [Ht _].
  destruct (H _ _ _ _ _ _ _ _ Hexec2) as [_ Hp].
  specialize (Ht _ eq_refl). specialize (Hp _ _ eq_refl eq_refl eq_refl).
  congruence.
Qed.

End FailureKinds.

(** * Further properties of the two routes *)

(** ** The index: what a binding tells *)

Section IndexFacts.
Import JS Contract Bootstrap.

Context {platform : Platform}.

Lemma preferHttps_elem (endpoints : list string) (u : string) :
  preferHttps endpoints = Some u -> u ∈ endpoints.
Proof.
  unfold preferHttps, or_else.
  destruct (find (startsWith "https://") endpoints) as [e|] eqn:Hfind.
  - apply find_some in Hfind as [Hin He]. rewrite (https_truthy e He).
    intros [= <-]. by apply list_elem_of_In.
  - cbn. intros Hu. by apply list_elem_of_lookup_2 in Hu.
Qed.

(** A binding of the loop's result comes from the last service that lists
    the key, or was there before the loop. *)
Lemma foldl_registerService_inv (services : list (list string * list string))
    (m : gmap string (option string)) (k : string) (v : option string) :
  foldl registerService m services !! k = Some v ->
  (m !! k = Some v /\
   forall entry, entry ∈ services -> k ∉ map toLowerCase entry.1)
  \/ exists pre tlds endpoints post,
       services = pre ++ (tlds, endpoints) :: post
       /\ k ∈ map toLowerCase tlds
       /\ (forall entry, entry ∈ post -> k ∉ map toLowerCase entry.1)
       /\ v = preferHttps endpoints.
Proof.
  induction services as [|[tlds endpoints] services IH] using rev_ind.
  - intros Hm. left. split; [done|]. by intros entry ?%elem_of_nil.
  - rewrite foldl_app. cbn [foldl]. rewrite registerService_lookup.
    destruct (decide (k ∈ map toLowerCase tlds)) as [Hk|Hk].
    + intros [= <-]. right. exists services, tlds, endpoints, [].
      split_and!; [done..| |done]. by intros entry ?%elem_of_nil.
    + intros Hm. destruct (IH Hm) as [[Hm0 Hnone]|(pre & t & e & post & -> & Hin & Hpost & ->)].
      * left. split; [done|]. intros entry [Hentry|Hentry]%elem_of_app.
        -- by apply Hnone.
        -- by apply list_elem_of_singleton in Hentry as ->.
      * right. exists pre, t, e, (post ++ [(tlds, endpoints)]).
        split_and!; [by rewrite <- app_assoc|done| |done].
        intros entry [Hentry|Hentry]%elem_of_app.
        -- by apply Hpost.
        -- by apply list_elem_of_singleton in Hentry as ->.
Qed.

End IndexFacts.

Section IndexClaims.
Import JS Contract Bootstrap.

Context {platform : Platform} {laws : PlatformLaws platform}.

(** X1. Every binding of the index has an origin in the snapshot: its key
    is lowercase, some entry lists a label whose lowercase form is the key,
    no later entry does, and the bound value is what the tie-break chose
    among that entry's endpoints, one of them whenever it is a URL. *)
Theorem index_binding_origin (snapshot : BootstrapData) (k : string)
    (v : option string) :
  index snapshot !! k = Some v ->
  toLowerCase k = k
  /\ exists pre tlds endpoints post,
       services snapshot = pre ++ (tlds, endpoints) :: post
       /\ k ∈ map toLowerCase tlds
       /\ (forall entry, entry ∈ post -> k ∉ map toLowerCase entry.1)
       /\ v = preferHttps endpoints
       /\ (forall u, v = Some u -> u ∈ endpoints).
Proof.
  unfold index, loadBootstrap. cbn [fst]. intros Hk.
  apply foldl_registerService_inv in Hk
    as [[Hempty _]|(pre & tlds & endpoints & post & Hsnap & Hin & Hpost & ->)].
  { by rewrite lookup_empty in Hempty. }
  split.
  - apply list_elem_of_In, in_map_iff in Hin as (t & <- & _).
    apply toLowerCase_idem.
  - exists pre, tlds, endpoints, post. split_and!; [done..|].
    intros u Hu. by apply preferHttps_elem.
Qed.

End IndexClaims.

(** ** [getTld] on arbitrary strings *)

Section GetTldFacts.
Import JS Contract.

Context {platform : Platform}.

Lemma split_chars_two (l : list ascii) :
  "."%char ∈ l -> (2 <= length (split_chars "." l))%nat.
Proof.
  induction l as [|c l IH]; [by intros ?%elem_of_nil|].
  intros Hin. cbn [split_chars].
  pose proof (split_chars_nonempty "." l) as Hne.
  destruct (Ascii.eqb_spec c ".") as [->|Hc].
  - destruct (split_chars "." l); [done|]. cbn. lia.
  - apply elem_of_cons in Hin as [Heq|Hin]; [congruence|].
    specialize (IH Hin). destruct (split_chars "." l); [done|]. exact IH.
Qed.

Lemma split_chars_parts (l : list ascii) :
  Forall (fun part => "."%char ∉ part) (split_chars "." l).
Proof.
  induction l as [|c l IH]; cbn [split_chars].
  - constructor; [by intros ?%elem_of_nil|constructor].
  - destruct (Ascii.eqb_spec c ".") as [->|Hc].
    + constructor; [by intros ?%elem_of_nil|done].
    + destruct (split_chars "." l) as [|part parts].
      * constructor; [|constructor].
        intros [?|?%elem_of_nil]%elem_of_cons; done.
      * apply Forall_cons in IH as [Hpart Hparts]. constructor; [|done].
        intros [?|?]%elem_of_cons; done.
Qed.

Lemma join_snoc (init : list (list ascii)) (l : list ascii) :
  init <> [] -> join (init ++ [l]) = join init ++ "."%char :: l.
Proof.
  destruct init as [|l0 ls]; [done|]. intros _. cbn.
  rewrite map_app, concat_app. cbn. by rewrite app_nil_r, app_assoc.
Qed.

Lemma str_app (a b : list ascii) : str (a ++ b) = str a +:+ str b.
Proof. induction a as [|c a IH]; [done|]. cbn. by rewrite IH. Qed.

(** X2. [getTld], which the two routes share, on any string: it returns
    [null] exactly when the lowercased string has no dot; otherwise it
    returns what follows the last dot of the lowercased string, itself free
    of dots (and empty when the string ends with a dot). *)
Theorem getTld_is_suffix_after_last_dot (d : string) :
  Verisign.getTld d = Bootstrap.getTld d
  /\ (Bootstrap.getTld d = None <-> ("."%char ∉ chars (toLowerCase d)))
  /\ (forall tld,
        Bootstrap.getTld d = Some tld ->
        ("."%char ∉ chars tld)
        /\ exists pre, toLowerCase d = pre +:+ "." +:+ tld).
Proof.
  split; [reflexivity|]. unfold Bootstrap.getTld, split.
  rewrite length_map.
  set (L := split_chars "." (chars (toLowerCase d))).
  destruct (Nat.ltb_spec (length L) 2) as [Hlen|Hlen].
  - split; [|done]. split; [intros _|done].
    intros Hin%split_chars_two. fold L in Hin. lia.
  - split.
    + split; [|intros Hno].
      * intros Hnone. apply lookup_ge_None in Hnone.
        rewrite length_map in Hnone. lia.
      * apply split_chars_no_dot in Hno. fold L in Hno. rewrite Hno in Hlen.
        cbn in Hlen. lia.
    + intros tld Htld.
      replace (length L - 1)%nat with (Nat.pred (length (map str L))) in Htld
        by (rewrite length_map; lia).
      rewrite <- last_lookup in Htld.
      change (map str L) with (str <$> L) in Htld. rewrite fmap_last in Htld.
      destruct (last L) as [l|] eqn:Hlast; [|done]. injection Htld as <-.
      apply last_Some in Hlast as [init Hinit].
      pose proof (split_chars_parts (chars (toLowerCase d))) as Hparts.
      fold L in Hparts. rewrite Hinit in Hparts.
      apply Forall_app in Hparts as [_ Hl]. apply Forall_inv in Hl.
      split; [by rewrite chars_str|].
      assert (init <> []) as Hne.
      { intros ->. rewrite Hinit in Hlen. cbn in Hlen. lia. }
      exists (str (join init)).
      rewrite <- (str_chars (toLowerCase d)) at 1.
      rewrite <- (join_split (chars (toLowerCase d))). fold L.
      rewrite Hinit, join_snoc by done. by rewrite str_app.
Qed.

End GetTldFacts.

(** ** Validation *)

Section ValidationClaims.
Import JS Contract.

Context {platform : Platform} {laws : PlatformLaws platform}.

(** X3. The pattern both handlers test the domain against accepts exactly
    the strings made of at least two labels separated by single dots, each
    label non-empty, made of lowercase letters, digits and hyphens, and
    neither starting nor ending with a hyphen. *)
Theorem domainRegex_accepts_exactly_strict_syntax (s : string) :
  (test Verisign.domainRegex s = true <-> strictLabelSyntax s)
  /\ (test Bootstrap.domainRegex s = true <-> strictLabelSyntax s).
Proof.
  rewrite verisign_domainRegex_same. split; apply domainRegex_strict.
Qed.

Lemma strict_charset (d : string) :
  test Bootstrap.domainRegex d = true ->
  Forall (fun c => ldh c = true \/ c = "."%char) (chars d)
  /\ (exists c, head (chars d) = Some c /\ alnum c = true)
  /\ (exists c, last (chars d) = Some c /\ alnum c = true)
  /\ toLowerCase d = d.
Proof.
  intros Hd%domainRegex_strict. pose proof Hd as [Hlen Hok].
  split_and!.
  - apply Forall_forall. intros c Hc.
    rewrite <- (join_split (chars d)) in Hc.
    apply join_chars in Hc as [->|(l & Hl & Hc)]; [by right|]. left.
    rewrite Forall_forall in Hok. destruct (Hok l Hl) as (_ & Hldh & _).
    rewrite Forall_forall in Hldh. by apply Hldh.
  - rewrite <- (join_split (chars d)).
    destruct (split_chars "." (chars d)) as [|l0 ls]; [cbn in Hlen; lia|].
    apply Forall_inv in Hok. destruct Hok as (Hne & _ & Hhead & _).
    destruct l0 as [|c l0]; [done|]. exists c. split; [done|]. by apply Hhead.
  - rewrite <- (join_split (chars d)).
    destruct (split_chars "." (chars d)) as [|l0 ls] using rev_ind;
      [cbn in Hlen; lia|].
    clear IHls. destruct (decide (ls = [])) as [->|Hls].
    { cbn in Hlen. lia. }
    rewrite join_snoc by done.
    apply Forall_app in Hok as [_ Hok]. apply Forall_inv in Hok.
    destruct Hok as (Hne & _ & _ & Hlast).
    destruct (last l0) as [c|] eqn:Hl0; [|by apply last_None in Hl0].
    exists c. split; [|by apply Hlast].
    apply last_Some in Hl0 as [l0' ->].
    change (join ls ++ "."%char :: l0' ++ [c])
      with (join ls ++ ("."%char :: l0') ++ [c]).
    by rewrite app_assoc, last_snoc.
  - by apply strict_lowercase.
Qed.

(** X4. A domain that passed validation is safe to splice into the request
    URL: every character is a lowercase letter, a digit, a hyphen or a dot
    (no slash, question mark, hash, space or uppercase letter), the first
    and the last are a letter or a digit, and lowercasing it again, as
    [getTld] does, changes nothing. *)
Theorem validated_domain_charset (d : string) :
  test Bootstrap.domainRegex d = true ->
  Forall (fun c => ldh c = true \/ c = "."%char) (chars d)
  /\ (exists c, head (chars d) = Some c /\ alnum c = true)
  /\ (exists c, last (chars d) = Some c /\ alnum c = true)
  /\ toLowerCase d = d.
Proof. apply strict_charset. Qed.

End ValidationClaims.

(** ** What the handlers fetch, and the module variable *)

Section FetchFacts.
Import JS Rdap Runtime Contract.

Context {platform : Platform} {laws : PlatformLaws platform}.

Variable dnsBootstrap : Bootstrap.BootstrapData.
Variable formatDate : string -> string.

Lemma prefix_app (p s : string) : String.prefix p (p +:+ s) = true.
Proof.
  induction p as [|c p IH]; [by destruct s|].
  change (String c p +:+ s) with (String c (p +:+ s)). cbn.
  destruct (ascii_dec c c); [exact IH|done].
Qed.

Lemma index_url_elem (k u : string) :
  index dnsBootstrap !! k = Some (Some u) ->
  exists entry, entry ∈ Bootstrap.services dnsBootstrap /\ u ∈ entry.2.
Proof.
  unfold index, Bootstrap.loadBootstrap. cbn [fst]. intros Hk.
  apply foldl_registerService_inv in Hk
    as [[Hempty _]|(pre & tlds & endpoints & post & Hsnap & _ & _ & Hu)].
  { by rewrite lookup_empty in Hempty. }
  exists (tlds, endpoints). split.
  - rewrite Hsnap. apply elem_of_app. right. left.
  - by apply preferHttps_elem.
Qed.

(** Whatever the module variable holds, resolution leaves a loaded map in
    place, and with a variable in one of its two sound states it resolves
    as from scratch. *)
Lemma getRdapUrl_loaded (m : gmap string (option string)) (d : string) :
  (Bootstrap.getRdapUrl dnsBootstrap (Some m) d).2 = Some m.
Proof.
  unfold Bootstrap.getRdapUrl.
  destruct (truthy (Bootstrap.getTld d)); cbn; [|done].
  by destruct (truthy _).
Qed.

Lemma getRdapUrl_cacheOk c (d : string) :
  cacheOk dnsBootstrap c ->
  (Bootstrap.getRdapUrl dnsBootstrap c d).1
  = (Bootstrap.getRdapUrl dnsBootstrap None d).1
  /\ cacheOk dnsBootstrap (Bootstrap.getRdapUrl dnsBootstrap c d).2.
Proof.
  intros Hc. unfold Bootstrap.getRdapUrl.
  destruct (truthy (Bootstrap.getTld d)); cbn [negb fst snd]; [|done].
  rewrite (loadBootstrap_cacheOk dnsBootstrap c Hc).
  rewrite (loadBootstrap_cacheOk dnsBootstrap None (or_introl eq_refl)).
  cbv beta iota zeta. destruct (truthy _); cbn; split; by try right.
Qed.

(** The response of the handler once the request is resolved is settled by
    the world, the domain and the endpoint. *)
Lemma bootstrap_GET_query_unique c1 c1' c2 c2' (input d url ep : string) (w : World)
    r1 r2 log1 log2 :
  toLowerCase (trim input) = d -> truthy (Some d) = true ->
  test Bootstrap.domainRegex d = true ->
  Bootstrap.getRdapUrl dnsBootstrap c1 d = (Some (url, ep), c1') ->
  Bootstrap.getRdapUrl dnsBootstrap c2 d = (Some (url, ep), c2') ->
  exec w (Bootstrap.GET dnsBootstrap formatDate c1 (Some input)) = ((r1, c1'), log1) ->
  exec w (Bootstrap.GET dnsBootstrap formatDate c2 (Some input)) = ((r2, c2'), log2) ->
  r1 = r2 /\ log1 = log2.
Proof.
  intros Hd Ht Hre H1 H2 E1 E2.
  destruct (bootstrap_GET_query dnsBootstrap formatDate c1 c1' input d url ep w
              Hd Ht Hre H1) as (r1' & E1' & S1 & A1 & B1 & C1 & D1 & F1).
  destruct (bootstrap_GET_query dnsBootstrap formatDate c2 c2' input d url ep w
              Hd Ht Hre H2) as (r2' & E2' & S2 & A2 & B2 & C2 & D2 & F2).
  rewrite E1 in E1'. rewrite E2 in E2'. simplify_eq. split; [|done].
  destruct r1' as [s1 b1], r2' as [s2 b2]. cbn in *. subst. f_equal.
  destruct (net w url) as [r|e] eqn:Hnet.
  - destruct (Z.eq_dec (resp_status r) 404) as [H404|H404].
    { by rewrite (B1 r eq_refl H404), (B2 r eq_refl H404). }
    destruct (ok r) eqn:Hok.
    + destruct (resp_json r) as [data|e] eqn:Hjson.
      * destruct (F1 r data eq_refl Hok Hjson) as (res1 & N1 & ->).
        destruct (F2 r data eq_refl Hok Hjson) as (res2 & N2 & ->).
        congruence.
      * by rewrite (D1 r e eq_refl Hok Hjson), (D2 r e eq_refl Hok Hjson).
    + by rewrite (C1 r eq_refl H404 Hok), (C2 r eq_refl H404 Hok).
  - by rewrite (A1 e eq_refl), (A2 e eq_refl).
Qed.

End FetchFacts.

Section HandlerShape.
Import JS Rdap Runtime Contract.

Context {platform : Platform} {laws : PlatformLaws platform}.

Variable dnsBootstrap : Bootstrap.BootstrapData.
Variable formatDate : string -> string.

(** The three ways through the bootstrap handler: rejected before
    resolution, rejected by resolution, or resolved and fetched once. *)
Lemma bootstrap_GET_shape c (param : option string) (w : World) :
  (exists msg,
      exec w (Bootstrap.GET dnsBootstrap formatDate c param)
      = ((Response_json (Failure msg None) (Some 400), c), []))
  \/ exists input d,
       param = Some input /\ d = toLowerCase (trim input)
       /\ truthy (Some d) = true /\ test Bootstrap.domainRegex d = true
       /\ ((exists c',
              Bootstrap.getRdapUrl dnsBootstrap c d = (None, c')
              /\ exec w (Bootstrap.GET dnsBootstrap formatDate c param)
                 = ((Response_json
                       (Failure (unsupportedMessage (Bootstrap.getTld d)) None)
                       (Some 400), c'), []))
           \/ exists url ep c' resp,
                Bootstrap.getRdapUrl dnsBootstrap c d = (Some (url, ep), c')
                /\ exec w (Bootstrap.GET dnsBootstrap formatDate c param)
                   = ((resp, c'), [url])).
Proof.
  destruct param as [input|]; [|left; by eexists].
  destruct (truthy (Some (toLowerCase (trim input)))) eqn:Ht; cycle 1.
  { left. unfold Bootstrap.GET. cbn [fmap option_fmap option_map]. rewrite Ht.
    by eexists. }
  destruct (test Bootstrap.domainRegex (toLowerCase (trim input))) eqn:Hre; cycle 1.
  { left. unfold Bootstrap.GET. cbn [fmap option_fmap option_map]. rewrite Ht.
    cbn [negb from_option]. unfold id. rewrite Hre. by eexists. }
  right. exists input, (toLowerCase (trim input)). split_and!; [done..|].
  destruct (Bootstrap.getRdapUrl dnsBootstrap c (toLowerCase (trim input)))
    as [[[url ep]|] c'] eqn:Hurl.
  - right.
    destruct (bootstrap_GET_query dnsBootstrap formatDate c c' input _ url ep w
                eq_refl Ht Hre Hurl) as (resp & Hexec & _).
    by exists url, ep, c', resp.
  - left. exists c'. split; [done|].
    unfold Bootstrap.GET. cbn [fmap option_fmap option_map]. rewrite Ht.
    cbn [negb from_option]. unfold id. rewrite Hre. cbn [negb]. by rewrite Hurl.
Qed.

(** The same for the Verisign handler. *)
Lemma verisign_GET_shape (param : option string) (w : World) :
  (exists msg,
      exec w (Verisign.GET formatDate param)
      = (Response_json (Failure msg None) (Some 400), []))
  \/ exists input d url resp,
       param = Some input /\ d = toLowerCase (trim input)
       /\ test Verisign.domainRegex d = true
       /\ Verisign.getRdapUrl d = Some url
       /\ exec w (Verisign.GET formatDate param) = (resp, [url]).
Proof.
  destruct param as [input|]; [|left; by eexists].
  destruct (truthy (Some (toLowerCase (trim input)))) eqn:Ht; cycle 1.
  { left. unfold Verisign.GET. cbn [fmap option_fmap option_map]. rewrite Ht.
    by eexists. }
  destruct (test Verisign.domainRegex (toLowerCase (trim input))) eqn:Hre; cycle 1.
  { left. unfold Verisign.GET. cbn [fmap option_fmap option_map]. rewrite Ht.
    cbn [negb from_option]. unfold id. rewrite Hre. by eexists. }
  destruct (Verisign.getRdapUrl (toLowerCase (trim input))) as [url|] eqn:Hurl.
  - right.
    destruct (verisign_GET_query formatDate input _ url w eq_refl Ht Hre Hurl
                (verisign_url_truthy _ _ Hurl)) as (resp & Hexec & _).
    by exists input, (toLowerCase (trim input)), url, resp.
  - left. unfold Verisign.GET. cbn [fmap option_fmap option_map]. rewrite Ht.
    cbn [negb from_option]. unfold id. rewrite Hre. cbn [negb]. rewrite Hurl.
    by eexists.
Qed.

(** On a valid domain the Verisign route resolves [com] and [net] and
    nothing else. *)
Lemma verisign_getRdapUrl_strict (d tld : string) :
  strictLabelSyntax d -> lastLabel d = Some tld ->
  Verisign.getRdapUrl d
  = if String.eqb tld "com" || String.eqb tld "net"
    then Some ("https://rdap.verisign.com/" +:+ tld +:+ "/v1/domain/" +:+ d)
    else None.
Proof.
  intros Hd Htld. destruct (getTld_strict d Hd) as (tld' & Hget & Hlast & _).
  assert (tld' = tld) as -> by congruence.
  unfold Verisign.getRdapUrl. rewrite getTld_same. by rewrite Hget.
Qed.

End HandlerShape.

Section BootstrapFetchClaims.
Import JS Rdap Runtime Contract.

Context {platform : Platform} {laws : PlatformLaws platform}.

Variable dnsBootstrap : Bootstrap.BootstrapData.
Variable formatDate : string -> string.

Lemma getRdapUrl_Some c c' (d url ep : string) :
  Bootstrap.getRdapUrl dnsBootstrap c d = (Some (url, ep), c') ->
  url = ep +:+ "domain/" +:+ d /\ truthy (Some ep) = true
  /\ exists tld m, Bootstrap.getTld d = Some tld
                   /\ (Bootstrap.loadBootstrap dnsBootstrap c).1 = m
                   /\ m !! tld = Some (Some ep).
Proof.
  unfold Bootstrap.getRdapUrl.
  destruct (Bootstrap.getTld d) as [tld|]; cbn [truthy negb]; [|done].
  destruct (negb (String.eqb tld "")); cbn [negb from_option]; [|done]. unfold id.
  destruct (Bootstrap.loadBootstrap dnsBootstrap c) as [m c''].
  destruct (m !! tld) as [[ep'|]|] eqn:Hm; cbn; [|done..].
  destruct (negb (String.eqb ep' "")) eqn:Hep; cbn; [|done].
  intros [= <- <- <-]. split_and!; [done..|]. by exists tld, m.
Qed.

(** X5. The bootstrap handler fetches at most one URL per request, and only
    a URL made of an endpoint listed in the snapshot, the path [domain/]
    and the validated, lowercased domain of the request. *)
Theorem fetches_only_snapshot_endpoints c (param : option string) (w : World) :
  cacheOk dnsBootstrap c ->
  let log := (exec w (Bootstrap.GET dnsBootstrap formatDate c param)).2 in
  (length log <= 1)%nat
  /\ Forall (fun url =>
               exists entry u input,
                 entry ∈ Bootstrap.services dnsBootstrap /\ u ∈ entry.2
                 /\ param = Some input
                 /\ strictLabelSyntax (toLowerCase (trim input))
                 /\ url = u +:+ "domain/" +:+ toLowerCase (trim input)) log.
Proof.
  intros Hc log. subst log.
  destruct (bootstrap_GET_shape dnsBootstrap formatDate c param w)
    as [[msg ->]|(input & d & -> & -> & Ht & Hre
                  & [(c' & _ & ->)|(url & ep & c' & resp & Hurl & ->)])];
    cbn [snd length]; (split; [lia|]); [constructor..|].
  constructor; [|constructor].
  apply getRdapUrl_Some in Hurl as (-> & _ & tld & m & _ & Hm & Hep).
  rewrite (loadBootstrap_cacheOk dnsBootstrap c Hc) in Hm. cbn in Hm. subst m.
  destruct (index_url_elem dnsBootstrap tld ep Hep) as (entry & Hentry & Hu).
  exists entry, ep, input. split_and!; [done..| |done].
  by apply domainRegex_strict.
Qed.

(** X6. The lazily loaded index is transparent: whether the module
    variable is still empty or already holds the index, the handler gives
    the same response and fetches the same URL; it leaves the variable
    empty or holding the index, and never replaces a loaded index. *)
Theorem cache_is_transparent c (param : option string) (w : World) :
  cacheOk dnsBootstrap c ->
  let warm := exec w (Bootstrap.GET dnsBootstrap formatDate c param) in
  let cold := exec w (Bootstrap.GET dnsBootstrap formatDate None param) in
  warm.1.1 = cold.1.1 /\ warm.2 = cold.2
  /\ cacheOk dnsBootstrap warm.1.2
  /\ (c = Some (index dnsBootstrap) -> warm.1.2 = c).
Proof.
  intros Hc warm cold. subst warm cold.
  destruct param as [input|]; [|by split_and!].
  destruct (truthy (Some (toLowerCase (trim input)))) eqn:Ht; cycle 1.
  { unfold Bootstrap.GET. cbn [fmap option_fmap option_map]. rewrite Ht.
    by split_and!. }
  destruct (test Bootstrap.domainRegex (toLowerCase (trim input))) eqn:Hre; cycle 1.
  { unfold Bootstrap.GET. cbn [fmap option_fmap option_map]. rewrite Ht.
    cbn [negb from_option]. unfold id. rewrite Hre. by split_and!. }
  destruct (getRdapUrl_cacheOk dnsBootstrap c (toLowerCase (trim input)) Hc)
    as [Hsame Hok].
  assert (c = Some (index dnsBootstrap) ->
          (Bootstrap.getRdapUrl dnsBootstrap c (toLowerCase (trim input))).2 = c)
    as Hkept by (intros ->; apply getRdapUrl_loaded).
  destruct (Bootstrap.getRdapUrl dnsBootstrap c (toLowerCase (trim input)))
    as [r1 c1] eqn:H1.
  destruct (Bootstrap.getRdapUrl dnsBootstrap None (toLowerCase (trim input)))
    as [r2 c2] eqn:H2.
  cbn [fst snd] in Hsame, Hok, Hkept. subst r2.
  destruct r1 as [[url ep]|].
  - destruct (bootstrap_GET_query dnsBootstrap formatDate c c1 input _ url ep w
                eq_refl Ht Hre H1) as (resp1 & E1 & _).
    destruct (bootstrap_GET_query dnsBootstrap formatDate None c2 input _ url ep w
                eq_refl Ht Hre H2) as (resp2 & E2 & _).
    destruct (bootstrap_GET_query_unique dnsBootstrap formatDate c c1 None c2
                input _ url ep w resp1 resp2 _ _ eq_refl Ht Hre H1 H2 E1 E2)
      as [-> _].
    rewrite E1, E2. by split_and!.
  - unfold Bootstrap.GET. cbn [fmap option_fmap option_map]. rewrite Ht.
    cbn [negb from_option]. unfold id. rewrite Hre. cbn [negb].
    rewrite H1, H2. by split_and!.
Qed.

(** X7. A TLD whose snapshot entry offers no usable endpoint (an empty
    endpoint list, or an empty string chosen by the tie-break) is answered
    like a TLD without entry: 400, the message naming it, nothing
    fetched. *)
Theorem tld_without_usable_endpoint_is_rejected c (input tld : string)
    pre tlds endpoints post (w : World) :
  cacheOk dnsBootstrap c ->
  strictLabelSyntax (toLowerCase (trim input)) ->
  lastLabel (toLowerCase (trim input)) = Some tld ->
  Bootstrap.services dnsBootstrap = pre ++ (tlds, endpoints) :: post ->
  tld ∈ map toLowerCase tlds ->
  (forall entry, entry ∈ post -> tld ∉ map toLowerCase entry.1) ->
  endpoints = [] \/ Bootstrap.preferHttps endpoints = Some "" ->
  exec w (Bootstrap.GET dnsBootstrap formatDate c (Some input))
  = ((Response_json (Failure (unsupportedMessage (Some tld)) None) (Some 400),
      Some (index dnsBootstrap)), []).
Proof.
  intros Hc Hd Htld Hsnap Hin Hpost Hbad.
  assert (index dnsBootstrap !! tld = Some (Bootstrap.preferHttps endpoints)) as Hidx.
  { unfold index, Bootstrap.loadBootstrap. cbn [fst]. rewrite Hsnap.
    by apply foldl_registerService_last. }
  assert (Bootstrap.getRdapUrl dnsBootstrap c (toLowerCase (trim input))
          = (None, Some (index dnsBootstrap))) as Hurl.
  { rewrite (getRdapUrl_strict dnsBootstrap c _ tld Hc Hd Htld), Hidx.
    by destruct Hbad as [->| ->]. }
  unfold Bootstrap.GET. cbn [fmap option_fmap option_map].
  rewrite (strict_truthy _ Hd). cbn [negb from_option]. unfold id.
  rewrite (proj2 (domainRegex_strict _) Hd). cbn [negb]. rewrite Hurl.
  destruct (getTld_strict _ Hd) as (tld' & -> & Hlast & _).
  by assert (tld' = tld) as -> by congruence.
Qed.

(** X8. The handler reports success only for what upstream said: when the
    body is a result, exactly one URL was fetched, made of the result's
    [rdapServer], [domain/] and the lowercased, trimmed input; upstream
    answered it with a 2xx status and a body that parsed to the result's
    [rawResponse]; the status is 200 and [queryTime] is the time measured
    right after the fetch. *)
Theorem success_reports_the_server_queried c (param : option string) (w : World)
    resp c' log (r : Bootstrap.result) :
  exec w (Bootstrap.GET dnsBootstrap formatDate c param) = ((resp, c'), log) ->
  resp_body resp = Success r ->
  exists input upstream,
    param = Some input
    /\ log = [Bootstrap.rdapServer r +:+ "domain/" +:+ toLowerCase (trim input)]
    /\ net w (Bootstrap.rdapServer r +:+ "domain/" +:+ toLowerCase (trim input))
       = Returns upstream
    /\ ok upstream = true
    /\ resp_json upstream = Returns (Bootstrap.rawResponse r)
    /\ http_status resp = 200
    /\ Bootstrap.success r = true
    /\ Bootstrap.queryTime r = elapsed w 1.
Proof.
  intros Hexec Hbody.
  destruct (bootstrap_GET_shape dnsBootstrap formatDate c param w)
    as [[msg E]|(input & d & -> & -> & Ht & Hre
                 & [(c'' & _ & E)|(url & ep & c'' & resp' & Hurl & E)])];
    rewrite Hexec in E; simplify_eq; try discriminate Hbody.
  destruct (bootstrap_GET_query dnsBootstrap formatDate c c'' input _ url ep w
              eq_refl Ht Hre Hurl) as (resp & E & Hstatus & A & B & C & D & F).
  rewrite Hexec in E. simplify_eq.
  apply getRdapUrl_Some in Hurl as (-> & _).
  destruct (net w _) as [up|e] eqn:Hnet; cycle 1.
  { rewrite (A e eq_refl) in Hbody. discriminate. }
  destruct (Z.eq_dec (resp_status up) 404) as [H404|H404].
  { rewrite (B up eq_refl H404) in Hbody. discriminate. }
  destruct (ok up) eqn:Hok; cycle 1.
  { rewrite (C up eq_refl H404 Hok) in Hbody. discriminate. }
  destruct (resp_json up) as [data|e] eqn:Hjson; cycle 1.
  { rewrite (D up e eq_refl Hok Hjson) in Hbody. discriminate. }
  destruct (F up data eq_refl Hok Hjson) as (result & Hnorm & Hres).
  rewrite Hres in Hbody. injection Hbody as ->.
  rewrite bootstrap_normalize_returns in Hnorm. injection Hnorm as <-.
  cbn [Bootstrap.rdapServer Bootstrap.rawResponse Bootstrap.success
       Bootstrap.queryTime].
  exists input, up. by split_and!.
Qed.

End BootstrapFetchClaims.

(** ** The Verisign route *)

Section VerisignClaims.
Import JS Rdap Runtime Contract.

Context {platform : Platform} {laws : PlatformLaws platform}.

Variable formatDate : string -> string.

(** X9. Rejections of the Verisign route. An input that is empty after
    trimming, or violates the strict label syntax, is answered 400 with an
    input-rejection message; a valid domain whose last label is neither
    [com] nor [net] is answered 400 with a message naming that label; in
    every such case nothing is fetched. *)
Theorem verisign_rejected_without_network (input : string) (w : World) :
  let d := toLowerCase (trim input) in
  let reply := exec w (Verisign.GET formatDate (Some input)) in
  (d = "" ->
     reply = (Response_json (Failure "Domain parameter is required" None) (Some 400), []))
  /\ (d <> "" -> ~ strictLabelSyntax d ->
      reply = (Response_json (Failure "Invalid domain format" None) (Some 400), []))
  /\ (forall tld,
        strictLabelSyntax d -> lastLabel d = Some tld ->
        tld <> "com" -> tld <> "net" ->
        reply = (Response_json (Failure (verisignUnsupportedMessage (Some tld)) None)
                   (Some 400), [])).
Proof.
  intros d reply. subst reply. unfold Verisign.GET.
  cbn [fmap option_fmap option_map]. fold d. split_and!.
  - intros ->. done.
  - intros Hne Hbad. apply String.eqb_neq in Hne.
    cbn [truthy]. rewrite Hne. cbn [negb from_option]. unfold id.
    destruct (test Verisign.domainRegex d) eqn:Hre; [|done].
    rewrite verisign_domainRegex_same in Hre. by apply domainRegex_strict in Hre.
  - intros tld Hstrict Htld Hcom Hnet.
    rewrite (strict_truthy d Hstrict). cbn [negb from_option]. unfold id.
    rewrite verisign_domainRegex_same, (proj2 (domainRegex_strict d) Hstrict).
    cbn [negb]. rewrite (verisign_getRdapUrl_strict d tld Hstrict Htld).
    apply String.eqb_neq in Hcom, Hnet. rewrite Hcom, Hnet. cbn.
    destruct (getTld_strict d Hstrict) as (tld' & Hget & Hlast & _).
    rewrite getTld_same, Hget. by assert (tld' = tld) as -> by congruence.
Qed.

(** X10. Outcomes of the Verisign route. For a valid [com] or [net] domain
    the handler fetches
    [https://rdap.verisign.com/<tld>/v1/domain/<domain>] once and answers
    200 with the elapsed time: "not found" on a 404, the status code on
    another status outside 200..299, the exception's message when [fetch]
    or [response.json()] throws, and the normalized result otherwise. *)
Theorem verisign_query_outcomes (input d tld : string) (w : World) :
  toLowerCase (trim input) = d ->
  strictLabelSyntax d -> lastLabel d = Some tld ->
  tld = "com" \/ tld = "net" ->
  let url := "https://rdap.verisign.com/" +:+ tld +:+ "/v1/domain/" +:+ d in
  exists resp,
    exec w (Verisign.GET formatDate (Some input)) = (resp, [url])
    /\ http_status resp = 200
    /\ (forall e, net w url = Throws e ->
          resp_body resp = Failure (Verisign.catchMessage e) (Some (elapsed w 1)))
    /\ (forall r, net w url = Returns r -> resp_status r = 404 ->
          resp_body resp = Failure (notFoundMessage d) (Some (elapsed w 1)))
    /\ (forall r, net w url = Returns r -> resp_status r <> 404 -> ok r = false ->
          resp_body resp = Failure (statusMessage (resp_status r)) (Some (elapsed w 1)))
    /\ (forall r e, net w url = Returns r -> ok r = true -> resp_json r = Throws e ->
          resp_body resp = Failure (Verisign.catchMessage e) (Some (elapsed w 2)))
    /\ (forall r data, net w url = Returns r -> ok r = true ->
          resp_json r = Returns data ->
          exists result,
            Verisign.normalize formatDate data (elapsed w 1) = Returns result
            /\ resp_body resp = Success result).
Proof.
  intros Hd Hstrict Htld Hsupported url.
  assert (Verisign.getRdapUrl d = Some url) as Hurl.
  { rewrite (verisign_getRdapUrl_strict d tld Hstrict Htld).
    by destruct Hsupported as [-> | ->]. }
  apply (verisign_GET_query formatDate input d url w Hd (strict_truthy d Hstrict)).
  - rewrite verisign_domainRegex_same. by apply domainRegex_strict.
  - done.
  - by apply (verisign_url_truthy d).
Qed.

(** X11. The Verisign handler fetches at most one URL per request, and only
    under [https://rdap.verisign.com/com/v1/domain/] or
    [https://rdap.verisign.com/net/v1/domain/]. *)
Theorem verisign_fetches_only_verisign (param : option string) (w : World) :
  let log := (exec w (Verisign.GET formatDate param)).2 in
  (length log <= 1)%nat
  /\ Forall (fun url =>
               startsWith "https://rdap.verisign.com/com/v1/domain/" url = true
               \/ startsWith "https://rdap.verisign.com/net/v1/domain/" url = true)
            log.
Proof.
  intros log. subst log.
  destruct (verisign_GET_shape formatDate param w)
    as [[msg ->]|(input & d & url & resp & -> & -> & _ & Hurl & ->)];
    cbn [snd length]; (split; [lia|]); [constructor|].
  constructor; [|constructor].
  unfold Verisign.getRdapUrl in Hurl.
  destruct (Verisign.getTld _) as [tld|]; [|done].
  destruct (String.eqb_spec tld "com") as [Hcom|_].
  - cbn in Hurl. injection Hurl as <-. left. rewrite Hcom.
    apply (prefix_app "https://rdap.verisign.com/com/v1/domain/").
  - destruct (String.eqb_spec tld "net") as [Hnet|_]; [|done].
    cbn in Hurl. injection Hurl as <-. right. rewrite Hnet.
    apply (prefix_app "https://rdap.verisign.com/net/v1/domain/").
Qed.

End VerisignClaims.

Section IndexScenarios.
Import JS Contract Bootstrap Scenario.

#[local] Existing Instance examplePlatform.
#[local] Existing Instance examplePlatform_laws.

Lemma index_binding_origin_witness :
  toLowerCase "net" = "net"
  /\ exists pre tlds endpoints post,
       [ (["COM"; "NET"], ["http://a.test/"; "https://b.test/"]) ]
         = pre ++ (tlds, endpoints) :: post
       /\ "net" ∈ map toLowerCase tlds
       /\ (forall entry, entry ∈ post -> "net" ∉ map toLowerCase entry.1)
       /\ Some "https://b.test/" = preferHttps endpoints
       /\ (forall u, Some "https://b.test/" = Some u -> u ∈ endpoints).
Proof.
  apply (index_binding_origin
           {| services := [ (["COM"; "NET"], ["http://a.test/"; "https://b.test/"]) ] |}
           "net" (Some "https://b.test/")).
  vm_compute. reflexivity.
Defined.

End IndexScenarios.

Section FurtherScenarios.
Import JS Rdap Runtime Contract Scenario Cases.

#[local] Existing Instance examplePlatform.
#[local] Existing Instance examplePlatform_laws.

Lemma validated_domain_charset_witness :
  Forall (fun c => ldh c = true \/ c = "."%char) (chars "my-site.example.com")
  /\ (exists c, head (chars "my-site.example.com") = Some c /\ alnum c = true)
  /\ (exists c, last (chars "my-site.example.com") = Some c /\ alnum c = true)
  /\ toLowerCase "my-site.example.com" = "my-site.example.com".
Proof.
  apply (validated_domain_charset "my-site.example.com"). vm_compute. reflexivity.
Defined.


Lemma fetches_only_snapshot_endpoints_witness :
  let log := (exec worldFound
                (Bootstrap.GET exampleSnapshot id None (Some " Example.COM "))).2 in
  (length log <= 1)%nat
  /\ Forall (fun url =>
               exists entry u input,
                 entry ∈ Bootstrap.services exampleSnapshot /\ u ∈ entry.2
                 /\ Some " Example.COM " = Some input
                 /\ strictLabelSyntax (toLowerCase (trim input))
                 /\ url = u +:+ "domain/" +:+ toLowerCase (trim input)) log.
Proof.
  exact (fetches_only_snapshot_endpoints exampleSnapshot id None
           (Some " Example.COM ") worldFound (or_introl eq_refl)).
Defined.

Lemma cache_is_transparent_witness :
  let warm := exec worldFound
                (Bootstrap.GET exampleSnapshot id (Some (index exampleSnapshot))
                   (Some "example.com")) in
  let cold := exec worldFound
                (Bootstrap.GET exampleSnapshot id None (Some "example.com")) in
  warm.1.1 = cold.1.1 /\ warm.2 = cold.2
  /\ cacheOk exampleSnapshot warm.1.2
  /\ (Some (index exampleSnapshot) = Some (index exampleSnapshot) ->
      warm.1.2 = Some (index exampleSnapshot)).
Proof.
  exact (cache_is_transparent exampleSnapshot id (Some (index exampleSnapshot))
           (Some "example.com") worldFound (or_intror eq_refl)).
Defined.

Lemma tld_without_usable_endpoint_is_rejected_witness :
  exec world404 (Bootstrap.GET sparseSnapshot id None (Some "example.zz"))
  = ((Response_json (Failure (unsupportedMessage (Some "zz")) None) (Some 400),
      Some (index sparseSnapshot)), []).
Proof.
  apply (tld_without_usable_endpoint_is_rejected sparseSnapshot id None
           "example.zz" "zz" [] ["zz"] []
           [(["com"], ["https://rdap.example-registry.test/"])] world404).
  - by left.
  - apply domainRegex_strict. vm_compute. reflexivity.
  - vm_compute. reflexivity.
  - reflexivity.
  - left.
  - intros entry Hentry. apply list_elem_of_singleton in Hentry as ->.
    cbn. intros H. by apply list_elem_of_singleton in H.
  - by left.
Defined.

Lemma success_reports_the_server_queried_witness :
  exists resp r input upstream,
    exec worldFound (Bootstrap.GET exampleSnapshot id None (Some "example.com"))
      = ((resp, Some (index exampleSnapshot)),
         ["https://rdap.example-registry.test/domain/example.com"])
    /\ resp_body resp = Success r
    /\ Some "example.com" = Some input
    /\ ["https://rdap.example-registry.test/domain/example.com"]
       = [Bootstrap.rdapServer r +:+ "domain/" +:+ toLowerCase (trim input)]
    /\ net worldFound
         (Bootstrap.rdapServer r +:+ "domain/" +:+ toLowerCase (trim input))
       = Returns upstream
    /\ ok upstream = true
    /\ resp_json upstream = Returns (Bootstrap.rawResponse r)
    /\ http_status resp = 200
    /\ Bootstrap.success r = true
    /\ Bootstrap.queryTime r = elapsed worldFound 1.
Proof.
  destruct (exec worldFound
              (Bootstrap.GET exampleSnapshot id None (Some "example.com")))
    as [[resp c'] log] eqn:Hexec.
  pose proof Hexec as Hrun. vm_compute in Hrun. injection Hrun as <- <- <-.
  eexists _, _.
  destruct (success_reports_the_server_queried exampleSnapshot id None
              (Some "example.com") worldFound _ _ _ _ Hexec eq_refl)
    as (input & upstream & H).
  exists input, upstream. split; [reflexivity|]. split; [reflexivity|]. exact H.
Defined.

Lemma verisign_rejected_without_network_witness :
  exec world404 (Verisign.GET id (Some "not a domain"))
    = (Response_json (Failure "Invalid domain format" None) (Some 400), [])
  /\ exec world404 (Verisign.GET id (Some "Example.ORG"))
    = (Response_json (Failure (verisignUnsupportedMessage (Some "org")) None)
         (Some 400), []).
Proof.
  split.
  - apply (proj1 (proj2 (verisign_rejected_without_network id "not a domain" world404))).
    + discriminate.
    + intros Hstrict%domainRegex_strict. vm_compute in Hstrict. discriminate.
  - apply (proj2 (proj2 (verisign_rejected_without_network id "Example.ORG" world404))).
    + apply domainRegex_strict. vm_compute. reflexivity.
    + vm_compute. reflexivity.
    + discriminate.
    + discriminate.
Defined.

Lemma verisign_query_outcomes_witness :
  exists resp,
    exec world404 (Verisign.GET id (Some "Example.NET"))
      = (resp, ["https://rdap.verisign.com/net/v1/domain/example.net"])
    /\ http_status resp = 200
    /\ resp_body resp = Failure (notFoundMessage "example.net") (Some 4).
Proof.
  destruct (verisign_query_outcomes id "Example.NET" "example.net" "net" world404)
    as (resp & Hexec & Hstatus & _ & H404 & _).
  - reflexivity.
  - apply domainRegex_strict. vm_compute. reflexivity.
  - vm_compute. reflexivity.
  - by right.
  - exists resp. split_and!; [exact Hexec|exact Hstatus|].
    exact (H404 _ eq_refl eq_refl).
Defined.

End FurtherScenarios.

(** ** The lookup island *)

Section HashFacts.
Import JS Contract Island.

Lemma hashTail_lang (w : list ascii) :
  lang hashTail w <->
  exists slash ws, w = slash ++ ws /\ (slash = [] \/ slash = ["/"%char])
                   /\ Forall (fun c => Ascii.is_space c = true) ws.
Proof.
  unfold hashTail, ReOpt.
  change (lang (ReCat ?a ?b) w)
    with (exists s1 s2, w = s1 ++ s2 /\ lang a s1 /\ lang b s2).
  split.
  - intros (s1 & s2 & -> & Hs1 & Hs2). apply lang_star_class in Hs2.
    exists s1, s2. split_and!; [done| |done].
    destruct Hs1 as [(c & -> & Hc)|Hs1]; [|by left].
    right. apply Ascii.eqb_eq in Hc. by subst.
  - intros (slash & ws & -> & Hslash & Hws). exists slash, ws.
    split_and!; [done| |by apply lang_star_class].
    destruct Hslash as [-> | ->]; [by right|left]. by exists "/"%char.
Qed.

(** A word with a character that is neither a slash nor white space is no
    tail. *)
Lemma hashTail_refuses (w : list ascii) (z : ascii) :
  z ∈ w -> z <> "/"%char -> Ascii.is_space z = false ->
  match_chars hashTail w = false.
Proof.
  intros Hz Hslash Hspace. apply not_true_is_false.
  intros (slash & ws & -> & Hs & Hws)%match_chars_lang%hashTail_lang.
  apply elem_of_app in Hz as [Hz|Hz].
  - destruct Hs as [-> | ->]; [by apply elem_of_nil in Hz|].
    by apply list_elem_of_singleton in Hz.
  - rewrite Forall_forall in Hws. specialize (Hws z Hz). congruence.
Qed.

Lemma lazyGroup_sound (rest taken p : list ascii) :
  lazyGroup taken rest = Some p ->
  exists more tail,
    p = taken ++ more /\ rest = more ++ tail /\ lang hashTail tail
    /\ Forall (fun c => lineTerminator c = false) more.
Proof.
  revert taken. induction rest as [|c rest IH]; intros taken; cbn [lazyGroup].
  - destruct (match_chars hashTail []) eqn:Hm; [|done]. intros [= <-].
    exists [], []. rewrite app_nil_r. split_and!; [done..| |constructor].
    by apply match_chars_lang.
  - destruct (match_chars hashTail (c :: rest)) eqn:Hm.
    + intros [= <-]. exists [], (c :: rest). rewrite app_nil_r.
      split_and!; [done..| |constructor]. by apply match_chars_lang.
    + destruct (lineTerminator c) eqn:Hc; [done|]. intros Hp.
      destruct (IH _ Hp) as (more & tail & -> & -> & Htail & Hmore).
      exists (c :: more), tail. rewrite <- app_assoc.
      split_and!; [done..|]. by constructor.
Qed.

Lemma lazyGroup_shortest (rest taken more : list ascii) :
  lazyGroup taken rest = Some (taken ++ more) ->
  forall more' tail',
    rest = more' ++ tail' -> lang hashTail tail' ->
    (length more <= length more')%nat.
Proof.
  revert taken more. induction rest as [|c rest IH]; intros taken more;
    cbn [lazyGroup].
  - destruct (match_chars hashTail []); [|done]. intros [= Hp].
    rewrite <- (app_nil_r taken) in Hp at 1. apply app_inv_head in Hp as <-.
    intros; cbn; lia.
  - destruct (match_chars hashTail (c :: rest)) eqn:Hm.
    + intros [= Hp]. rewrite <- (app_nil_r taken) in Hp at 1.
      apply app_inv_head in Hp as <-. intros; cbn; lia.
    + destruct (lineTerminator c); [done|]. intros Hp more' tail' Hrest Htail.
      destruct more' as [|c' more'].
      { cbn in Hrest. subst tail'. apply match_chars_lang in Htail. congruence. }
      injection Hrest as <- ->.
      destruct (lazyGroup_sound _ _ _ Hp) as (m & t & Hm' & _).
      rewrite <- app_assoc in Hm'. apply app_inv_head in Hm' as ->.
      rewrite (app_assoc taken [c] m) in Hp.
      specialize (IH _ _ Hp more' tail' eq_refl Htail). cbn. lia.
Qed.

Lemma lazyGroup_exact (more taken tail : list ascii) :
  lang hashTail tail ->
  Forall (fun c => lineTerminator c = false) more ->
  (forall z, last more = Some z -> z <> "/"%char /\ Ascii.is_space z = false) ->
  lazyGroup taken (more ++ tail) = Some (taken ++ more).
Proof.
  intros Htail. revert taken.
  induction more as [|c more IH]; intros taken Hlt Hlast.
  - cbn [app]. rewrite app_nil_r.
    apply match_chars_lang in Htail. destruct tail; cbn [lazyGroup]; by rewrite Htail.
  - destruct (last (c :: more)) as [z|] eqn:Hz; [|by apply last_None in Hz].
    destruct (Hlast z eq_refl) as [Hslash Hspace].
    cbn [app lazyGroup].
    rewrite (hashTail_refuses (c :: more ++ tail) z); [|..|done|done].
    + apply Forall_cons in Hlt as [-> Hlt].
      rewrite IH; [by rewrite <- app_assoc|done|].
      intros z' Hz'. apply Hlast. destruct more; [done|].
      rewrite <- Hz'. symmetry. exact Hz.
    + apply last_Some_elem_of in Hz.
      change (c :: more ++ tail) with ((c :: more) ++ tail).
      apply elem_of_app. by left.
Qed.

End HashFacts.

Section HashClaims.
Import JS Contract Island.

Lemma chars_app (a b : string) : chars (a +:+ b) = chars a ++ chars b.
Proof.
  induction a as [|c a IH]; [done|].
  change (String c a +:+ b) with (String c (a +:+ b)). cbn. by rewrite IH.
Qed.

Lemma chars_inj (a b : string) : chars a = chars b -> a = b.
Proof. intros H. by rewrite <- (str_chars a), <- (str_chars b), H. Qed.

Lemma tail_chars (slash ws : string) :
  slash = "" \/ slash = "/" ->
  Forall (fun c => Ascii.is_space c = true) (chars ws) ->
  lang hashTail (chars slash ++ chars ws).
Proof.
  intros Hslash Hws. apply hashTail_lang. exists (chars slash), (chars ws).
  split_and!; [done| |done]. destruct Hslash as [-> | ->]; [by left|by right].
Qed.

Lemma parseHash_exact (pathname d : string) (z : ascii) :
  last (chars d) = Some z -> z <> "/"%char -> Ascii.is_space z = false ->
  Forall (fun c => lineTerminator c = false) (chars d) ->
  parseHash (updateHash pathname d) = Some d
  /\ forall slash ws,
       slash = "" \/ slash = "/" ->
       Forall (fun c => Ascii.is_space c = true) (chars ws) ->
       parseHash ("#" +:+ d +:+ slash +:+ ws) = Some d.
Proof.
  intros Hz Hslash Hspace Hlt.
  assert (forall slash ws,
            slash = "" \/ slash = "/" ->
            Forall (fun c => Ascii.is_space c = true) (chars ws) ->
            parseHash ("#" +:+ d +:+ slash +:+ ws) = Some d) as Hread.
  { intros slash ws Hs Hws. unfold parseHash.
    rewrite !chars_app. change (chars "#") with ["#"%char]. cbn [app].
    destruct (chars d) as [|c rest] eqn:Hd; [done|]. cbn [app].
    apply Forall_cons in Hlt as [-> Hlt].
    rewrite (lazyGroup_exact rest [c] _ (tail_chars slash ws Hs Hws) Hlt).
    - cbn. f_equal. change (String c (str rest)) with (str (c :: rest)).
      by rewrite <- Hd, str_chars.
    - intros z' Hz'. destruct rest as [|c' rest']; [done|].
      rewrite last_cons_cons in Hz. by simplify_eq. }
  split; [|exact Hread].
  unfold updateHash. destruct d as [|c d]; [done|]. cbn [truthy String.eqb negb].
  specialize (Hread "" "" (or_introl eq_refl) ltac:(constructor)).
  etrans; [|exact Hread]. f_equal. apply chars_inj. rewrite !chars_app. cbn.
  by rewrite !app_nil_r.
Qed.



(** X13. What [parseHash] returns on a hash in ASCII. When it returns a
    group, the hash is a [#], the group, then an optional slash and white
    space to the end; the group is not empty, holds no line terminator, and
    is the shortest such reading of the hash. *)
Theorem parseHash_group_is_shortest (h p : string) :
  isAscii h = true ->
  parseHash h = Some p ->
  p <> ""
  /\ Forall (fun c => lineTerminator c = false) (chars p)
  /\ (exists slash ws,
        h = "#" +:+ p +:+ slash +:+ ws /\ (slash = "" \/ slash = "/")
        /\ Forall (fun c => Ascii.is_space c = true) (chars ws))
  /\ (forall p' slash ws,
        p' <> "" -> h = "#" +:+ p' +:+ slash +:+ ws ->
        slash = "" \/ slash = "/" ->
        Forall (fun c => Ascii.is_space c = true) (chars ws) ->
        (length (chars p) <= length (chars p'))%nat).
Proof.
  intros _.
  unfold parseHash. destruct (chars h) as [|c0 [|c rest]] eqn:Hh; [done| |].
  { by destruct c0 as [[] [] [] [] [] [] [] []]. }
  assert (c0 = "#"%char -> lineTerminator c = false ->
          forall q, lazyGroup [c] rest = Some q -> p = str q ->
          p <> ""
          /\ Forall (fun c => lineTerminator c = false) (chars p)
          /\ (exists slash ws,
                h = "#" +:+ p +:+ slash +:+ ws /\ (slash = "" \/ slash = "/")
                /\ Forall (fun c => Ascii.is_space c = true) (chars ws))
          /\ (forall p' slash ws,
                p' <> "" -> h = "#" +:+ p' +:+ slash +:+ ws ->
                slash = "" \/ slash = "/" ->
                Forall (fun c => Ascii.is_space c = true) (chars ws) ->
                (length (chars p) <= length (chars p'))%nat)) as Hmain.
  { intros -> Hc q Hq ->.
    destruct (lazyGroup_sound _ _ _ Hq) as (more & tail & -> & -> & Htail & Hmore).
    apply hashTail_lang in Htail as (slash & ws & -> & Hslash & Hws).
    rewrite chars_str. split_and!.
    - done.
    - by constructor.
    - exists (str slash), (str ws). rewrite !chars_str. split_and!.
      + apply chars_inj. by rewrite Hh, !chars_app, !chars_str.
      + destruct Hslash as [-> | ->]; [by left|by right].
      + done.
    - intros p' slash' ws' Hp' Hh' Hslash' Hws'.
      apply (f_equal chars) in Hh'. rewrite Hh, !chars_app in Hh'.
      destruct (chars p') as [|c' more'] eqn:Hcp'.
      { exfalso. apply Hp'. apply chars_inj. by rewrite Hcp'. }
      cbn in Hh'. injection Hh' as -> Hrest.
      pose proof (lazyGroup_shortest _ [c'] more Hq more'
                    (chars slash' ++ chars ws') Hrest
                    (tail_chars slash' ws' Hslash' Hws')).
      cbn. lia. }
  destruct c0 as [[] [] [] [] [] [] [] []]; try done.
  destruct (lineTerminator c) eqn:Hc; [done|].
  destruct (lazyGroup [c] rest) as [q|] eqn:Hq; [|done].
  cbn. intros [= <-]. by apply (Hmain eq_refl eq_refl q).
Qed.

Lemma parseHash_group_is_shortest_witness :
  "a/" <> ""
  /\ Forall (fun c => lineTerminator c = false) (chars "a/")
  /\ (exists slash ws,
        "#a// " = "#" +:+ "a/" +:+ slash +:+ ws /\ (slash = "" \/ slash = "/")
        /\ Forall (fun c => Ascii.is_space c = true) (chars ws))
  /\ (forall p' slash ws,
        p' <> "" -> "#a// " = "#" +:+ p' +:+ slash +:+ ws ->
        slash = "" \/ slash = "/" ->
        Forall (fun c => Ascii.is_space c = true) (chars ws) ->
        (length (chars "a/") <= length (chars p'))%nat).
Proof.
  apply (parseHash_group_is_shortest "#a// " "a/"); vm_compute; reflexivity.
Defined.

End HashClaims.

Section StatusFacts.
Import JS Island Label.

Lemma space_lower (c : ascii) : Ascii.is_space (lower_char c) = Ascii.is_space c.
Proof. destruct c as [[] [] [] [] [] [] [] []]; reflexivity. Qed.

Lemma space_upper (c : ascii) : Ascii.is_space (upper_char c) = Ascii.is_space c.
Proof. destruct c as [[] [] [] [] [] [] [] []]; reflexivity. Qed.

Lemma lower_upper (c : ascii) : lower_char (upper_char c) = lower_char c.
Proof. destruct c as [[] [] [] [] [] [] [] []]; reflexivity. Qed.

Lemma letters_cons (c : ascii) (l : list ascii) :
  letters (c :: l)
  = if Ascii.is_space c then letters l else lower_char c :: letters l.
Proof.
  unfold letters. cbn [map]. rewrite filter_cons, space_lower.
  by destruct (Ascii.is_space c).
Qed.

Lemma letters_app (a b : list ascii) : letters (a ++ b) = letters a ++ letters b.
Proof. unfold letters. by rewrite map_app, filter_app. Qed.

Lemma letters_rev (l : list ascii) : letters (rev l) = rev (letters l).
Proof.
  induction l as [|c l IH]; [done|]. cbn [rev].
  rewrite letters_app, IH, (letters_cons c l), (letters_cons c []).
  destruct (Ascii.is_space c); [by rewrite app_nil_r|done].
Qed.

Lemma letters_trimStart (l : list ascii) : letters (trimStart_chars l) = letters l.
Proof.
  induction l as [|c l IH]; [done|]. cbn [trimStart_chars].
  destruct (Ascii.is_space c) eqn:Hc; [|done]. by rewrite IH, letters_cons, Hc.
Qed.

Lemma letters_trim (s : string) : letters (chars (asciiTrim s)) = letters (chars s).
Proof.
  unfold asciiTrim. rewrite chars_str.
  by rewrite letters_rev, letters_trimStart, letters_rev, rev_involutive,
    letters_trimStart.
Qed.

Lemma letters_upperFirst (l : list ascii) : letters (upperFirst l) = letters l.
Proof.
  destruct l as [|c l]; [done|]. cbn [upperFirst].
  destruct (lineTerminator c); [done|].
  by rewrite !letters_cons, space_upper, lower_upper.
Qed.

Lemma letters_spaceCapitals (l : list ascii) :
  letters (spaceCapitals l) = letters l.
Proof.
  induction l as [|c l IH]; [done|]. unfold spaceCapitals in *. cbn [flat_map].
  rewrite letters_app, IH, (letters_cons c l).
  destruct (is_upper c).
  - rewrite (letters_cons " " [c]). cbn [Ascii.is_space].
    rewrite (letters_cons c []). by destruct (Ascii.is_space c).
  - rewrite (letters_cons c []). by destruct (Ascii.is_space c).
Qed.

Lemma spaceCapitals_lowercase (l : list ascii) :
  Forall (fun c => is_upper c = false) l -> spaceCapitals l = l.
Proof.
  induction 1 as [|c l Hc _ IH]; [done|]. unfold spaceCapitals in *.
  cbn [flat_map]. by rewrite Hc, IH.
Qed.

Lemma upper_char_ascii (c : ascii) : is_ascii c = true -> is_ascii (upper_char c) = true.
Proof. destruct c as [[] [] [] [] [] [] [] []]; vm_compute; congruence. Qed.

Lemma spaceCapitals_ascii (l : list ascii) :
  Forall (fun c => is_ascii c = true) l ->
  Forall (fun c => is_ascii c = true) (spaceCapitals l).
Proof.
  induction 1 as [|c l Hc _ IH]; [constructor|]. unfold spaceCapitals in *.
  cbn [flat_map]. destruct (is_upper c); repeat (constructor; [done|]); done.
Qed.

Lemma upperFirst_ascii (l : list ascii) :
  Forall (fun c => is_ascii c = true) l ->
  Forall (fun c => is_ascii c = true) (upperFirst l).
Proof.
  intros Hl. destruct Hl as [|c l Hc Hl]; [constructor|]. cbn [upperFirst].
  destruct (lineTerminator c); constructor; try done. by apply upper_char_ascii.
Qed.

Section Platform.

Context {platform : Platform} {laws : PlatformLaws platform}.

(** On ASCII text the callback of [capitalizeFirst] uppercases one ASCII
    character. *)
Lemma capitalizeFirst_ascii (l : list ascii) :
  Forall (fun c => is_ascii c = true) l -> capitalizeFirst l = upperFirst l.
Proof.
  intros Hl. destruct Hl as [|c l Hc Hl]; [done|].
  cbn [capitalizeFirst upperFirst]. destruct (lineTerminator c); [done|].
  rewrite (toUpperCase_ascii (str [c])).
  - unfold asciiUpperCase. by rewrite !chars_str.
  - apply isAscii_forall. rewrite chars_str. by constructor.
Qed.

(** [formatStatus] on ASCII text, in terms of what the platform's functions
    do there. *)
Lemma formatStatus_ascii (status : string) :
  isAscii status = true ->
  formatStatus status = asciiTrim (str (upperFirst (spaceCapitals (chars status)))).
Proof.
  intros Hs%isAscii_forall. unfold formatStatus.
  pose proof (spaceCapitals_ascii _ Hs) as Hspaced.
  rewrite (capitalizeFirst_ascii _ Hspaced). apply trim_ascii.
  apply isAscii_forall. rewrite chars_str. by apply upperFirst_ascii.
Qed.

End Platform.

End StatusFacts.

Section IslandClaims.
Import JS Island Label.

Context {platform : Platform} {laws : PlatformLaws platform}.

(** X14. On a status in ASCII, [formatStatus] only touches the spacing and
    the case: the characters of its result that are not white space are,
    up to case and in order, those of the status. On a status written the
    RDAP way, without capital letters and without white space at either end
    ("client transfer prohibited"), the result is the status with its first
    character uppercased. *)
Theorem formatStatus_keeps_the_words (status : string) :
  isAscii status = true ->
  letters (chars (formatStatus status)) = letters (chars status)
  /\ (forall c rest,
        chars status = c :: rest ->
        Forall (fun x => is_upper x = false) (chars status) ->
        Ascii.is_space c = false ->
        (forall z, last (chars status) = Some z -> Ascii.is_space z = false) ->
        formatStatus status = str (upper_char c :: rest)).
Proof.
  intros Hascii. rewrite (formatStatus_ascii status Hascii). split.
  - by rewrite letters_trim, chars_str, letters_upperFirst,
      letters_spaceCapitals.
  - intros c rest Hs Hlower Hc Hz.
    rewrite (spaceCapitals_lowercase _ Hlower), Hs. cbn [upperFirst].
    assert (lineTerminator c = false) as ->.
    { destruct c as [[] [] [] [] [] [] [] []]; done. }
    apply asciiTrim_id.
    + intros c' [= <-]. by rewrite space_upper.
    + intros z. destruct rest as [|c' rest'].
      * intros [= <-]. by rewrite space_upper.
      * rewrite last_cons_cons. intros Hlast. apply Hz.
        by rewrite Hs, last_cons_cons.
Qed.


End IslandClaims.

Section DeepLinkClaims.
Import JS Contract Island.

Context {platform : Platform} {laws : PlatformLaws platform}.

Lemma ldh_plain (c : ascii) :
  ldh c = true \/ c = "."%char ->
  lineTerminator c = false /\ Ascii.is_space c = false /\ c <> "/"%char.
Proof.
  destruct c as [[] [] [] [] [] [] [] []]; vm_compute; intuition congruence.
Qed.

(** X16. A deep link to a valid domain starts the lookup of that domain:
    [parseHash] reads the domain back from the URL [updateHash] wrote for
    it, and [handleLookup], with that domain in the input, sends the API a
    request for exactly it, since trimming and lowercasing leave a valid
    domain as it is. *)
Theorem valid_domain_deep_link {R : Type} (pathname d : string) (st : state R) :
  test Bootstrap.domainRegex d = true ->
  parseHash (updateHash pathname d) = Some d
  /\ (domain R st = d ->
      exists meanwhile k, handleLookup R st = Request R d meanwhile k).
Proof.
  intros Hd. destruct (strict_charset d Hd) as (Hall & (c0 & Hc0 & Ha0) & (z & Hz & Haz) & Hlow).
  rewrite Forall_forall in Hall.
  assert (forall c, c ∈ chars d ->
            lineTerminator c = false /\ Ascii.is_space c = false /\ c <> "/"%char)
    as Hplain by (intros c Hc; by apply ldh_plain, Hall).
  assert (z ∈ chars d) as Hzin by (by apply last_Some_elem_of).
  destruct (Hplain z Hzin) as (_ & Hzs & Hzslash).
  split.
  - apply (parseHash_exact pathname d z Hz Hzslash Hzs).
    apply Forall_forall. intros c Hc. by apply Hplain.
  - intros Hst. unfold handleLookup. rewrite Hst.
    rewrite (strict_requested d (proj1 (domainRegex_strict d) Hd)).
    assert (truthy (Some d) = true) as ->.
    { destruct d; [done|done]. }
    cbn [negb]. by eexists _, _.
Qed.

End DeepLinkClaims.

Section IslandScenarios.
Import JS Contract Island Scenario.

#[local] Existing Instance examplePlatform.
#[local] Existing Instance examplePlatform_laws.

Lemma formatStatus_keeps_the_words_witness :
  formatStatus "client transfer prohibited" = "Client transfer prohibited".
Proof.
  apply (proj2 (formatStatus_keeps_the_words "client transfer prohibited" eq_refl)
           "c"%char (chars "lient transfer prohibited")).
  - reflexivity.
  - repeat constructor.
  - reflexivity.
  - intros z [= <-]. reflexivity.
Defined.

Lemma valid_domain_deep_link_witness :
  parseHash (updateHash "/" "example.com") = Some "example.com"
  /\ exists meanwhile k,
       handleLookup nat {| domain := "example.com"; isLoading := false;
                           result := None; error := None |}
       = Request nat "example.com" meanwhile k.
Proof.
  destruct (valid_domain_deep_link (R := nat) "/" "example.com"
              {| domain := "example.com"; isLoading := false;
                 result := None; error := None |}) as [Hhash Hask].
  - vm_compute. reflexivity.
  - split; [exact Hhash|]. exact (Hask eq_refl).
Defined.

End IslandScenarios.

(** ** Elapsed time *)

Section ElapsedClaims.
Import JS Rdap Runtime Contract.

Context {platform : Platform} {laws : PlatformLaws platform}.

Variable dnsBootstrap : Bootstrap.BootstrapData.
Variable formatDate : string -> string.

Lemma Math_round_nonneg (x : Q) : (0 <= x)%Q -> 0 <= Math_round x.
Proof.
  intros Hx. unfold Math_round.
  change 0 with (Qfloor 0). apply Qfloor_resp_le.
  apply Qle_trans with x; [done|].
  rewrite <- (Qplus_0_r x) at 1. apply Qplus_le_r. done.
Qed.

Lemma elapsed_nonneg (w : World) (i : nat) :
  (forall i j, (i <= j)%nat -> (now w i <= now w j)%Q) -> 0 <= elapsed w i.
Proof.
  intros Hmono. apply Math_round_nonneg, number_minus_sign, Hmono. lia.
Qed.

(** X17. With a clock that never runs backwards, as [performance.now()]
    is, no response reports a negative [queryTime], on either route: a
    failure after the fetch and a success both carry one that is zero or
    more, and only the 400 rejections carry none. *)
Theorem queryTime_is_not_negative c (param : option string) (w : World) :
  (forall i j, (i <= j)%nat -> (now w i <= now w j)%Q) ->
  let resp := (exec w (Bootstrap.GET dnsBootstrap formatDate c param)).1.1 in
  let vresp := (exec w (Verisign.GET formatDate param)).1 in
  match resp_body resp with
  | Failure _ (Some qt) => 0 <= qt
  | Failure _ None => http_status resp = 400
  | Success r => 0 <= Bootstrap.queryTime r
  end
  /\ match resp_body vresp with
     | Failure _ (Some qt) => 0 <= qt
     | Failure _ None => http_status vresp = 400
     | Success r => 0 <= Verisign.queryTime r
     end.
Proof.
  intros Hmono resp vresp. subst resp vresp.
  pose proof (elapsed_nonneg w 1 Hmono) as H1.
  pose proof (elapsed_nonneg w 2 Hmono) as H2.
  split.
  - destruct (bootstrap_GET_shape dnsBootstrap formatDate c param w)
      as [[msg ->]|(input & d & -> & -> & Ht & Hre
                    & [(c' & _ & ->)|(url & ep & c' & resp & Hurl & E)])];
      [done..|].
    destruct (bootstrap_GET_query dnsBootstrap formatDate c c' input _ url ep w
                eq_refl Ht Hre Hurl) as (resp' & E' & _ & A & B & C & D & F).
    rewrite E in E'. simplify_eq. rewrite E. cbn [fst].
    destruct (net w url) as [up|e] eqn:Hnet; [|by rewrite (A e eq_refl)].
    destruct (Z.eq_dec (resp_status up) 404) as [H404|H404];
      [by rewrite (B up eq_refl H404)|].
    destruct (ok up) eqn:Hok; [|by rewrite (C up eq_refl H404 Hok)].
    destruct (resp_json up) as [data|e] eqn:Hjson;
      [|by rewrite (D up e eq_refl Hok Hjson)].
    destruct (F up data eq_refl Hok Hjson) as (result & Hnorm & ->).
    rewrite bootstrap_normalize_returns in Hnorm. by injection Hnorm as <-.
  - destruct (verisign_GET_shape formatDate param w)
      as [[msg ->]|(input & d & url & resp & -> & -> & Hre & Hurl & E)];
      [done|].
    assert (truthy (Some (toLowerCase (trim input))) = true) as Ht.
    { destruct (toLowerCase (trim input)); [|done]. by vm_compute in Hre. }
    destruct (verisign_GET_query formatDate input _ url w eq_refl Ht Hre Hurl
                (verisign_url_truthy _ _ Hurl))
      as (resp' & E' & _ & A & B & C & D & F).
    rewrite E in E'. simplify_eq. rewrite E. cbn [fst].
    destruct (net w url) as [up|e] eqn:Hnet; [|by rewrite (A e eq_refl)].
    destruct (Z.eq_dec (resp_status up) 404) as [H404|H404];
      [by rewrite (B up eq_refl H404)|].
    destruct (ok up) eqn:Hok; [|by rewrite (C up eq_refl H404 Hok)].
    destruct (resp_json up) as [data|e] eqn:Hjson;
      [|by rewrite (D up e eq_refl Hok Hjson)].
    destruct (F up data eq_refl Hok Hjson) as (result & Hnorm & ->).
    rewrite verisign_normalize_returns in Hnorm. by injection Hnorm as <-.
Qed.

End ElapsedClaims.

Section ElapsedScenario.
Import JS Rdap Runtime Contract Scenario Cases.

#[local] Existing Instance examplePlatform.
#[local] Existing Instance examplePlatform_laws.

Lemma exampleClock_monotone (i j : nat) :
  (i <= j)%nat -> (exampleClock i <= exampleClock j)%Q.
Proof.
  intros Hij. unfold exampleClock. apply Qmult_le_compat_r; [|done].
  rewrite <- Zle_Qle. lia.
Qed.

Lemma queryTime_is_not_negative_witness :
  match resp_body (exec worldFound
                     (Bootstrap.GET exampleSnapshot id None (Some "example.com"))).1.1 with
  | Failure _ (Some qt) => 0 <= qt
  | Failure _ None =>
      http_status (exec worldFound
                     (Bootstrap.GET exampleSnapshot id None (Some "example.com"))).1.1
      = 400
  | Success r => 0 <= Bootstrap.queryTime r
  end
  /\ match resp_body (exec worldFound (Verisign.GET id (Some "example.com"))).1 with
     | Failure _ (Some qt) => 0 <= qt
     | Failure _ None =>
         http_status (exec worldFound (Verisign.GET id (Some "example.com"))).1 = 400
     | Success r => 0 <= Verisign.queryTime r
     end.
Proof.
  exact (queryTime_is_not_negative exampleSnapshot id None (Some "example.com")
           worldFound exampleClock_monotone).
Defined.

End ElapsedScenario.
